(** * The nanoparticle and nanotube set-up dialogs of [ase.gui]

    A shallow embedding of [ase/gui/nanotube.py] and
    [ase/gui/nanoparticle.py].  A dialog is a Python object whose methods
    mutate its attributes; it is modelled as a record, a method as a
    computation in a state-and-exception monad over that record.  A raised
    exception keeps the mutations made before it, as in Python.

    What lives outside the two files (the widget toolkit [ase.gui.ui], the
    builders of [ase.build] and [ase.cluster], the host viewer) is a section
    variable, and every call that leaves the dialog is recorded in the
    dialog's trace.  The nanotube builder returns a tube or raises; so do
    the division by a computed volume and the rounding of a float.  Attributes and methods that the methods read on [self]
    but that no method of the class assigns ([update_element],
    [update_direction_table], [list_of_structures], ...) are late-bound on
    the instance: they are fields of the record or section variables too.
    Names that the module itself has to bind are resolved as the module
    binds them. *)

From Stdlib Require Import ZArith List String Ascii Bool Lia.
From stdpp Require Import base list strings.

Open Scope string_scope.
Open Scope list_scope.
Open Scope Z_scope.

(** ** Python outcomes *)

Module Py.

(** The exceptions the two modules can raise. *)
Inductive exn : Type :=
| AttributeError (type attribute : string)
| NameError (name : string)
| TypeError (what : string)
| IndexError
| KeyError (key : string)
| AssertionError
| RuntimeError (message : string)
| RecursionError
| ZeroDivisionError
| OverflowError.

Inductive outcome (A : Type) : Type :=
| Return (a : A)
| Raise (e : exn).
Arguments Return {A} a.
Arguments Raise {A} e.

(** A method body: it reads and mutates the object and either returns or
    raises. *)
Definition M (S A : Type) : Type := S -> outcome A * S.

Definition ret {S A} (a : A) : M S A := fun s => (Return a, s).
Definition raise {S A} (e : exn) : M S A := fun s => (Raise e, s).
Definition bind {S A B} (c : M S A) (k : A -> M S B) : M S B :=
  fun s =>
    match c s with
    | (Return a, s') => k a s'
    | (Raise e, s') => (Raise e, s')
    end.
Definition gets {S A} (f : S -> A) : M S A := fun s => (Return (f s), s).
Definition modify {S} (f : S -> S) : M S unit := fun s => (Return tt, f s).

(** [for x in xs: body x] *)
Fixpoint for_each {S A} (xs : list A) (body : A -> M S unit) : M S unit :=
  match xs with
  | [] => ret tt
  | x :: xs' => bind (body x) (fun _ => for_each xs' body)
  end.

(** [[f x for x in xs]], where [f] may raise. *)
Fixpoint comprehension {A B} (f : A -> outcome B) (xs : list A)
  : outcome (list B) :=
  match xs with
  | [] => Return []
  | x :: xs' =>
      match f x with
      | Raise e => Raise e
      | Return b =>
          match comprehension f xs' with
          | Raise e => Raise e
          | Return bs => Return (b :: bs)
          end
      end
  end.

Definition lift {S A} (o : outcome A) : M S A := fun s => (o, s).

(** Python's normalisation of a list index: a negative index counts from
    the end, anything else out of range is an [IndexError]. *)
Definition index (len : nat) (i : Z) : option nat :=
  if (0 <=? i) && (i <? Z.of_nat len) then Some (Z.to_nat i)
  else if (- Z.of_nat len <=? i) && (i <? 0) then Some (Z.to_nat (Z.of_nat len + i))
  else None.

End Py.

Import Py.

Notation "x <- c ;; k" := (bind c (fun x => k))
  (at level 100, c at next level, right associativity).
Notation "c ;;; k" := (bind c (fun _ => k))
  (at level 100, right associativity).

(** ** Numbers

    Lattice constants, bond lengths and surface energies are Python floats.
    The arithmetic on them is kept abstract: a method's result is the
    expression the source writes, association included, over whatever
    arithmetic the interpreter provides. *)

Class FloatOps (F : Type) : Type := {
  of_int : Z -> F;            (* an int operand in float arithmetic *)
  fmul : F -> F -> F;         (* x * y *)
  fdiv : F -> F -> F;         (* x / y, the divisor a non-zero constant *)
  fpow : F -> F -> F;         (* x ** y *)
  fsqrt : F -> F;             (* np.sqrt(x) *)
  fpi : F;                    (* np.pi *)
  truediv : F -> F -> outcome F;
                              (* x / y, the divisor computed: the quotient,
                                 or ZeroDivisionError for a zero divisor *)
  fround : F -> outcome F     (* round(x): the rounded number, or the
                                 exception for one that cannot be rounded *)
}.

(** A [ui.SpinBox(value, start, end, step, callback)]. *)
Record SpinBox (A : Type) : Type := mkSpinBox {
  sb_value : A;
  sb_start : A;
  sb_end : A;
  sb_step : A
}.
Arguments mkSpinBox {A}.
Arguments sb_value {A}.
Arguments sb_start {A}.
Arguments sb_end {A}.
Arguments sb_step {A}.

(** ** nanotube.py *)

Module Nanotube.

Definition introtext : string :=
  "Set up a Carbon nanotube by specifying the (n,m) roll-up vector.
Please note that m <= n.

Nanotubes of other elements can be made by specifying the element
and bond length.".

Section Dialog.

Context {F : Type} {ops : FloatOps F}.

(** [ase.Atoms], with [len(atoms)] and [atoms.cell[i, j]]. *)
Variable Atoms : Type.
Variable natoms : Atoms -> nat.
Variable cell : Atoms -> nat -> nat -> F.

(** [ase.build.nanotube(n, m, length=, bond=, symbol=)]: the call returns
    the tube or raises, as the library decides. *)
Variable nanotube : Z -> Z -> Z -> F -> string -> outcome Atoms.

(** The symbol an [Element] widget reports for the text typed into it,
    [None] when the text names no element. *)
Variable element_symbol : string -> option string.

(** Literals of [__init__]: [1.42], [10.0] and [0.01]. *)
Variable lit_1_42 lit_10 lit_0_01 : F.

(** [py_template.format(n=, m=, length=, symb=, bl=)], kept as the values
    substituted into the template. *)
Record script : Type := mkScript {
  py_n : Z; py_m : Z; py_length : Z; py_symb : string; py_bl : F
}.

(** The text of the description label: [''] or
    [label_template.format(natoms=, total_length=, diameter=)]. *)
Inductive label_text : Type :=
| EmptyText
| LabelTemplate (natoms_ : nat) (diameter total_length : F).

(** What leaves the dialog. *)
Inductive event : Type :=
| CallNanotube (n m length : Z) (bond : F) (symbol : string)
| NewAtoms (a : Atoms)                     (* gui.new_atoms(atoms) *)
| Oops (title message : string)            (* ui.oops(title, message) *)
| WinClose.                                (* win.close() *)

Record SetupNanotube : Type := mkSetupNanotube {
  element : string;                        (* text of the Element widget *)
  bondlength : SpinBox F;
  n : SpinBox Z;
  m : SpinBox Z;
  length : SpinBox Z;
  description : label_text;
  atoms : option Atoms;
  python : option script;
  trace : list event
}.

Definition set_description (v : label_text) (d : SetupNanotube) :=
  mkSetupNanotube (element d) (bondlength d) (n d) (m d) (length d)
                  v (atoms d) (python d) (trace d).
Definition set_atoms (v : option Atoms) (d : SetupNanotube) :=
  mkSetupNanotube (element d) (bondlength d) (n d) (m d) (length d)
                  (description d) v (python d) (trace d).
Definition set_python (v : option script) (d : SetupNanotube) :=
  mkSetupNanotube (element d) (bondlength d) (n d) (m d) (length d)
                  (description d) (atoms d) v (trace d).
Definition emit (e : event) : M SetupNanotube unit :=
  modify (fun d =>
    mkSetupNanotube (element d) (bondlength d) (n d) (m d) (length d)
                    (description d) (atoms d) (python d) (trace d ++ [e])).

(** [SetupNanotube.__init__]: the widgets and the two attributes. *)
Definition init : SetupNanotube :=
  {| element := "C";
     bondlength := mkSpinBox lit_1_42 (of_int 0) lit_10 lit_0_01;
     n := mkSpinBox 5 1 100 1;
     m := mkSpinBox 5 0 100 1;
     length := mkSpinBox 1 1 100 1;
     description := EmptyText;
     atoms := None;
     python := None;
     trace := [] |}.

(** [SetupNanotube.make] *)
Definition make : M SetupNanotube unit :=
  symbol <- gets (fun d => element_symbol (element d)) ;;
  match symbol with
  | None =>
      modify (set_atoms None) ;;;
      modify (set_python None) ;;;
      modify (set_description EmptyText)
  | Some symbol =>
      n_ <- gets (fun d => sb_value (n d)) ;;
      m_ <- gets (fun d => sb_value (m d)) ;;
      length_ <- gets (fun d => sb_value (length d)) ;;
      bl <- gets (fun d => sb_value (bondlength d)) ;;
      emit (CallNanotube n_ m_ length_ bl symbol) ;;;
      a <- lift (nanotube n_ m_ length_ bl symbol) ;;
      modify (set_atoms (Some a)) ;;;
      modify (set_python (Some (mkScript n_ m_ length_ symbol bl))) ;;;
      let label := LabelTemplate (natoms a)
                                 (fdiv (cell a 0%nat 0%nat) (of_int 2))
                                 (cell a 2%nat 2%nat) in
      modify (set_description label)
  end.

(** [SetupNanotube.apply] *)
Definition apply : M SetupNanotube bool :=
  make ;;;
  a <- gets atoms ;;
  match a with
  | Some a => emit (NewAtoms a) ;;; ret true
  | None =>
      emit (Oops "No valid atoms."
                 "You have not (yet) specified a consistent set of parameters.") ;;;
      ret false
  end.

(** [SetupNanotube.ok] *)
Definition ok : M SetupNanotube unit :=
  b <- apply ;;
  if b : bool then emit WinClose else ret tt.

End Dialog.

Arguments mkScript {F}.
Arguments EmptyText {F}.
Arguments LabelTemplate {F}.
Arguments CallNanotube {F Atoms}.
Arguments NewAtoms {F Atoms}.
Arguments Oops {F Atoms}.
Arguments WinClose {F Atoms}.
Arguments mkSetupNanotube {F Atoms}.
Arguments element {F Atoms}.
Arguments bondlength {F Atoms}.
Arguments n {F Atoms}.
Arguments m {F Atoms}.
Arguments length {F Atoms}.
Arguments description {F Atoms}.
Arguments atoms {F Atoms}.
Arguments python {F Atoms}.
Arguments trace {F Atoms}.
Arguments make {F ops Atoms}.
Arguments apply {F ops Atoms}.
Arguments ok {F ops Atoms}.

End Nanotube.

(** ** nanoparticle.py *)

Module Nanoparticle.

Inductive factory : Type :=
| FaceCenteredCubic
| BodyCenteredCubic
| SimpleCubic
| HexagonalClosedPacked
| Graphite.

(** Structures: abbreviation, name, 4-index, two lattice constants,
    factory. *)
Definition structure_data : list (string * string * bool * bool * factory) :=
  [ ("fcc", "Face centered cubic (fcc)", false, false, FaceCenteredCubic);
    ("bcc", "Body centered cubic (bcc)", false, false, BodyCenteredCubic);
    ("sc", "Simple cubic (sc)", false, false, SimpleCubic);
    ("hcp", "Hexagonal closed-packed (hcp)", true, true, HexagonalClosedPacked);
    ("graphite", "Graphite", true, true, Graphite) ].

(** A [dict] with string keys, in insertion order. *)
Definition dict (V : Type) : Type := list (string * V).

Fixpoint getitem {V} (d : dict V) (key : string) : option V :=
  match d with
  | [] => None
  | (k, v) :: d' => if String.eqb k key then Some v else getitem d' key
  end.

Definition import_names : dict string :=
  [ ("fcc", "from ase.cluster.cubic import FaceCenteredCubic");
    ("bcc", "from ase.cluster.cubic import BodyCenteredCubic");
    ("sc", "from ase.cluster.cubic import SimpleCubic");
    ("hcp", "from ase.cluster.hexagonal import HexagonalClosedPacked");
    ("graphite", "from ase.cluster.hexagonal import Graphite") ].

(** A direction is a tuple of Miller indices. *)
Definition direction : Type := list Z.

Definition default_layers : dict (list (direction * Z)) :=
  [ ("fcc", [([1; 0; 0], 6); ([1; 1; 0], 9); ([1; 1; 1], 5)]);
    ("bcc", [([1; 0; 0], 6); ([1; 1; 0], 9); ([1; 1; 1], 5)]);
    ("sc", [([1; 0; 0], 6); ([1; 1; 0], 9); ([1; 1; 1], 5)]);
    ("hcp", [([0; 0; 0; 1], 5); ([1; 0; -1; 0], 5)]);
    ("graphite", [([0; 0; 0; 1], 5); ([1; 0; -1; 0], 5)]) ].

(** The dictionaries [__init__] fills from [structure_data]. *)
Definition values : list string :=
  map (fun '(abbrev, _, _, _, _) => abbrev) structure_data.
Definition needs_4index : dict bool :=
  map (fun '(abbrev, _, n4, _, _) => (abbrev, n4)) structure_data.
Definition needs_2lat : dict bool :=
  map (fun '(abbrev, _, _, c, _) => (abbrev, c)) structure_data.
Definition factory_of : dict factory :=
  map (fun '(abbrev, _, _, _, f) => (abbrev, f)) structure_data.

(** [dict[key]] *)
Definition subscript {S V} (d : dict V) (key : string) : M S V :=
  match getitem d key with
  | Some v => ret v
  | None => raise (KeyError key)
  end.

(** [imp.split()[-1]]: the last blank-separated word. *)
Fixpoint last_word_from (acc : string) (s : string) : string :=
  match s with
  | EmptyString => acc
  | String c s' =>
      if Ascii.eqb c " "%char then
        match last_word_from EmptyString s' with
        | EmptyString => acc
        | w => w
        end
      else last_word_from (acc +:+ String c EmptyString) s'
  end.
Definition last_word : string -> string := last_word_from EmptyString.

(** The legal element: [False] at first, later what [update_element]
    leaves there. *)
Inductive elem : Type :=
| ElFalse
| ElNone
| ElSymbol (symbol : string).

(** A component of a row of the direction table: a bare number, as
    [add_direction] stores it, or an adjustment holding one, as [row_add]
    stores it.  Only the second has a [value] attribute. *)
Inductive cell (A : Type) : Type :=
| Plain (a : A)
| Adjustment (a : A).
Arguments Plain {A} a.
Arguments Adjustment {A} a.

(** [c.value], for a cell holding a Python [type]. *)
Definition value_of {A} (type : string) (c : cell A) : outcome A :=
  match c with
  | Adjustment a => Return a
  | Plain _ => Raise (AttributeError type "value")
  end.

(** A [ui.ComboBox(labels, values, callback)], seen through the two
    observations the dialog makes of it: [box.value], the value of the
    selected entry, and [box.get_active()], its index. *)
Record ComboBox : Type := mkComboBox {
  cb_value : string;
  cb_active : nat
}.

(** The methods that [add_direction] gives to buttons as callbacks. *)
Inductive callback : Type :=
| RowSwapNext                  (* self.row_swap_next *)
| RowDelete.                   (* self.row_delete *)

(** A button of a direction row, [ui.Button(text, callback, row)]: its
    callback, the row number bound to it as its one argument, and whether
    the button is active. *)
Record button : Type := mkButton {
  bt_callback : callback;
  bt_row : Z;
  bt_active : bool
}.

Section Dialog.

Context {F : Type} {ops : FloatOps F}.

(** [ase.Atoms] and [len(atoms)]. *)
Variable Atoms : Type.
Variable natoms : Atoms -> nat.

(** [latticeconstant]: a number, or the dict [{'a': a, 'c': c}]. *)
Inductive latconst : Type :=
| Lc (a : F)
| LcDict (a c : F).

(** The cluster factories of [ase.cluster], called as
    [factory(element, surfaces, layers, latticeconstant=lc)], and
    [ase.cluster.wulff_construction(symbol, surfaces, energies, size,
    structure, rounding, latticeconstant)].  Both are taken to return a
    cluster for the arguments they are given. *)
Variable cluster :
  factory -> elem -> list direction -> list Z -> latconst -> Atoms.
Variable wulff_construction :
  elem -> list direction -> list F -> F -> factory -> string -> latconst
  -> Atoms.

(** A row of the direction table: [x[0]], [x[1]], [x[2]]. *)
Record row : Type := mkRow {
  row_direction : direction;
  row_layers : cell Z;
  row_energy : cell F
}.

(** The spin box [add_direction] puts in a row of widgets. *)
Inductive spin : Type :=
| LayerSpin (layers : Z)       (* ui.SpinBox(layers, 1, 100, 1, update) *)
| EnergySpin (energy : F).     (* ui.SpinBox(energy, 0.0, 1000.0, 0.1, update) *)

(** A row of [direction_table_rows]: label, spin, up, down, delete. *)
Record row_widgets : Type := mkRowWidgets {
  rw_label : direction;
  rw_spin : spin;
  rw_up : button;
  rw_down : button;
  rw_delete : button
}.

(** The text of the generated script, kept as the values substituted
    into [py_template_layers] or [py_template_wulff]. *)
Inductive script : Type :=
| PyLayers (import_ : string) (element : elem) (surfaces : list direction)
           (layers : list Z) (latconst_ : latconst) (factory_ : string)
| PyWulff (element : elem) (surfaces : list direction) (energies : list F)
          (latconst_ : latconst) (natoms_ : F) (structure_ rounding : string).

(** The text of an information label. *)
Inductive label_text : Type :=
| Dash                          (* '-' *)
| NatomsText (n : nat)          (* str(len(atoms)) *)
| DiameterText (dia : F).       (* '%.1f A' % (dia,), in Angstrom *)

(** What leaves the dialog. *)
Inductive event : Type :=
| CallFactory (f : factory) (element : elem) (surfaces : list direction)
              (layers : list Z) (latticeconstant : latconst)
| CallWulff (element : elem) (surfaces : list direction)
            (energies : list F) (size : F) (structure_ : factory)
            (rounding : string) (latticeconstant : latconst)
| NewAtoms (a : Atoms)                      (* gui.new_atoms(atoms) *)
| Oops (title : string).                    (* a modal error dialog; the
                                               module binds no name that
                                               shows one *)

(** What the user sets through the widgets. *)
Record Inputs : Type := mkInputs {
  structure : ComboBox;
  method : ComboBox;
  lattice_const_a : F;
  lattice_const_c : F;
  newdir_index : list Z;
  newdir_layers : Z;
  newdir_esurf : F;
  size_n_radio : bool;
  size_dia_radio : bool;
  round_above : bool;
  round_below : bool;
  round_closest : bool;
  auto : bool
}.

(** What the dialog shows. *)
Record Display : Type := mkDisplay {
  direction_table_rows : list row_widgets;
  natoms_label : label_text;
  dia1_label : label_text;
  smaller_button : bool;
  larger_button : bool;
  pybut_python : option script;
  lattice_label_c : bool;
  lattice_box_c : bool;
  newdir_label_3 : bool;
  newdir_box_3 : bool
}.

Record SetupNanoparticle : Type := mkSetupNanoparticle {
  atoms : option Atoms;
  no_update : bool;
  legal_element : elem;
  elementinfo : string;
  fourindex : bool;
  old_structure : string;
  list_of_structures : list string;
  direction_table : list row;
  size_n_adj : F;
  size_dia_adj : F;
  inputs : Inputs;
  display : Display;
  trace : list event
}.


(** Attribute assignment. *)
Definition set_direction_table_rows (v : list row_widgets) (d : Display) : Display :=
  mkDisplay v (natoms_label d) (dia1_label d) (smaller_button d)
    (larger_button d) (pybut_python d) (lattice_label_c d) (lattice_box_c
    d) (newdir_label_3 d) (newdir_box_3 d).
Definition set_natoms_label (v : label_text) (d : Display) : Display :=
  mkDisplay (direction_table_rows d) v (dia1_label d) (smaller_button d)
    (larger_button d) (pybut_python d) (lattice_label_c d) (lattice_box_c
    d) (newdir_label_3 d) (newdir_box_3 d).
Definition set_dia1_label (v : label_text) (d : Display) : Display :=
  mkDisplay (direction_table_rows d) (natoms_label d) v (smaller_button d)
    (larger_button d) (pybut_python d) (lattice_label_c d) (lattice_box_c
    d) (newdir_label_3 d) (newdir_box_3 d).
Definition set_smaller_button (v : bool) (d : Display) : Display :=
  mkDisplay (direction_table_rows d) (natoms_label d) (dia1_label d) v
    (larger_button d) (pybut_python d) (lattice_label_c d) (lattice_box_c
    d) (newdir_label_3 d) (newdir_box_3 d).
Definition set_larger_button (v : bool) (d : Display) : Display :=
  mkDisplay (direction_table_rows d) (natoms_label d) (dia1_label d)
    (smaller_button d) v (pybut_python d) (lattice_label_c d)
    (lattice_box_c d) (newdir_label_3 d) (newdir_box_3 d).
Definition set_pybut_python (v : option script) (d : Display) : Display :=
  mkDisplay (direction_table_rows d) (natoms_label d) (dia1_label d)
    (smaller_button d) (larger_button d) v (lattice_label_c d)
    (lattice_box_c d) (newdir_label_3 d) (newdir_box_3 d).
Definition set_lattice_label_c (v : bool) (d : Display) : Display :=
  mkDisplay (direction_table_rows d) (natoms_label d) (dia1_label d)
    (smaller_button d) (larger_button d) (pybut_python d) v (lattice_box_c
    d) (newdir_label_3 d) (newdir_box_3 d).
Definition set_lattice_box_c (v : bool) (d : Display) : Display :=
  mkDisplay (direction_table_rows d) (natoms_label d) (dia1_label d)
    (smaller_button d) (larger_button d) (pybut_python d) (lattice_label_c
    d) v (newdir_label_3 d) (newdir_box_3 d).
Definition set_newdir_label_3 (v : bool) (d : Display) : Display :=
  mkDisplay (direction_table_rows d) (natoms_label d) (dia1_label d)
    (smaller_button d) (larger_button d) (pybut_python d) (lattice_label_c
    d) (lattice_box_c d) v (newdir_box_3 d).
Definition set_newdir_box_3 (v : bool) (d : Display) : Display :=
  mkDisplay (direction_table_rows d) (natoms_label d) (dia1_label d)
    (smaller_button d) (larger_button d) (pybut_python d) (lattice_label_c
    d) (lattice_box_c d) (newdir_label_3 d) v.

Definition set_atoms (v : option Atoms) (d : SetupNanoparticle) : SetupNanoparticle :=
  mkSetupNanoparticle v (no_update d) (legal_element d) (elementinfo d)
    (fourindex d) (old_structure d) (list_of_structures d)
    (direction_table d) (size_n_adj d) (size_dia_adj d) (inputs d)
    (display d) (trace d).
Definition set_no_update (v : bool) (d : SetupNanoparticle) : SetupNanoparticle :=
  mkSetupNanoparticle (atoms d) v (legal_element d) (elementinfo d)
    (fourindex d) (old_structure d) (list_of_structures d)
    (direction_table d) (size_n_adj d) (size_dia_adj d) (inputs d)
    (display d) (trace d).
Definition set_legal_element (v : elem) (d : SetupNanoparticle) : SetupNanoparticle :=
  mkSetupNanoparticle (atoms d) (no_update d) v (elementinfo d) (fourindex
    d) (old_structure d) (list_of_structures d) (direction_table d)
    (size_n_adj d) (size_dia_adj d) (inputs d) (display d) (trace d).
Definition set_elementinfo (v : string) (d : SetupNanoparticle) : SetupNanoparticle :=
  mkSetupNanoparticle (atoms d) (no_update d) (legal_element d) v
    (fourindex d) (old_structure d) (list_of_structures d)
    (direction_table d) (size_n_adj d) (size_dia_adj d) (inputs d)
    (display d) (trace d).
Definition set_fourindex (v : bool) (d : SetupNanoparticle) : SetupNanoparticle :=
  mkSetupNanoparticle (atoms d) (no_update d) (legal_element d)
    (elementinfo d) v (old_structure d) (list_of_structures d)
    (direction_table d) (size_n_adj d) (size_dia_adj d) (inputs d)
    (display d) (trace d).
Definition set_old_structure (v : string) (d : SetupNanoparticle) : SetupNanoparticle :=
  mkSetupNanoparticle (atoms d) (no_update d) (legal_element d)
    (elementinfo d) (fourindex d) v (list_of_structures d)
    (direction_table d) (size_n_adj d) (size_dia_adj d) (inputs d)
    (display d) (trace d).
Definition set_direction_table (v : list row) (d : SetupNanoparticle) : SetupNanoparticle :=
  mkSetupNanoparticle (atoms d) (no_update d) (legal_element d)
    (elementinfo d) (fourindex d) (old_structure d) (list_of_structures d)
    v (size_n_adj d) (size_dia_adj d) (inputs d) (display d) (trace d).
Definition set_size_n_adj (v : F) (d : SetupNanoparticle) : SetupNanoparticle :=
  mkSetupNanoparticle (atoms d) (no_update d) (legal_element d)
    (elementinfo d) (fourindex d) (old_structure d) (list_of_structures d)
    (direction_table d) v (size_dia_adj d) (inputs d) (display d) (trace
    d).
Definition set_size_dia_adj (v : F) (d : SetupNanoparticle) : SetupNanoparticle :=
  mkSetupNanoparticle (atoms d) (no_update d) (legal_element d)
    (elementinfo d) (fourindex d) (old_structure d) (list_of_structures d)
    (direction_table d) (size_n_adj d) v (inputs d) (display d) (trace d).
Definition set_inputs (v : Inputs) (d : SetupNanoparticle) : SetupNanoparticle :=
  mkSetupNanoparticle (atoms d) (no_update d) (legal_element d)
    (elementinfo d) (fourindex d) (old_structure d) (list_of_structures d)
    (direction_table d) (size_n_adj d) (size_dia_adj d) v (display d)
    (trace d).
Definition set_display (v : Display) (d : SetupNanoparticle) : SetupNanoparticle :=
  mkSetupNanoparticle (atoms d) (no_update d) (legal_element d)
    (elementinfo d) (fourindex d) (old_structure d) (list_of_structures d)
    (direction_table d) (size_n_adj d) (size_dia_adj d) (inputs d) v
    (trace d).
Definition set_trace (v : list event) (d : SetupNanoparticle) : SetupNanoparticle :=
  mkSetupNanoparticle (atoms d) (no_update d) (legal_element d)
    (elementinfo d) (fourindex d) (old_structure d) (list_of_structures d)
    (direction_table d) (size_n_adj d) (size_dia_adj d) (inputs d)
    (display d) v.

Definition emit (e : event) : M SetupNanoparticle unit :=
  modify (fun d => set_trace (trace d ++ [e]) d).

(** Assignment to an attribute of a widget. *)
Definition show (f : Display -> Display) : M SetupNanoparticle unit :=
  modify (fun d => set_display (f (display d)) d).

(** Methods the class calls on [self] and does not define. *)
Variable update_element : M SetupNanoparticle bool.
Variable update_direction_table : M SetupNanoparticle unit.

(** [SetupNanoparticle.clearatoms] *)
Definition clearatoms : M SetupNanoparticle unit :=
  modify (set_atoms None) ;;;
  show (set_pybut_python None).

(** [self.list_of_structures[self.structure.get_active()]] *)
Definition active_structure : M SetupNanoparticle string :=
  active <- gets (fun d => cb_active (structure (inputs d))) ;;
  structures <- gets list_of_structures ;;
  match structures !! active with
  | Some s => ret s
  | None => raise IndexError
  end.

(** [SetupNanoparticle.get_atomic_volume] *)
Definition get_atomic_volume : M SetupNanoparticle F :=
  s <- active_structure ;;
  a <- gets (fun d => lattice_const_a (inputs d)) ;;
  c <- gets (fun d => lattice_const_c (inputs d)) ;;
  if String.eqb s "fcc" then
    ret (fdiv (fpow a (of_int 3)) (of_int 4))
  else if String.eqb s "bcc" then
    ret (fdiv (fpow a (of_int 3)) (of_int 2))
  else if String.eqb s "sc" then
    ret (fpow a (of_int 3))
  else if String.eqb s "hcp" then
    ret (fdiv (fmul (fmul (fmul (fdiv (fsqrt (of_int 3)) (of_int 2)) a) a) c)
              (of_int 2))
  else if String.eqb s "graphite" then
    ret (fdiv (fmul (fmul (fmul (fdiv (fsqrt (of_int 3)) (of_int 2)) a) a) c)
              (of_int 4))
  else
    raise (RuntimeError ("Unknown structure: " +:+ s)).

(** [2 * (3 * count * at_vol / (4 * np.pi)) ** (1.0 / 3)], the diameter of
    a sphere holding [count] atoms. *)
Definition diameter (count at_vol : F) : F :=
  fmul (of_int 2)
       (fpow (fdiv (fmul count at_vol) (fmul (of_int 4) fpi))
             (fdiv (of_int 1) (of_int 3))).

(** [SetupNanoparticle.makeinfo] *)
Definition makeinfo : M SetupNanoparticle unit :=
  a <- gets atoms ;;
  match a with
  | None =>
      show (set_natoms_label Dash) ;;;
      show (set_dia1_label Dash) ;;;
      show (set_smaller_button false) ;;;
      show (set_larger_button false)
  | Some a =>
      show (set_natoms_label (NatomsText (natoms a))) ;;;
      at_vol <- get_atomic_volume ;;
      let dia := diameter (of_int (3 * Z.of_nat (natoms a))) at_vol in
      show (set_dia1_label (DiameterText dia)) ;;;
      show (set_smaller_button true) ;;;
      show (set_larger_button true)
  end.

(** [SetupNanoparticle.update], over the [makeatoms] it calls. *)
Definition update_with (makeatoms : M SetupNanoparticle (option bool))
  : M SetupNanoparticle unit :=
  quiet <- gets no_update ;;
  if quiet : bool then ret tt
  else
    update_element ;;;
    automatic <- gets (fun d => auto (inputs d)) ;;
    (if automatic : bool then
       makeatoms ;;;
       a <- gets atoms ;;
       match a with
       | Some a => emit (NewAtoms a)
       | None => ret tt
       end
     else clearatoms) ;;;
    makeinfo.

(** [SetupNanoparticle.update_size_n], over the [update] it calls. *)
Definition update_size_n_with (update : M SetupNanoparticle unit)
  : M SetupNanoparticle unit :=
  active <- gets (fun d => size_n_radio (inputs d)) ;;
  if negb active then ret tt
  else
    at_vol <- get_atomic_volume ;;
    count <- gets size_n_adj ;;
    modify (set_size_dia_adj (diameter (fmul (of_int 3) count) at_vol)) ;;;
    update.

(** [round(np.pi / 6 * dia ** 3 / at_vol)], the number of atoms in a
    sphere of diameter [dia].  The division is by a computed volume, which
    is zero for a lattice constant of zero. *)
Definition count_in_sphere (dia at_vol : F) : outcome F :=
  match truediv (fmul (fdiv fpi (of_int 6)) (fpow dia (of_int 3))) at_vol with
  | Return quotient => fround quotient
  | Raise e => Raise e
  end.

(** [SetupNanoparticle.update_size_dia], over the [update] it calls. *)
Definition update_size_dia_with (update : M SetupNanoparticle unit)
  : M SetupNanoparticle unit :=
  active <- gets (fun d => size_dia_radio (inputs d)) ;;
  if negb active then ret tt
  else
    at_vol <- get_atomic_volume ;;
    dia <- gets size_dia_adj ;;
    n <- lift (count_in_sphere dia at_vol) ;;
    modify (set_size_n_adj n) ;;;
    update.

(** The rounding chosen by the radio buttons. *)
Definition rounding_choice : M SetupNanoparticle string :=
  above <- gets (fun d => round_above (inputs d)) ;;
  if above : bool then ret "above"
  else
    below <- gets (fun d => round_below (inputs d)) ;;
    if below : bool then ret "below"
    else
      closest <- gets (fun d => round_closest (inputs d)) ;;
      if closest : bool then ret "closest"
      else raise (RuntimeError "No rounding!").

(** [SetupNanoparticle.makeatoms], over the [update] that
    [update_size_dia] calls.  It returns [False] or [None]. *)
Definition makeatoms_with (update : M SetupNanoparticle unit)
  : M SetupNanoparticle (option bool) :=
  valid <- update_element ;;
  if negb valid then
    clearatoms ;;;
    makeinfo ;;;
    ret (Some false)
  else
    el <- gets legal_element ;;
    match el with
    | ElNone => raise AssertionError
    | _ =>
        struct <- active_structure ;;
        two <- subscript needs_2lat struct ;;
        a <- gets (fun d => lattice_const_a (inputs d)) ;;
        c <- gets (fun d => lattice_const_c (inputs d)) ;;
        let lc := if two : bool then LcDict a c else Lc a in
        active <- gets (fun d => cb_active (method (inputs d))) ;;
        (if Nat.eqb active 0 then
           (* Layer-by-layer specification *)
           table <- gets direction_table ;;
           let surfaces := map row_direction table in
           layers <- lift (comprehension
                             (fun x => value_of "int" (row_layers x)) table) ;;
           f <- subscript factory_of struct ;;
           el <- gets legal_element ;;
           emit (CallFactory f el surfaces layers lc) ;;;
           modify (set_atoms (Some (cluster f el surfaces layers lc))) ;;;
           imp <- subscript import_names struct ;;
           show (set_pybut_python
                   (Some (PyLayers imp el surfaces layers lc (last_word imp))))
         else
           (* Wulff construction *)
           (if Nat.eqb active 1 then ret tt else raise AssertionError) ;;;
           table <- gets direction_table ;;
           let surfaces := map row_direction table in
           surfaceenergies <- lift (comprehension
                             (fun x => value_of "float" (row_energy x)) table) ;;
           update_size_dia_with update ;;;
           rounding <- rounding_choice ;;
           el <- gets legal_element ;;
           size <- gets size_n_adj ;;
           f <- subscript factory_of struct ;;
           emit (CallWulff el surfaces surfaceenergies size f rounding lc) ;;;
           modify (set_atoms
                     (Some (wulff_construction el surfaces surfaceenergies
                                               size f rounding lc))) ;;;
           show (set_pybut_python
                   (Some (PyWulff el surfaces surfaceenergies lc size
                                  struct rounding)))) ;;;
        makeinfo ;;;
        ret None
    end.

(** [makeatoms] and [update] call each other through [update_size_dia];
    [depth] is the number of nested calls of [makeatoms] the interpreter
    still allows before it raises [RecursionError]. *)
Fixpoint makeatoms (depth : nat) : M SetupNanoparticle (option bool) :=
  match depth with
  | O => raise RecursionError
  | S depth' => makeatoms_with (update_with (makeatoms depth'))
  end.

Definition update (depth : nat) : M SetupNanoparticle unit :=
  update_with (makeatoms depth).
Definition update_size_n (depth : nat) : M SetupNanoparticle unit :=
  update_size_n_with (update depth).
Definition update_size_dia (depth : nat) : M SetupNanoparticle unit :=
  update_size_dia_with (update depth).

(** The [down] and [delete] buttons of a row are switched on. *)
Definition activate (r : row_widgets) : row_widgets :=
  mkRowWidgets (rw_label r) (rw_spin r) (rw_up r)
               (mkButton (bt_callback (rw_down r)) (bt_row (rw_down r)) true)
               (mkButton (bt_callback (rw_delete r)) (bt_row (rw_delete r))
                         true).

(** [SetupNanoparticle.add_direction] *)
Definition add_direction (depth : nat) (direction_ : direction)
           (layers : Z) (energy : F) : M SetupNanoparticle unit :=
  i <- gets (fun d => Z.of_nat (length (direction_table d))) ;;
  modify (fun d =>
    set_direction_table
      (direction_table d ++ [mkRow direction_ (Plain layers) (Plain energy)])
      d) ;;;
  chosen <- gets (fun d => cb_value (method (inputs d))) ;;
  let spin_ :=
    if String.eqb chosen "wulff" then EnergySpin energy
    else LayerSpin layers in
  let up := mkButton RowSwapNext (i - 1) (0 <? i) in
  let down := mkButton RowSwapNext i false in
  let delete_ := mkButton RowDelete i (0 <? i) in
  show (fun v =>
    set_direction_table_rows
      (direction_table_rows v
         ++ [mkRowWidgets direction_ spin_ up down delete_]) v) ;;;
  (if 0 <? i then
     rows <- gets (fun d => direction_table_rows (display d)) ;;
     match index (length rows) (-2) with
     | Some previous =>
         show (set_direction_table_rows (alter activate previous rows))
     | None => raise IndexError
     end
   else ret tt) ;;;
  update depth.

(** [SetupNanoparticle.default_direction_table] *)
Definition default_direction_table (depth : nat)
  : M SetupNanoparticle unit :=
  modify (set_direction_table []) ;;;
  show (set_direction_table_rows []) ;;;
  struct <- gets (fun d => cb_value (structure (inputs d))) ;;
  defaults <- subscript default_layers struct ;;
  for_each defaults
           (fun '(direction_, layers) =>
              add_direction depth direction_ layers (of_int 1)).

(** [SetupNanoparticle.update_structure] *)
Definition update_structure (depth : nat) : M SetupNanoparticle unit :=
  s <- gets (fun d => cb_value (structure (inputs d))) ;;
  old <- gets old_structure ;;
  (if negb (String.eqb s old) then
     old4 <- gets fourindex ;;
     n4 <- subscript needs_4index s ;;
     modify (set_fourindex n4) ;;;
     (if negb (Bool.eqb n4 old4) then
        (* The table of directions is invalid. *)
        default_direction_table depth
      else ret tt) ;;;
     modify (set_old_structure s) ;;;
     two <- subscript needs_2lat s ;;
     show (set_lattice_label_c two) ;;;
     show (set_lattice_box_c two) ;;;
     four <- gets fourindex ;;
     show (set_newdir_label_3 four) ;;;
     show (set_newdir_box_3 four)
   else ret tt) ;;;
  update depth.

(** The value a sum has in a numpy array of 64-bit integers, where
    arithmetic wraps around. *)
Definition int64 (z : Z) : Z := (z + 2 ^ 63) mod 2 ^ 64 - 2 ^ 63.

(** [np.array(idx).any()] and [np.array(idx)[:3].sum()], for indices that
    the array holds as 64-bit integers. *)
Definition any_nonzero (idx : list Z) : bool :=
  existsb (fun i => negb (i =? 0)) idx.
Definition sum_first_three (idx : list Z) : Z :=
  int64 (foldr Z.add 0 (take 3 idx)).

(** [SetupNanoparticle.row_add].  The module binds no [oops]: the only
    names it imports from the toolkit are [ui], [Element], [pybutton] and
    [helpbutton], so the call [oops(...)] stops at the name. *)
Definition row_add : M SetupNanoparticle unit :=
  four <- gets fourindex ;;
  let n := if four : bool then 4%nat else 3%nat in
  idx <- gets (fun d => take n (newdir_index (inputs d))) ;;
  if negb (any_nonzero idx) then
    raise (NameError "oops")
  else if Nat.eqb n 4 && negb (sum_first_three idx =? 0) then
    raise (NameError "oops")
  else
    adj1 <- gets (fun d => Adjustment (newdir_layers (inputs d))) ;;
    adj2 <- gets (fun d => Adjustment (newdir_esurf (inputs d))) ;;
    modify (fun d =>
      set_direction_table (direction_table d ++ [mkRow idx adj1 adj2]) d) ;;;
    update_direction_table.

(** [SetupNanoparticle.row_delete] *)
Definition row_delete (row_ : Z) : M SetupNanoparticle unit :=
  dt <- gets direction_table ;;
  match index (length dt) row_ with
  | Some i => modify (set_direction_table (delete i dt))
  | None => raise IndexError
  end ;;;
  update_direction_table.

(** [SetupNanoparticle.row_swap_next(self, widget, row)]: the right-hand
    side [dt[row+1], dt[row]] is read first, then [dt[row]] and
    [dt[row+1]] are assigned in that order.  The widget is not used. *)
Definition row_swap_next {W : Type} (widget : W) (row_ : Z)
  : M SetupNanoparticle unit :=
  dt <- gets direction_table ;;
  match index (length dt) (row_ + 1), index (length dt) row_ with
  | Some j, Some i =>
      match dt !! j, dt !! i with
      | Some next, Some this =>
          modify (set_direction_table (<[j := this]> (<[i := next]> dt)))
      | _, _ => raise IndexError
      end
  | _, _ => raise IndexError
  end ;;;
  update_direction_table.

(** A callback called with the positional arguments [args]:
    [row_swap_next] takes a widget and a row, [row_delete] a row. *)
Definition call (method_ : callback) (args : list Z)
  : M SetupNanoparticle unit :=
  match method_, args with
  | RowSwapNext, [widget; row_] => row_swap_next widget row_
  | RowSwapNext, [_] =>
      raise (TypeError "missing 1 required positional argument: 'row'")
  | RowSwapNext, [] =>
      raise (TypeError
               "missing 2 required positional arguments: 'widget' and 'row'")
  | RowSwapNext, _ => raise (TypeError "too many positional arguments")
  | RowDelete, [row_] => row_delete row_
  | RowDelete, [] =>
      raise (TypeError "missing 1 required positional argument: 'row'")
  | RowDelete, _ => raise (TypeError "too many positional arguments")
  end.

(** Pressing a button: the toolkit calls the callback with the one
    argument the button was made with. *)
Definition press (b : button) : M SetupNanoparticle unit :=
  call (bt_callback b) [bt_row b].

(** [SetupNanoparticle.apply].  As in [row_add], [oops] is not bound. *)
Definition apply (depth : nat) : M SetupNanoparticle bool :=
  makeatoms depth ;;;
  a <- gets atoms ;;
  match a with
  | Some a => emit (NewAtoms a) ;;; ret true
  | None => raise (NameError "oops")
  end.

(** [d'] has the settings and the direction table of [d]: what may
    differ is what a refresh repaints, that is the atoms, the legal
    element, the script, and the labels and buttons. *)
Definition same_table (d d' : SetupNanoparticle) : Prop :=
  no_update d' = no_update d
  /\ inputs d' = inputs d
  /\ fourindex d' = fourindex d
  /\ old_structure d' = old_structure d
  /\ direction_table d' = direction_table d
  /\ direction_table_rows (display d')
     = direction_table_rows (display d).

(** The rows [default_direction_table] makes of the defaults of a
    structure. *)
Definition default_rows (defaults : list (direction * Z)) : list row :=
  map (fun '(direction_, layers) =>
         mkRow direction_ (Plain layers) (Plain (of_int 1)))
      defaults.

End Dialog.

Arguments same_table {F Atoms}.
Arguments default_rows {F ops}.
Arguments mkSetupNanoparticle {F Atoms}.
Arguments atoms {F Atoms}.
Arguments no_update {F Atoms}.
Arguments legal_element {F Atoms}.
Arguments elementinfo {F Atoms}.
Arguments fourindex {F Atoms}.
Arguments old_structure {F Atoms}.
Arguments list_of_structures {F Atoms}.
Arguments direction_table {F Atoms}.
Arguments size_n_adj {F Atoms}.
Arguments size_dia_adj {F Atoms}.
Arguments inputs {F Atoms}.
Arguments display {F Atoms}.
Arguments trace {F Atoms}.
Arguments set_atoms {F Atoms}.
Arguments set_no_update {F Atoms}.
Arguments set_legal_element {F Atoms}.
Arguments set_elementinfo {F Atoms}.
Arguments set_fourindex {F Atoms}.
Arguments set_old_structure {F Atoms}.
Arguments set_direction_table {F Atoms}.
Arguments set_size_n_adj {F Atoms}.
Arguments set_size_dia_adj {F Atoms}.
Arguments set_inputs {F Atoms}.
Arguments set_display {F Atoms}.
Arguments set_trace {F Atoms}.
Arguments CallFactory {F Atoms}.
Arguments CallWulff {F Atoms}.
Arguments NewAtoms {F Atoms}.
Arguments Oops {F Atoms}.
Arguments emit {F Atoms}.
Arguments show {F Atoms}.
Arguments clearatoms {F Atoms}.
Arguments active_structure {F Atoms}.
Arguments rounding_choice {F Atoms}.
Arguments row_add {F Atoms}.
Arguments row_delete {F Atoms}.
Arguments row_swap_next {F Atoms} update_direction_table {W} widget row_.
Arguments call {F Atoms}.
Arguments press {F Atoms}.
Arguments get_atomic_volume {F ops Atoms}.
Arguments makeinfo {F ops Atoms}.
Arguments update_with {F ops Atoms}.
Arguments update_size_n_with {F ops Atoms}.
Arguments update_size_dia_with {F ops Atoms}.
Arguments makeatoms_with {F ops Atoms}.
Arguments makeatoms {F ops Atoms}.
Arguments update {F ops Atoms}.
Arguments update_size_n {F ops Atoms}.
Arguments update_size_dia {F ops Atoms}.
Arguments add_direction {F ops Atoms}.
Arguments default_direction_table {F ops Atoms}.
Arguments update_structure {F ops Atoms}.
Arguments apply {F ops Atoms}.

End Nanoparticle.

(** ** A library to run the dialogs on

    For worked examples the arithmetic is the free one, where a number is the
    expression that computes it, and an atoms object is the call that built
    it. *)

Module Symbolic.

Inductive num : Type :=
| Int (z : Z)
| Float (literal : string)
| Mul (x y : num)
| Div (x y : num)
| Pow (x y : num)
| Sqrt (x : num)
| Pi
| Round (x : num)
| Cell (n m length : Z) (bond : num) (symbol : string) (i j : nat).

(** An expression that is zero whatever its other operands are. *)
Fixpoint is_zero (x : num) : bool :=
  match x with
  | Int z => z =? 0
  | Float literal => String.eqb literal "0.0"
  | Mul x y => is_zero x || is_zero y
  | Div x _ => is_zero x
  | Pow x y => is_zero x && negb (is_zero y)
  | Sqrt x => is_zero x
  | _ => false
  end.

#[global] Instance num_ops : FloatOps num :=
  {| of_int := Int; fmul := Mul; fdiv := Div; fpow := Pow; fsqrt := Sqrt;
     fpi := Pi;
     truediv := fun x y =>
       if is_zero y then Raise ZeroDivisionError else Return (Div x y);
     fround := fun x => Return (Round x) |}.

(** The nanotube library. *)
Record tube : Type := Tube {
  tube_n : Z; tube_m : Z; tube_length : Z; tube_bond : num;
  tube_symbol : string
}.
Definition tube_natoms (t : tube) : nat :=
  Z.to_nat (4 * tube_n t * tube_length t).
Definition tube_cell (t : tube) (i j : nat) : num :=
  Cell (tube_n t) (tube_m t) (tube_length t) (tube_bond t) (tube_symbol t) i j.

(** A library that builds every tube, and one that refuses a roll-up
    vector with [m > n]. *)
Definition build_tube (n m length : Z) (bond : num) (symbol : string)
  : outcome tube :=
  Return (Tube n m length bond symbol).
Definition refusing_tube (n m length : Z) (bond : num) (symbol : string)
  : outcome tube :=
  if n <? m then Raise (RuntimeError "m > n")
  else Return (Tube n m length bond symbol).

(** An element widget that knows carbon and gold. *)
Definition known_symbol (text : string) : option string :=
  if String.eqb text "C" then Some "C"
  else if String.eqb text "Au" then Some "Au"
  else None.

Definition tube_dialog : Nanotube.SetupNanotube tube :=
  Nanotube.init tube (Float "1.42") (Float "10.0") (Float "0.01").

(** The user asks for the roll-up vector (1, 100). *)
Definition tube_1_100 : Nanotube.SetupNanotube tube :=
  Nanotube.mkSetupNanotube
    "C" (Nanotube.bondlength tube_dialog)
    (mkSpinBox 1 1 100 1) (mkSpinBox 100 0 100 1)
    (Nanotube.length tube_dialog)
    Nanotube.EmptyText None None [].

(** The cluster library. *)
Inductive particle : Type :=
| Cluster (f : Nanoparticle.factory) (element : Nanoparticle.elem)
          (surfaces : list Nanoparticle.direction) (layers : list Z)
          (latticeconstant : Nanoparticle.latconst (F := num))
| Wulff (element : Nanoparticle.elem)
        (surfaces : list Nanoparticle.direction) (energies : list num)
        (size : num) (structure_ : Nanoparticle.factory) (rounding : string)
        (latticeconstant : Nanoparticle.latconst (F := num)).

Definition particle_natoms (p : particle) : nat :=
  match p with
  | Cluster _ _ _ layers _ => Z.to_nat (foldr Z.mul 1 layers)
  | Wulff _ _ _ _ _ _ _ => 100%nat
  end.

Import Nanoparticle.

Abbreviation dialog := (SetupNanoparticle (F := num) particle).

(** An [update_element] that finds copper in the element widget, and one
    that finds nothing valid there. *)
Definition accept_copper : M dialog bool :=
  fun d =>
    (Return true, set_elementinfo " " (set_legal_element (ElSymbol "Cu") d)).
Definition reject_element : M dialog bool :=
  fun d =>
    (Return false,
     set_elementinfo "  No element specified!" (set_legal_element ElNone d)).

(** An [update_direction_table] that leaves the attributes alone. *)
Definition redraw : M dialog unit := ret tt.

(** The attributes as [__init__] finds or sets them before it fills the
    direction table: no atoms, updates switched off, the first structure
    and the first method selected. *)
Definition blank : dialog :=
  {| atoms := None;
     no_update := true;
     legal_element := ElFalse;
     elementinfo := " ";
     fourindex := false;
     old_structure := "undefined";
     list_of_structures := values;
     direction_table := [];
     size_n_adj := Int 100;
     size_dia_adj := Float "1.0";
     inputs :=
       {| structure := mkComboBox "fcc" 0;
          method := mkComboBox "layers" 0;
          lattice_const_a := Float "3.0";
          lattice_const_c := Float "3.0";
          newdir_index := [0; 0; 0; 0];
          newdir_layers := 5;
          newdir_esurf := Float "1.0";
          size_n_radio := true;
          size_dia_radio := false;
          round_above := false;
          round_below := false;
          round_closest := true;
          auto := false |};
     display :=
       {| direction_table_rows := [];
          natoms_label := Dash;
          dia1_label := Dash;
          smaller_button := false;
          larger_button := false;
          pybut_python := None;
          lattice_label_c := false;
          lattice_box_c := false;
          newdir_label_3 := false;
          newdir_box_3 := false |};
     trace := [] |}.

(** The user's choices, made on a dialog. *)
Definition choose (structure_ method_ : ComboBox) (index_ : list Z)
           (auto_ : bool) (d : dialog) : dialog :=
  set_inputs
    {| structure := structure_;
       method := method_;
       lattice_const_a := lattice_const_a (inputs d);
       lattice_const_c := lattice_const_c (inputs d);
       newdir_index := index_;
       newdir_layers := newdir_layers (inputs d);
       newdir_esurf := newdir_esurf (inputs d);
       size_n_radio := size_n_radio (inputs d);
       size_dia_radio := size_dia_radio (inputs d);
       round_above := round_above (inputs d);
       round_below := round_below (inputs d);
       round_closest := round_closest (inputs d);
       auto := auto_ |} d.

(** The depth of calls the interpreter allows by default. *)
Definition recursion_limit : nat := 1000.

(** The dialog once [__init__] has run [default_direction_table] and
    [update_structure] and has switched updates on. *)
Definition opened (check : M dialog bool) : dialog :=
  let filled :=
    snd (default_direction_table particle_natoms Cluster Wulff check
                                 recursion_limit blank) in
  set_no_update false
    (snd (update_structure particle_natoms Cluster Wulff check
                           recursion_limit filled)).

(** The same dialog with the Wulff construction selected. *)
Definition opened_wulff (check : M dialog bool) : dialog :=
  choose (mkComboBox "fcc" 0) (mkComboBox "wulff" 1) [0; 0; 0; 0] false
         (opened check).

(** The same dialog at the moment the user selects [hcp], with the new
    direction (1, 0, 0, 0) typed in, and once [update_structure] has
    run. *)
Definition hcp_selected (check : M dialog bool) : dialog :=
  choose (mkComboBox "hcp" 3) (mkComboBox "layers" 0) [1; 0; 0; 0] false
         (opened check).
Definition opened_hcp (check : M dialog bool) : dialog :=
  snd (update_structure particle_natoms Cluster Wulff check
                        recursion_limit (hcp_selected check)).


(** The default rows of the cubic and of the hexagonal structures. *)
Definition cubic_rows : list (row (F := num)) :=
  [ mkRow [1; 0; 0] (Plain 6) (Plain (Int 1));
    mkRow [1; 1; 0] (Plain 9) (Plain (Int 1));
    mkRow [1; 1; 1] (Plain 5) (Plain (Int 1)) ].
Definition hexagonal_rows : list (row (F := num)) :=
  [ mkRow [0; 0; 0; 1] (Plain 5) (Plain (Int 1));
    mkRow [1; 0; -1; 0] (Plain 5) (Plain (Int 1)) ].

End Symbolic.

(** ** Relations and invariants of the nanoparticle dialog *)

Module Laws.

Import Nanoparticle.

(** A computation keeps a relation between the object before and after,
    whether it returns or raises. *)
Definition keeps {S A : Type} (R : S -> S -> Prop) (c : M S A) : Prop :=
  forall s : S, R s (snd (c s)).

(** A direction of the given arity for which the two checks of [row_add]
    are meant: it is not all zero and, with four indices, its first three
    sum to zero. *)
Definition valid_direction (four : bool) (idx : direction) : Prop :=
  length idx = (if four then 4 else 3)%nat
  /\ any_nonzero idx = true
  /\ (four = true -> foldr Z.add 0 (take 3 idx) = 0).

(** Indices up to this size, far beyond the range from -100 to 100 of
    the index spin boxes, are summed without wrap-around. *)
Definition index_bound : Z := 2 ^ 61.

(** The buttons of a row of widgets have the callbacks [add_direction]
    gives them. *)
Definition row_wired (w_up w_down w_delete : button) : Prop :=
  bt_callback w_up = RowSwapNext
  /\ bt_callback w_down = RowSwapNext
  /\ bt_callback w_delete = RowDelete.

Section Dialog.

Context {F : Type}.
Variable Atoms : Type.

(** [d'] has the settings of [d]: the widgets, the structures, the
    direction table and the switches. *)
Definition same_settings (d d' : SetupNanoparticle (F := F) Atoms) : Prop :=
  no_update d' = no_update d
  /\ inputs d' = inputs d
  /\ fourindex d' = fourindex d
  /\ old_structure d' = old_structure d
  /\ list_of_structures d' = list_of_structures d
  /\ direction_table d' = direction_table d.

(** Every direction of the table has the arity of the dialog and passes
    the checks. *)
Definition table_valid (d : SetupNanoparticle (F := F) Atoms) : Prop :=
  Forall (fun x => valid_direction (fourindex d) (row_direction x))
         (direction_table d).

(** The widgets [w] of row [i] of a table of [n] rows, as [add_direction]
    leaves them: the label is the direction of the row, the buttons are
    bound to the rows [i-1], [i] and [i], [Up] is active except on the
    first row, [Down] except on the last, and [Delete] except on a first
    row that is alone. *)
Definition row_in_step (n i : nat) (x : row (F := F)) (w : row_widgets (F := F))
  : Prop :=
  rw_label w = row_direction x
  /\ bt_row (rw_up w) = Z.of_nat i - 1
  /\ bt_row (rw_down w) = Z.of_nat i
  /\ bt_row (rw_delete w) = Z.of_nat i
  /\ bt_active (rw_up w) = (0 <? Z.of_nat i)
  /\ bt_active (rw_down w) = (Z.of_nat i + 1 <? Z.of_nat n)
  /\ bt_active (rw_delete w) = (0 <? Z.of_nat i) || (1 <? Z.of_nat n).

(** The rows of widgets are in step with the direction table. *)
Definition rows_in_step (d : SetupNanoparticle (F := F) Atoms) : Prop :=
  length (direction_table_rows (display d)) = length (direction_table d)
  /\ forall (i : nat) (x : row) (w : row_widgets),
       direction_table d !! i = Some x ->
       direction_table_rows (display d) !! i = Some w ->
       row_in_step (length (direction_table d)) i x w.

(** The settings under which a refresh builds a Wulff construction
    from a diameter: updates are on, automatic apply is ticked, the Wulff
    construction is selected with the size given as a diameter, the
    selected structure is one of [structure_data], and every row holds an
    adjustment for its energy. *)
Definition rebuilds_from_diameter (d : SetupNanoparticle (F := F) Atoms)
  : Prop :=
  no_update d = false
  /\ auto (inputs d) = true
  /\ size_dia_radio (inputs d) = true
  /\ cb_active (method (inputs d)) = 1%nat
  /\ (exists (s : string) (two : bool),
        list_of_structures d !! cb_active (structure (inputs d)) = Some s
        /\ getitem needs_2lat s = Some two)
  /\ (exists energies : list F,
        comprehension (fun x => value_of "float" (row_energy x))
                      (direction_table d)
        = Return energies).

(** The rows of widgets have their callbacks. *)
Definition rows_wired (d : SetupNanoparticle (F := F) Atoms) : Prop :=
  Forall (fun w : row_widgets (F := F) =>
            row_wired (rw_up w) (rw_down w) (rw_delete w))
         (direction_table_rows (display d)).

(** [d'] has the widgets and the two sizes of [d]. *)
Definition same_numbers (d d' : SetupNanoparticle (F := F) Atoms) : Prop :=
  inputs d' = inputs d
  /\ size_dia_adj d' = size_dia_adj d
  /\ size_n_adj d' = size_n_adj d.

(** [d'] has the widgets and the diameter of [d]. *)
Definition same_diameter (d d' : SetupNanoparticle (F := F) Atoms) : Prop :=
  inputs d' = inputs d
  /\ size_dia_adj d' = size_dia_adj d.

(** [d'] has the widgets and the diameter of [d], and its number of
    atoms when the size is not given as a diameter. *)
Definition same_count (d d' : SetupNanoparticle (F := F) Atoms) : Prop :=
  inputs d' = inputs d
  /\ size_dia_adj d' = size_dia_adj d
  /\ (size_dia_radio (inputs d) = false -> size_n_adj d' = size_n_adj d).

(** [d'] has the widgets and the diameter of [d], and its number of
    atoms unless the Wulff construction is selected with the size given
    as a diameter. *)
Definition same_sizes (d d' : SetupNanoparticle (F := F) Atoms) : Prop :=
  inputs d' = inputs d
  /\ size_dia_adj d' = size_dia_adj d
  /\ (size_dia_radio (inputs d) = false
      \/ cb_active (method (inputs d)) = 0%nat ->
      size_n_adj d' = size_n_adj d).

Context {ops : FloatOps F}.

(** The diameter of the dialog converts to a number of atoms: for the
    volume per atom of its structure, the division and the rounding of
    [update_size_dia] return. *)
Definition converts_diameter (d : SetupNanoparticle (F := F) Atoms) : Prop :=
  forall at_vol : F,
    fst (get_atomic_volume d) = Return at_vol ->
    exists n : F, count_in_sphere (size_dia_adj d) at_vol = Return n.

End Dialog.

Arguments same_settings {F Atoms}.
Arguments table_valid {F Atoms}.
Arguments rows_in_step {F Atoms}.
Arguments rebuilds_from_diameter {F Atoms}.
Arguments rows_wired {F Atoms}.
Arguments same_numbers {F Atoms}.
Arguments same_diameter {F Atoms}.
Arguments same_count {F Atoms}.
Arguments same_sizes {F Atoms}.
Arguments converts_diameter {F Atoms ops}.

Import Symbolic.

(** The dialog with an empty direction table and the direction (1, 0, 0)
    typed in, and the same once [row_add] has appended it. *)
Definition typed_100 : dialog :=
  choose (mkComboBox "fcc" 0) (mkComboBox "layers" 0) [1; 0; 0; 0] false
         (set_direction_table [] (opened accept_copper)).
Definition one_row : dialog := snd (row_add redraw typed_100).

(** The dialog with that one row, the Wulff construction selected, the
    size given as a diameter and automatic apply ticked. *)
Definition wulff_by_diameter : dialog :=
  set_inputs
    {| structure := mkComboBox "fcc" 0;
       method := mkComboBox "wulff" 1;
       lattice_const_a := Float "3.0";
       lattice_const_c := Float "3.0";
       newdir_index := [0; 0; 0; 0];
       newdir_layers := 5;
       newdir_esurf := Float "1.0";
       size_n_radio := false;
       size_dia_radio := true;
       round_above := false;
       round_below := false;
       round_closest := true;
       auto := true |}
    one_row.

(** The dialog with that one row and the Wulff construction selected, the
    size given as a number of atoms. *)
Definition one_row_wulff : dialog :=
  choose (mkComboBox "fcc" 0) (mkComboBox "wulff" 1) [0; 0; 0; 0] false
         one_row.

(** The same with the lattice constant [a] at the lower end of its spin
    box. *)
Definition zero_lattice : dialog :=
  set_inputs
    {| structure := mkComboBox "fcc" 0;
       method := mkComboBox "wulff" 1;
       lattice_const_a := Float "0.0";
       lattice_const_c := Float "3.0";
       newdir_index := [0; 0; 0; 0];
       newdir_layers := 5;
       newdir_esurf := Float "1.0";
       size_n_radio := false;
       size_dia_radio := true;
       round_above := false;
       round_below := false;
       round_closest := true;
       auto := true |}
    one_row.

(** The dialog with hcp selected and the direction
    (-2^63, -2^63, 0, 1) typed in. *)
Definition typed_wrapping : dialog :=
  choose (mkComboBox "hcp" 3) (mkComboBox "layers" 0)
         [- 2 ^ 63; - 2 ^ 63; 0; 1] false
         (opened_hcp accept_copper).



(** A dialog that holds atoms while its structure box points past the list
    of structures. *)
Definition past_the_list : dialog :=
  set_atoms
    (Some (Cluster FaceCenteredCubic (ElSymbol "Cu") [[1; 0; 0]] [6]
                   (Lc (Float "3.0"))))
    (choose (mkComboBox "fcc" 9) (mkComboBox "layers" 0) [0; 0; 0; 0] false
            (opened accept_copper)).

End Laws.

(** ** The nanotube dialog *)

Module NanotubeFacts.

Import Nanotube.

Section Facts.

Context {F : Type} {ops : FloatOps F}.
Variable Atoms : Type.
Variable natoms : Atoms -> nat.
Variable cell : Atoms -> nat -> nat -> F.
Variable nanotube : Z -> Z -> Z -> F -> string -> outcome Atoms.
Variable element_symbol : string -> option string.

Local Abbreviation dialog := (SetupNanotube (F := F) Atoms).
Local Abbreviation make := (make natoms cell nanotube element_symbol).
Local Abbreviation apply := (apply natoms cell nanotube element_symbol).

(** The call [make] sends to the library, and the dialog once it is
    sent. *)
Definition library_call (d : dialog) (symbol : string) : event (F := F) Atoms :=
  CallNanotube (sb_value (n d)) (sb_value (m d)) (sb_value (length d))
               (sb_value (bondlength d)) symbol.
Definition library_called (d : dialog) (symbol : string) : dialog :=
  mkSetupNanotube (element d) (bondlength d) (n d) (m d) (length d)
                  (description d) (atoms d) (python d)
                  (trace d ++ [library_call d symbol]).

Lemma make_invalid (d : dialog) :
  element_symbol (element d) = None ->
  make d =
    (Return tt,
     mkSetupNanotube (element d) (bondlength d) (n d) (m d) (length d)
                     EmptyText None None (trace d)).
Proof.
  intros Hnone. unfold Nanotube.make, bind, gets, modify. cbn.
  rewrite Hnone. reflexivity.
Qed.

(** With a valid symbol, [make] is decided by the library: a tube is
    stored and described, an exception comes through with nothing
    assigned. *)
Lemma make_valid (d : dialog) (symbol : string) :
  element_symbol (element d) = Some symbol ->
  make d =
    match nanotube (sb_value (n d)) (sb_value (m d)) (sb_value (length d))
                   (sb_value (bondlength d)) symbol with
    | Return a =>
        (Return tt,
         mkSetupNanotube (element d) (bondlength d) (n d) (m d) (length d)
           (LabelTemplate (natoms a)
                          (fdiv (cell a 0%nat 0%nat) (of_int 2))
                          (cell a 2%nat 2%nat))
           (Some a)
           (Some (mkScript (sb_value (n d)) (sb_value (m d))
                           (sb_value (length d)) symbol
                           (sb_value (bondlength d))))
           (trace d ++ [library_call d symbol]))
    | Raise e => (Raise e, library_called d symbol)
    end.
Proof.
  intros Hsome. unfold Nanotube.make, bind, gets, modify, emit, lift. cbn.
  rewrite Hsome. cbn.
  destruct (nanotube _ _ _ _ symbol) as [a|e]; reflexivity.
Qed.

(** C5.  [make] hands nanotube generation to the library.  With a valid
    element symbol it calls [nanotube(n, m, length=, bond=, symbol=)]
    with the values of the four spin boxes and the symbol, once.  The
    atoms of the dialog are exactly what the call returns, and the
    description is filled from that result: its number of atoms, half of
    [cell[0, 0]] as the diameter and [cell[2, 2]] as the total length.
    There being no result when the library raises, [make] raises what the
    library raised and the atoms, the script and the description stay as
    they were.  With the symbol [None], the atoms and the script become
    [None] and the description the empty text, and the library is not
    called. *)
Theorem make_delegates_to_library (d : dialog) :
  match element_symbol (element d) with
  | Some symbol =>
      match nanotube (sb_value (n d)) (sb_value (m d))
                     (sb_value (length d))
                     (sb_value (bondlength d)) symbol with
      | Return a =>
          fst (make d) = Return tt
          /\ atoms (snd (make d)) = Some a
          /\ description (snd (make d))
             = LabelTemplate (natoms a)
                             (fdiv (cell a 0%nat 0%nat) (of_int 2))
                             (cell a 2%nat 2%nat)
          /\ trace (snd (make d))
             = trace d
                 ++ [CallNanotube (sb_value (n d)) (sb_value (m d))
                                  (sb_value (length d))
                                  (sb_value (bondlength d)) symbol]
      | Raise e =>
          fst (make d) = Raise e
          /\ atoms (snd (make d)) = atoms d
          /\ python (snd (make d)) = python d
          /\ description (snd (make d)) = description d
          /\ trace (snd (make d))
             = trace d
                 ++ [CallNanotube (sb_value (n d)) (sb_value (m d))
                                  (sb_value (length d))
                                  (sb_value (bondlength d)) symbol]
      end
  | None =>
      fst (make d) = Return tt
      /\ atoms (snd (make d)) = None
      /\ python (snd (make d)) = None
      /\ description (snd (make d)) = EmptyText
      /\ trace (snd (make d)) = trace d
  end.
Proof.
  destruct (element_symbol (element d)) as [symbol|] eqn:Hsymbol.
  - rewrite (make_valid d symbol Hsymbol).
    destruct (nanotube _ _ _ _ symbol) as [a|e]; cbn; repeat split.
  - rewrite (make_invalid d Hsymbol). cbn. repeat split.
Qed.

(** C9.  The dialog does not enforce [m <= n].  [__init__] bounds the
    spin box of [n] by 1 and 100 and that of [m] by 0 and 100 and nothing
    more; and for every pair within these bounds, whatever the order of
    [n] and [m], [make] with a valid element sends the library exactly
    one call, with [n] and [m] as they stand in the spin boxes, and shows
    no error dialog of its own: it returns if the library returns, with
    the library's tube as its atoms, and raises what the library raises
    otherwise. *)
Theorem make_passes_roll_up_vector_unchecked
        (lit_1_42 lit_10 lit_0_01 : F) (d : dialog) (symbol : string) :
  element_symbol (element d) = Some symbol ->
  1 <= sb_value (n d) <= 100 ->
  0 <= sb_value (m d) <= 100 ->
  let fresh := init Atoms lit_1_42 lit_10 lit_0_01 in
  let built := nanotube (sb_value (n d)) (sb_value (m d))
                        (sb_value (length d))
                        (sb_value (bondlength d)) symbol in
  (sb_start (n fresh), sb_end (n fresh)) = (1, 100)
  /\ (sb_start (m fresh), sb_end (m fresh)) = (0, 100)
  /\ trace (snd (make d))
     = trace d
         ++ [CallNanotube (sb_value (n d)) (sb_value (m d))
                          (sb_value (length d))
                          (sb_value (bondlength d)) symbol]
  /\ fst (make d)
     = match built with
       | Return _ => Return tt
       | Raise e => Raise e
       end
  /\ atoms (snd (make d))
     = match built with
       | Return a => Some a
       | Raise _ => atoms d
       end.
Proof.
  intros Hsymbol _ _ fresh built.
  rewrite (make_valid d symbol Hsymbol). fold built.
  destruct built as [a|e]; cbn; repeat split.
Qed.

(** [apply] of the nanotube dialog: the atoms are rebuilt; if there are
    some, the viewer gets them and [True] is returned, otherwise the
    modal dialog is shown, the viewer gets nothing and [False] is
    returned.  What [make] raises comes through. *)
Lemma apply_exposes_on_success (d : dialog) :
  match make d with
  | (Return _, d') =>
      match atoms d' with
      | Some a =>
          fst (apply d) = Return true
          /\ trace (snd (apply d)) = trace d' ++ [NewAtoms a]
      | None =>
          fst (apply d) = Return false
          /\ trace (snd (apply d))
             = trace d'
                 ++ [Oops "No valid atoms."
                       "You have not (yet) specified a consistent set of parameters."]
      end
  | (Raise e, d') => apply d = (Raise e, d')
  end.
Proof.
  unfold Nanotube.apply, bind.
  destruct (make d) as [[made|e] d']; [|reflexivity].
  unfold gets. destruct (atoms d'); cbn; split; reflexivity.
Qed.

End Facts.

(** With [n = 1] and [m = 100], so [m > n], the library is called all the
    same: one that builds every tube returns it, one that refuses such a
    pair raises, and the call is in the trace either way. *)
Lemma make_passes_roll_up_vector_unchecked_witness :
  (sb_value (m Symbolic.tube_1_100) > sb_value (n Symbolic.tube_1_100))
  /\ trace (snd (Nanotube.make Symbolic.tube_natoms Symbolic.tube_cell
                               Symbolic.build_tube Symbolic.known_symbol
                               Symbolic.tube_1_100))
     = [CallNanotube 1 100 1 (Symbolic.Float "1.42") "C"]
  /\ trace (snd (Nanotube.make Symbolic.tube_natoms Symbolic.tube_cell
                               Symbolic.refusing_tube Symbolic.known_symbol
                               Symbolic.tube_1_100))
     = [CallNanotube 1 100 1 (Symbolic.Float "1.42") "C"]
  /\ fst (Nanotube.make Symbolic.tube_natoms Symbolic.tube_cell
                        Symbolic.refusing_tube Symbolic.known_symbol
                        Symbolic.tube_1_100)
     = Raise (RuntimeError "m > n").
Proof.
  split; [reflexivity|].
  assert (Hsymbol : Symbolic.known_symbol (element Symbolic.tube_1_100)
                    = Some "C") by reflexivity.
  assert (Hn : 1 <= sb_value (n Symbolic.tube_1_100) <= 100) by (cbn; lia).
  assert (Hm : 0 <= sb_value (m Symbolic.tube_1_100) <= 100) by (cbn; lia).
  split; [|split].
  - apply (make_passes_roll_up_vector_unchecked
             Symbolic.tube Symbolic.tube_natoms Symbolic.tube_cell
             Symbolic.build_tube Symbolic.known_symbol
             (Symbolic.Float "1.42") (Symbolic.Float "10.0")
             (Symbolic.Float "0.01") Symbolic.tube_1_100 "C" Hsymbol Hn Hm).
  - apply (make_passes_roll_up_vector_unchecked
             Symbolic.tube Symbolic.tube_natoms Symbolic.tube_cell
             Symbolic.refusing_tube Symbolic.known_symbol
             (Symbolic.Float "1.42") (Symbolic.Float "10.0")
             (Symbolic.Float "0.01") Symbolic.tube_1_100 "C" Hsymbol Hn Hm).
  - apply (make_passes_roll_up_vector_unchecked
             Symbolic.tube Symbolic.tube_natoms Symbolic.tube_cell
             Symbolic.refusing_tube Symbolic.known_symbol
             (Symbolic.Float "1.42") (Symbolic.Float "10.0")
             (Symbolic.Float "0.01") Symbolic.tube_1_100 "C" Hsymbol Hn Hm).
Defined.

End NanotubeFacts.

(** ** The nanoparticle dialog *)

Module NanoparticleFacts.

Import Nanoparticle.

Section Facts.

Context {F : Type} {ops : FloatOps F}.
Variable Atoms : Type.
Variable natoms : Atoms -> nat.
Variable cluster :
  factory -> elem -> list direction -> list Z -> latconst (F := F) -> Atoms.
Variable wulff_construction :
  elem -> list direction -> list F -> F -> factory -> string
  -> latconst (F := F) -> Atoms.
Variable update_element : M (SetupNanoparticle (F := F) Atoms) bool.
Variable update_direction_table : M (SetupNanoparticle (F := F) Atoms) unit.

(** The widget a caller hands to [row_swap_next]. *)
Variable W : Type.
Variable widget : W.

Local Abbreviation dialog := (SetupNanoparticle (F := F) Atoms).
Local Abbreviation makeatoms :=
  (makeatoms natoms cluster wulff_construction update_element).
Local Abbreviation update :=
  (update natoms cluster wulff_construction update_element).
Local Abbreviation apply :=
  (apply natoms cluster wulff_construction update_element).
Local Abbreviation row_add := (row_add update_direction_table).
Local Abbreviation row_delete := (row_delete update_direction_table).
Local Abbreviation row_swap_next :=
  (row_swap_next update_direction_table widget).

(** *** Adding a direction *)

(** What [row_add] does with the index vector [idx] it reads from the
    spin boxes: a vector failing one of the two checks stops at the
    unbound [oops] with every attribute as it was; a vector passing both
    is appended, with adjustments for its layers and its energy, and the
    table is redrawn. *)
Lemma row_add_cases (d : dialog) :
  let idx :=
    take (if fourindex d then 4%nat else 3%nat) (newdir_index (inputs d)) in
  row_add d =
    if negb (any_nonzero idx)
       || (fourindex d && negb (sum_first_three idx =? 0))
    then (Raise (NameError "oops"), d)
    else
      update_direction_table
        (set_direction_table
           (direction_table d
              ++ [mkRow idx (Adjustment (newdir_layers (inputs d)))
                        (Adjustment (newdir_esurf (inputs d)))])
           d).
Proof.
  unfold Nanoparticle.row_add, bind, gets, raise, modify.
  destruct (fourindex d); cbn;
    destruct (any_nonzero _); cbn; try reflexivity;
    destruct (sum_first_three _ =? 0); reflexivity.
Qed.

(** *** Applying *)

(** What [apply] does with the outcome of [makeatoms]. *)
Lemma apply_cases (depth : nat) (d : dialog) :
  apply depth d =
    match makeatoms depth d with
    | (Raise e, d') => (Raise e, d')
    | (Return _, d') =>
        match atoms d' with
        | Some a => (Return true, set_trace (trace d' ++ [NewAtoms a]) d')
        | None => (Raise (NameError "oops"), d')
        end
    end.
Proof.
  unfold Nanoparticle.apply, bind, gets.
  destruct (makeatoms depth d) as [[r|e] d']; [|reflexivity].
  destruct (atoms d'); reflexivity.
Qed.

(** *** Moving and removing rows *)

Lemma index_of_nat (len i : nat) :
  (i < len)%nat -> index len (Z.of_nat i) = Some i.
Proof.
  intros Hlt. unfold index.
  replace (0 <=? Z.of_nat i) with true by (symmetry; apply Z.leb_le; lia).
  replace (Z.of_nat i <? Z.of_nat len) with true
    by (symmetry; apply Z.ltb_lt; lia).
  cbn. f_equal. apply Nat2Z.id.
Qed.

Lemma index_of_next (len i : nat) :
  (S i < len)%nat -> index len (Z.of_nat i + 1) = Some (S i).
Proof.
  intros Hlt. replace (Z.of_nat i + 1) with (Z.of_nat (S i)) by lia.
  now apply index_of_nat.
Qed.

Section Redraw.

(** Redrawing the table reads the direction table and leaves it as it
    is. *)
Hypothesis redraw_keeps_table :
  forall d : dialog,
    direction_table (snd (update_direction_table d)) = direction_table d.

Lemma row_swap_next_table (d : dialog) (i : nat) (this next : row) :
  direction_table d !! i = Some this ->
  direction_table d !! S i = Some next ->
  direction_table (snd (row_swap_next (Z.of_nat i) d))
  = <[S i := this]> (<[i := next]> (direction_table d)).
Proof.
  intros Hthis Hnext.
  assert (Hlt : (S i < length (direction_table d))%nat)
    by (apply lookup_lt_is_Some; eauto).
  unfold Nanoparticle.row_swap_next, bind, gets, modify.
  rewrite index_of_next by exact Hlt.
  rewrite index_of_nat by lia.
  rewrite Hthis, Hnext.
  now rewrite redraw_keeps_table.
Qed.

Lemma row_delete_table (d : dialog) (i : nat) :
  (i < length (direction_table d))%nat ->
  direction_table (snd (row_delete (Z.of_nat i) d))
  = delete i (direction_table d).
Proof.
  intros Hlt. unfold Nanoparticle.row_delete, bind, gets, modify.
  rewrite index_of_nat by exact Hlt.
  now rewrite redraw_keeps_table.
Qed.

(** C6.  For every direction table and every row [i] with [i+1] a valid
    index, [row_swap_next] puts the entry of [i+1] at [i] and the entry
    of [i] at [i+1], leaves every other entry and the length as they
    were, and applied a second time at the same row gives the table
    back; for every valid row [i], [row_delete] removes the entry at
    [i] and nothing else: the entries before it stay where they are and
    the entries after it move up by one, in order.  Redrawing the
    table, which both methods end with, is taken not to change it. *)
Theorem row_moves_are_exact (d : dialog) (i : nat) :
  let dt := direction_table d in
  let swapped := direction_table (snd (row_swap_next (Z.of_nat i) d)) in
  let restored :=
    direction_table
      (snd (row_swap_next (Z.of_nat i)
                          (snd (row_swap_next (Z.of_nat i) d)))) in
  let removed := direction_table (snd (row_delete (Z.of_nat i) d)) in
  ((S i < length dt)%nat ->
     swapped !! i = dt !! S i
     /\ swapped !! S i = dt !! i
     /\ (forall j : nat, j <> i -> j <> S i -> swapped !! j = dt !! j)
     /\ length swapped = length dt
     /\ restored = dt)
  /\ ((i < length dt)%nat ->
        removed = take i dt ++ drop (S i) dt
        /\ (forall j : nat, (j < i)%nat -> removed !! j = dt !! j)
        /\ (forall j : nat, (i <= j)%nat -> removed !! j = dt !! S j)).
Proof.
  intros dt swapped restored removed. split.
  - intros Hlt.
    destruct (lookup_lt_is_Some_2 dt i) as [this Hthis]; [lia|].
    destruct (lookup_lt_is_Some_2 dt (S i)) as [next Hnext]; [lia|].
    assert (Hswapped : swapped = <[S i := this]> (<[i := next]> dt))
      by (apply row_swap_next_table; assumption).
    assert (Hat_i : swapped !! i = Some next).
    { rewrite Hswapped, list_lookup_insert_ne by lia.
      apply list_lookup_insert_eq. lia. }
    assert (Hat_next : swapped !! S i = Some this).
    { rewrite Hswapped. apply list_lookup_insert_eq.
      rewrite length_insert. lia. }
    repeat split.
    + now rewrite Hat_i, Hnext.
    + now rewrite Hat_next, Hthis.
    + intros j Hi Hnext'. rewrite Hswapped.
      now rewrite !list_lookup_insert_ne by congruence.
    + rewrite Hswapped. now rewrite !length_insert.
    + unfold restored.
      rewrite (row_swap_next_table _ i next this) by assumption.
      fold swapped. rewrite Hswapped.
      rewrite (list_insert_insert_ne _ i (S i)) by lia.
      rewrite !list_insert_insert_eq.
      rewrite (list_insert_id dt i this Hthis).
      now apply list_insert_id.
  - intros Hlt.
    assert (Hremoved : removed = delete i dt)
      by (apply row_delete_table; assumption).
    rewrite Hremoved. repeat split.
    + apply delete_take_drop.
    + intros j Hj. now apply list_lookup_delete_lt.
    + intros j Hj. now apply list_lookup_delete_ge.
Qed.

End Redraw.

(** *** The volume per atom *)

(** [get_atomic_volume] reads the widgets and the list of structures and
    changes nothing. *)
Lemma get_atomic_volume_reads (d d' : dialog) :
  inputs d' = inputs d ->
  list_of_structures d' = list_of_structures d ->
  get_atomic_volume d' = (fst (get_atomic_volume d), d').
Proof.
  intros Hinputs Hstructures.
  destruct d, d'. cbn in Hinputs, Hstructures. subst.
  unfold get_atomic_volume, active_structure, bind, gets, ret, raise. cbn.
  match goal with
  | |- context [?structures !! ?active] =>
      destruct (structures !! active) as [s|]; [|reflexivity]
  end.
  repeat (destruct (String.eqb s _); [reflexivity|]). reflexivity.
Qed.

Lemma get_atomic_volume_pure (d : dialog) :
  get_atomic_volume d = (fst (get_atomic_volume d), d).
Proof. now apply get_atomic_volume_reads. Qed.


(** *** Changing the structure *)

Lemma same_table_refl (d : dialog) : same_table d d.
Proof. repeat split. Qed.

Lemma same_table_trans (d1 d2 d3 : dialog) :
  same_table d1 d2 -> same_table d2 d3 -> same_table d1 d3.
Proof.
  unfold same_table. intros (?&?&?&?&?&?) (?&?&?&?&?&?).
  repeat split; congruence.
Qed.

Lemma index_of_last_but_one (len : nat) :
  (2 <= len)%nat -> index len (-2) = Some (len - 2)%nat.
Proof.
  intros Hlen. unfold index.
  replace (0 <=? -2) with false by reflexivity. cbn [andb].
  replace (- Z.of_nat len <=? -2) with true
    by (symmetry; apply Z.leb_le; lia).
  replace (-2 <? 0) with true by reflexivity. cbn [andb].
  f_equal. lia.
Qed.

Section Quiet.

(** Checking the element returns a truth value and changes, at most,
    what a refresh repaints. *)
Hypothesis element_check :
  forall d : dialog,
    (exists valid : bool, fst (update_element d) = Return valid)
    /\ same_table d (snd (update_element d)).

(** With updates switched off, or automatic apply unticked, a refresh
    builds nothing and returns. *)
Lemma update_quiet (depth : nat) (d : dialog) :
  no_update d = true \/ auto (inputs d) = false ->
  fst (update depth d) = Return tt
  /\ same_table d (snd (update depth d)).
Proof.
  intros Hquiet.
  unfold Nanoparticle.update, update_with, bind, gets. cbn beta iota.
  destruct (no_update d) eqn:Hoff.
  - split; [reflexivity | apply same_table_refl].
  - destruct Hquiet as [Hquiet|Hquiet]; [discriminate|].
    destruct (element_check d) as [[valid Hvalid] Hsame].
    destruct (update_element d) as [checked d1].
    cbn [fst snd] in Hvalid, Hsame. subst checked. cbn beta iota.
    assert (Hauto : auto (inputs d1) = false).
    { destruct Hsame as (_ & -> & _). exact Hquiet. }
    rewrite Hauto.
    unfold clearatoms, makeinfo, bind, gets, modify, show, ret.
    cbn. split; [reflexivity|].
    apply (same_table_trans _ _ _ Hsame). repeat split.
Qed.

(** A direction added while refreshes are quiet ends up as a new last
    row of bare numbers, and the settings stay as they are. *)
Lemma add_direction_quiet (depth : nat) (d : dialog)
      (direction_ : direction) (layers : Z) (energy : F) :
  no_update d = true \/ auto (inputs d) = false ->
  length (direction_table_rows (display d)) = length (direction_table d) ->
  let r := add_direction natoms cluster wulff_construction update_element
                         depth direction_ layers energy d in
  fst r = Return tt
  /\ direction_table (snd r)
     = direction_table d ++ [mkRow direction_ (Plain layers) (Plain energy)]
  /\ length (direction_table_rows (display (snd r)))
     = length (direction_table (snd r))
  /\ no_update (snd r) = no_update d
  /\ inputs (snd r) = inputs d
  /\ fourindex (snd r) = fourindex d
  /\ old_structure (snd r) = old_structure d.
Proof.
  intros Hquiet Hrows r. subst r.
  destruct d as [a nu le ei fi os ls dt sn sd inp dis tr].
  cbn in Hquiet, Hrows.
  unfold add_direction, show, bind, gets, modify, ret, raise.
  cbn -[Nanoparticle.update index Z.of_nat Z.ltb length].
  destruct (0 <? Z.of_nat (length dt)) eqn:Hpos.
  - apply Z.ltb_lt in Hpos.
    cbn -[Nanoparticle.update index Z.of_nat Z.ltb length].
    rewrite length_app, Hrows. cbn [length].
    rewrite index_of_last_but_one by lia.
    cbn -[Nanoparticle.update index Z.of_nat Z.ltb length].
    match goal with
    | |- context [update depth ?s] =>
        destruct (update_quiet depth s Hquiet)
          as (Hret & Hoff & Hinputs & Hfour & Hold & Htable & Hdrawn);
        destruct (update depth s) as [refreshed d']
    end.
    cbn in Hret, Hoff, Hinputs, Hfour, Hold, Htable, Hdrawn |- *.
    rewrite Htable, Hdrawn, Hinputs, Hfour, Hold, Hoff.
    rewrite length_alter, !length_app, Hrows.
    repeat split. exact Hret.
  - cbn -[Nanoparticle.update index Z.of_nat Z.ltb length].
    match goal with
    | |- context [update depth ?s] =>
        destruct (update_quiet depth s Hquiet)
          as (Hret & Hoff & Hinputs & Hfour & Hold & Htable & Hdrawn);
        destruct (update depth s) as [refreshed d']
    end.
    cbn in Hret, Hoff, Hinputs, Hfour, Hold, Htable, Hdrawn |- *.
    rewrite Htable, Hdrawn, Hinputs, Hfour, Hold, Hoff.
    rewrite !length_app, Hrows.
    repeat split. exact Hret.
Qed.

Lemma fill_quiet (depth : nat) (defaults : list (direction * Z)) :
  forall d : dialog,
    no_update d = true \/ auto (inputs d) = false ->
    length (direction_table_rows (display d))
    = length (direction_table d) ->
    let r :=
      for_each defaults
               (fun '(direction_, layers) =>
                  add_direction natoms cluster wulff_construction
                                update_element depth direction_ layers
                                (of_int 1))
               d in
    fst r = Return tt
    /\ direction_table (snd r)
       = direction_table d ++ default_rows defaults
    /\ no_update (snd r) = no_update d
    /\ inputs (snd r) = inputs d
    /\ fourindex (snd r) = fourindex d
    /\ old_structure (snd r) = old_structure d.
Proof.
  induction defaults as [|[direction_ layers] defaults IH];
    intros d Hquiet Hrows.
  - cbn. rewrite app_nil_r. repeat split.
  - cbn [for_each]. unfold bind.
    destruct (add_direction_quiet depth d direction_ layers (of_int 1)
                                  Hquiet Hrows)
      as (Hret & Htable & Hdrawn & Hoff & Hinputs & Hfour & Hold).
    destruct (add_direction _ _ _ _ depth direction_ layers (of_int 1) d)
      as [added d1].
    cbn [fst snd] in Hret, Htable, Hdrawn, Hoff, Hinputs, Hfour, Hold.
    subst added.
    assert (Hquiet1 : no_update d1 = true \/ auto (inputs d1) = false)
      by (rewrite Hoff, Hinputs; exact Hquiet).
    destruct (IH d1 Hquiet1 Hdrawn)
      as (Hret' & Htable' & Hoff' & Hinputs' & Hfour' & Hold').
    cbn zeta in Hret', Htable', Hoff', Hinputs', Hfour', Hold'.
    cbn zeta. rewrite Hret', Htable', Hoff', Hinputs', Hfour', Hold'.
    rewrite Htable, Hoff, Hinputs, Hfour, Hold.
    cbn [default_rows map]. rewrite <- app_assoc.
    repeat split.
Qed.

(** With refreshes quiet, [default_direction_table] leaves exactly the
    default rows of the selected structure in the table. *)
Lemma default_direction_table_quiet
      (depth : nat) (d : dialog) (defaults : list (direction * Z)) :
  no_update d = true \/ auto (inputs d) = false ->
  getitem default_layers (cb_value (structure (inputs d))) = Some defaults ->
  let r := default_direction_table natoms cluster wulff_construction
                                   update_element depth d in
  fst r = Return tt
  /\ direction_table (snd r) = default_rows defaults
  /\ no_update (snd r) = no_update d
  /\ inputs (snd r) = inputs d
  /\ fourindex (snd r) = fourindex d
  /\ old_structure (snd r) = old_structure d.
Proof.
  intros Hquiet Hdefaults.
  destruct d as [a nu le ei fi os ls dt sn sd inp dis tr].
  cbn in Hquiet, Hdefaults.
  unfold default_direction_table, show, bind, gets, modify, subscript.
  cbn -[for_each add_direction]. rewrite Hdefaults.
  unfold ret. cbn -[for_each add_direction].
  match goal with
  | |- context [for_each defaults ?body ?s] =>
      destruct (fill_quiet depth defaults s Hquiet eq_refl)
        as (Hret & Htable & Hoff & Hinputs & Hfour & Hold)
  end.
  cbn -[for_each add_direction] in Hret, Htable, Hoff, Hinputs, Hfour, Hold.
  repeat split; assumption.
Qed.

(** Every structure of [structure_data] has its entry in each of the
    dictionaries. *)
Lemma known_structure (s : string) (four : bool) :
  getitem needs_4index s = Some four ->
  exists (two : bool) (defaults : list (direction * Z)),
    getitem needs_2lat s = Some two
    /\ getitem default_layers s = Some defaults.
Proof.
  unfold needs_4index, needs_2lat, default_layers. cbn -[String.eqb].
  repeat (destruct (String.eqb _ s); [eauto|]). discriminate.
Qed.



End Quiet.

(** *** Building the atoms from rows of bare numbers *)

(** Reading [value] down a column stops at the first bare number. *)
Lemma comprehension_of_bare_numbers
      {A : Type} (type : string) (column : row (F := F) -> cell A)
      (table : list row) :
  Exists (fun x => exists v : A, column x = Plain v) table ->
  comprehension (fun x => value_of type (column x)) table
  = Raise (AttributeError type "value").
Proof.
  induction table as [|x table IH]; intros Hbare.
  - inversion Hbare.
  - cbn [comprehension]. destruct (column x) as [v|v] eqn:Hcell.
    + reflexivity.
    + cbn [value_of]. rewrite IH; [reflexivity|].
      inversion Hbare as [? ? [v' Hplain]|? ? Hrest]; subst.
      * rewrite Hcell in Hplain. discriminate.
      * exact Hrest.
Qed.

(** The rows [default_direction_table] makes hold bare numbers. *)
Lemma default_rows_are_bare (defaults : list (direction * Z)) :
  Forall (fun x : row (F := F) =>
            (exists v : Z, row_layers x = Plain v)
            /\ (exists v : F, row_energy x = Plain v))
         (default_rows defaults).
Proof.
  induction defaults as [|[direction_ layers] defaults IH]; cbn.
  - constructor.
  - constructor; [|exact IH]. cbn. eauto.
Qed.

(** With a valid element, a known structure and the layer specification
    selected, a table with a row of bare numbers makes [makeatoms] raise
    [AttributeError] before anything is built. *)
Lemma makeatoms_layers_of_bare_numbers
      (depth : nat) (d d1 : dialog) (s : string) (two : bool) :
  update_element d = (Return true, d1) ->
  legal_element d1 <> ElNone ->
  list_of_structures d1 !! cb_active (structure (inputs d1)) = Some s ->
  getitem needs_2lat s = Some two ->
  cb_active (method (inputs d1)) = 0%nat ->
  Exists (fun x => exists v : Z, row_layers x = Plain v) (direction_table d1) ->
  makeatoms (S depth) d = (Raise (AttributeError "int" "value"), d1).
Proof.
  intros Hvalid Hlegal Hselected Hknown Hmethod Hbare.
  apply (comprehension_of_bare_numbers "int" row_layers) in Hbare.
  cbn [Nanoparticle.makeatoms].
  unfold makeatoms_with, bind at 1. rewrite Hvalid. cbn [negb].
  unfold bind at 1, gets at 1.
  assert (Hbody : forall body : M dialog (option bool),
             match legal_element d1 with
             | ElNone => raise AssertionError
             | _ => body
             end = body)
    by (intros body; destruct (legal_element d1); congruence).
  rewrite Hbody. clear Hbody.
  unfold active_structure, subscript, lift, emit, show, bind, gets, modify,
    ret, raise.
  cbn beta iota. rewrite Hselected. cbn beta iota. rewrite Hknown.
  cbn beta iota. rewrite Hmethod. cbn beta iota delta [Nat.eqb].
  rewrite Hbare. reflexivity.
Qed.

(** The same with the Wulff construction selected. *)
Lemma makeatoms_wulff_of_bare_numbers
      (depth : nat) (d d1 : dialog) (s : string) (two : bool) :
  update_element d = (Return true, d1) ->
  legal_element d1 <> ElNone ->
  list_of_structures d1 !! cb_active (structure (inputs d1)) = Some s ->
  getitem needs_2lat s = Some two ->
  cb_active (method (inputs d1)) = 1%nat ->
  Exists (fun x => exists v : F, row_energy x = Plain v) (direction_table d1) ->
  makeatoms (S depth) d = (Raise (AttributeError "float" "value"), d1).
Proof.
  intros Hvalid Hlegal Hselected Hknown Hmethod Hbare.
  apply (comprehension_of_bare_numbers "float" row_energy) in Hbare.
  cbn [Nanoparticle.makeatoms].
  unfold makeatoms_with, bind at 1. rewrite Hvalid. cbn [negb].
  unfold bind at 1, gets at 1.
  assert (Hbody : forall body : M dialog (option bool),
             match legal_element d1 with
             | ElNone => raise AssertionError
             | _ => body
             end = body)
    by (intros body; destruct (legal_element d1); congruence).
  rewrite Hbody. clear Hbody.
  unfold active_structure, subscript, lift, emit, show, bind, gets, modify,
    ret, raise.
  cbn beta iota. rewrite Hselected. cbn beta iota. rewrite Hknown.
  cbn beta iota. rewrite Hmethod. cbn beta iota delta [Nat.eqb].
  rewrite Hbare. reflexivity.
Qed.

(** *** Building the atoms from rows of adjustments *)

(** A structure of [structure_data] is one of the five abbreviations. *)
Lemma known_abbreviation (s : string) (two : bool) :
  getitem needs_2lat s = Some two ->
  In s ["fcc"; "bcc"; "sc"; "hcp"; "graphite"].
Proof.
  unfold needs_2lat. cbn -[String.eqb].
  repeat match goal with
  | |- context [String.eqb ?k s] =>
      destruct (String.eqb_spec k s) as [<-|_]; [intros _; cbn; tauto|]
  end.
  discriminate.
Qed.

(** For such a structure the volume per atom is defined. *)
Lemma get_atomic_volume_known (d : dialog) (s : string) (two : bool) :
  list_of_structures d !! cb_active (structure (inputs d)) = Some s ->
  getitem needs_2lat s = Some two ->
  exists at_vol : F, get_atomic_volume d = (Return at_vol, d).
Proof.
  intros Hselected Hknown. apply known_abbreviation in Hknown.
  unfold get_atomic_volume, active_structure, bind, gets. cbn beta iota.
  rewrite Hselected. unfold ret. cbn beta iota.
  cbn in Hknown. destruct Hknown as [<-|[<-|[<-|[<-|[<-|[]]]]]];
    cbn; eexists; reflexivity.
Qed.

(** [makeinfo] on a dialog with atoms and a known structure returns and
    repaints the labels only. *)
Lemma makeinfo_with_atoms (d : dialog) (built : Atoms) (s : string) (two : bool) :
  atoms d = Some built ->
  list_of_structures d !! cb_active (structure (inputs d)) = Some s ->
  getitem needs_2lat s = Some two ->
  fst (makeinfo natoms d) = Return tt
  /\ atoms (snd (makeinfo natoms d)) = Some built
  /\ trace (snd (makeinfo natoms d)) = trace d.
Proof.
  intros Hatoms Hselected Hknown.
  unfold makeinfo, show, bind, gets, modify. cbn beta iota.
  rewrite Hatoms. cbn beta iota.
  match goal with
  | |- context [get_atomic_volume ?s'] =>
      destruct (get_atomic_volume_known s' s two) as [at_vol Hvolume];
      [exact Hselected | exact Hknown | rewrite !Hvolume]
  end.
  cbn. rewrite Hatoms. repeat split.
Qed.

(** Every structure of [structure_data] has a factory and an import
    line. *)
Lemma known_factory (s : string) (two : bool) :
  getitem needs_2lat s = Some two ->
  exists (f : factory) (imp : string),
    getitem factory_of s = Some f /\ getitem import_names s = Some imp.
Proof.
  unfold needs_2lat, factory_of, import_names. cbn -[String.eqb].
  repeat (destruct (String.eqb _ s); [eauto|]). discriminate.
Qed.

(** With a valid element, a known structure, the layer specification
    selected and every row holding an adjustment for its layers,
    [makeatoms] calls the factory of the structure with the first
    components of the rows as surfaces, the values of the adjustments as
    layers, and the lattice constant [a], or the dict of [a] and [c] for a
    structure with two lattice constants; the result becomes the atoms of
    the dialog. *)
Lemma makeatoms_layers_of_adjustments
      (depth : nat) (d d1 : dialog) (s : string) (two : bool)
      (layers : list Z) :
  update_element d = (Return true, d1) ->
  legal_element d1 <> ElNone ->
  list_of_structures d1 !! cb_active (structure (inputs d1)) = Some s ->
  getitem needs_2lat s = Some two ->
  cb_active (method (inputs d1)) = 0%nat ->
  comprehension (fun x => value_of "int" (row_layers x)) (direction_table d1)
  = Return layers ->
  let lc := if two then LcDict (lattice_const_a (inputs d1))
                               (lattice_const_c (inputs d1))
            else Lc (lattice_const_a (inputs d1)) in
  let surfaces := map row_direction (direction_table d1) in
  let r := makeatoms (S depth) d in
  exists f : factory,
    getitem factory_of s = Some f
    /\ fst r = Return None
    /\ atoms (snd r) = Some (cluster f (legal_element d1) surfaces layers lc)
    /\ trace (snd r)
       = trace d1 ++ [CallFactory f (legal_element d1) surfaces layers lc].
Proof.
  intros Hvalid Hlegal Hselected Hknown Hmethod Hlayers lc surfaces r.
  destruct (known_factory s two Hknown) as (f & imp & Hfactory & Himport).
  exists f. split; [exact Hfactory|].
  set (el := legal_element d1).
  set (called :=
         set_atoms (Some (cluster f el surfaces layers lc))
                   (set_trace (trace d1 ++ [CallFactory f el surfaces layers lc])
                              d1)).
  set (scripted :=
         set_display
           (set_pybut_python
              (Some (PyLayers imp el surfaces layers lc (last_word imp)))
              (display called))
           called).
  assert (Hrun : r = bind (makeinfo natoms) (fun _ => ret None) scripted).
  { subst r. cbn [Nanoparticle.makeatoms].
    unfold makeatoms_with, bind at 1. rewrite Hvalid. cbn [negb].
    unfold bind at 1, gets at 1.
    assert (Hbody : forall body : M dialog (option bool),
               match legal_element d1 with
               | ElNone => raise AssertionError
               | _ => body
               end = body)
      by (intros body; destruct (legal_element d1); congruence).
    rewrite Hbody. clear Hbody.
    unfold active_structure, subscript, lift, emit, show, bind, gets, modify,
      ret, raise.
    cbn beta iota. rewrite Hselected. cbn beta iota. rewrite Hknown.
    cbn beta iota. rewrite Hmethod. cbn beta iota delta [Nat.eqb].
    rewrite Hlayers. cbn beta iota. rewrite Hfactory. cbn beta iota.
    rewrite Himport. cbn beta iota. reflexivity. }
  destruct (makeinfo_with_atoms scripted
              (cluster f el surfaces layers lc) s two)
    as (Hret & Hatoms & Htrace); [reflexivity | exact Hselected | exact Hknown |].
  rewrite Hrun. unfold bind, ret.
  destruct (makeinfo natoms scripted) as [shown d2].
  cbn [fst snd] in Hret, Hatoms, Htrace. subst shown. cbn [fst snd].
  split; [reflexivity|]. split; [exact Hatoms | exact Htrace].
Qed.


(** The same for the Wulff construction, when the size is given as a number
    of atoms: with every row holding an adjustment for its energy,
    [makeatoms] calls [wulff_construction] with the first components of the
    rows as surfaces, the values of the adjustments as energies, the number
    of atoms, the factory of the structure, the lattice constant, and the
    rounding of the first active button among above, below and closest; with
    none of them active it raises [RuntimeError] and builds nothing. *)
Lemma makeatoms_wulff_of_adjustments
      (depth : nat) (d d1 : dialog) (s : string) (two : bool)
      (energies : list F) :
  update_element d = (Return true, d1) ->
  legal_element d1 <> ElNone ->
  list_of_structures d1 !! cb_active (structure (inputs d1)) = Some s ->
  getitem needs_2lat s = Some two ->
  cb_active (method (inputs d1)) = 1%nat ->
  comprehension (fun x => value_of "float" (row_energy x)) (direction_table d1)
  = Return energies ->
  size_dia_radio (inputs d1) = false ->
  let lc := if two then LcDict (lattice_const_a (inputs d1))
                               (lattice_const_c (inputs d1))
            else Lc (lattice_const_a (inputs d1)) in
  let surfaces := map row_direction (direction_table d1) in
  let choice :=
    if round_above (inputs d1) then Some "above"
    else if round_below (inputs d1) then Some "below"
    else if round_closest (inputs d1) then Some "closest"
    else None in
  let r := makeatoms (S depth) d in
  exists f : factory,
    getitem factory_of s = Some f
    /\ match choice with
       | Some rounding =>
           fst r = Return None
           /\ atoms (snd r)
              = Some (wulff_construction (legal_element d1) surfaces energies
                                         (size_n_adj d1) f rounding lc)
           /\ trace (snd r)
              = trace d1
                  ++ [CallWulff (legal_element d1) surfaces energies
                                (size_n_adj d1) f rounding lc]
       | None =>
           fst r = Raise (RuntimeError "No rounding!")
           /\ atoms (snd r) = atoms d1
           /\ trace (snd r) = trace d1
       end.
Proof.
  intros Hvalid Hlegal Hselected Hknown Hmethod Henergies Hradio
         lc surfaces choice r.
  destruct (known_factory s two Hknown) as (f & imp & Hfactory & _).
  exists f. split; [exact Hfactory|].
  set (el := legal_element d1).
  assert (Hrun :
    r = match choice with
        | Some rounding =>
            let called :=
              set_atoms
                (Some (wulff_construction el surfaces energies (size_n_adj d1)
                                          f rounding lc))
                (set_trace
                   (trace d1
                      ++ [CallWulff el surfaces energies (size_n_adj d1) f
                                    rounding lc])
                   d1) in
            bind (makeinfo natoms) (fun _ => ret None)
                 (set_display
                    (set_pybut_python
                       (Some (PyWulff el surfaces energies lc (size_n_adj d1)
                                      s rounding))
                       (display called))
                    called)
        | None => (Raise (RuntimeError "No rounding!"), d1)
        end).
  { subst r. cbn [Nanoparticle.makeatoms].
    unfold makeatoms_with, bind at 1. rewrite Hvalid. cbn [negb].
    unfold bind at 1, gets at 1.
    assert (Hbody : forall body : M dialog (option bool),
               match legal_element d1 with
               | ElNone => raise AssertionError
               | _ => body
               end = body)
      by (intros body; destruct (legal_element d1); congruence).
    rewrite Hbody. clear Hbody.
    unfold active_structure, update_size_dia_with, rounding_choice, subscript,
      lift, emit, show, bind, gets, modify, ret, raise.
    cbn beta iota. rewrite Hselected. cbn beta iota. rewrite Hknown.
    cbn beta iota. rewrite Hmethod. cbn beta iota delta [Nat.eqb].
    rewrite Henergies. cbn beta iota. rewrite Hradio.
    cbn beta iota delta [negb]. subst choice.
    destruct (round_above (inputs d1)); cbn beta iota;
      [rewrite Hfactory; reflexivity|].
    destruct (round_below (inputs d1)); cbn beta iota;
      [rewrite Hfactory; reflexivity|].
    destruct (round_closest (inputs d1)); cbn beta iota;
      [rewrite Hfactory; reflexivity|].
    reflexivity. }
  rewrite Hrun. destruct choice as [rounding|]; [|repeat split].
  cbv zeta.
  match goal with
  | |- context [bind (makeinfo natoms) _ ?scripted] =>
      destruct (makeinfo_with_atoms scripted
                  (wulff_construction el surfaces energies (size_n_adj d1)
                                      f rounding lc) s two)
        as (Hret & Hatoms & Htrace);
      [reflexivity | exact Hselected | exact Hknown |];
      unfold bind, ret;
      destruct (makeinfo natoms scripted) as [shown d2]
  end.
  cbn [fst snd] in Hret, Hatoms, Htrace. subst shown. cbn [fst snd].
  split; [reflexivity|]. split; [exact Hatoms | exact Htrace].
Qed.

End Facts.

(** *** The dialog as it opens *)

Import Symbolic.

(** C1.  In the dialog as it opens, with copper as a valid element and the
    layer specification selected, the direction table holds the three
    default rows of fcc, whose layers are the bare numbers 6, 9 and 5 that
    [add_direction] stored.  [makeatoms] reads [x[1].value] of the first
    of them and raises [AttributeError]: no factory is called and the
    dialog has no atoms, instead of the factory being called with the
    layers 6, 9 and 5. *)
Theorem makeatoms_layers_stops_at_bare_layers (depth : nat) :
  let d := opened accept_copper in
  let r := makeatoms particle_natoms Cluster Wulff accept_copper (S depth) d in
  cb_active (method (inputs d)) = 0%nat
  /\ direction_table d = cubic_rows
  /\ fst r = Raise (AttributeError "int" "value")
  /\ atoms (snd r) = None
  /\ trace (snd r) = [].
Proof.
  cbv zeta. do 4 (split; [vm_compute; reflexivity|]).
  vm_compute. reflexivity.
Qed.

(** C2.  In the same dialog with the Wulff construction selected,
    [makeatoms] reads [x[2].value] of the first default row, whose energy
    is the bare number 1.0, and raises [AttributeError]:
    [wulff_construction] is not called and the dialog has no atoms. *)
Theorem makeatoms_wulff_stops_at_bare_energies (depth : nat) :
  let d := opened_wulff accept_copper in
  let r := makeatoms particle_natoms Cluster Wulff accept_copper (S depth) d in
  cb_active (method (inputs d)) = 1%nat
  /\ direction_table d = cubic_rows
  /\ fst r = Raise (AttributeError "float" "value")
  /\ atoms (snd r) = None
  /\ trace (snd r) = [].
Proof.
  cbv zeta. do 4 (split; [vm_compute; reflexivity|]).
  vm_compute. reflexivity.
Qed.

(** C3.  In the dialog as it opens the new direction is (0, 0, 0);
    [row_add] rejects it, reaches the call of [oops] and raises
    [NameError]: no dialog is shown and nothing is returned.  The same
    happens with hcp selected and the new direction (1, 0, 0, 0), whose
    first three indices sum to one.  In both cases every attribute,
    the direction table included, is as it was. *)
Theorem row_add_rejection_stops_at_unbound_name
        (redraw_ : M dialog unit) :
  let zero := opened accept_copper in
  let skew := opened_hcp accept_copper in
  (fourindex zero = false
   /\ take 3 (newdir_index (inputs zero)) = [0; 0; 0]
   /\ row_add redraw_ zero = (Raise (NameError "oops"), zero))
  /\ (fourindex skew = true
      /\ take 4 (newdir_index (inputs skew)) = [1; 0; 0; 0]
      /\ row_add redraw_ skew = (Raise (NameError "oops"), skew)).
Proof.
  cbv zeta. split; do 2 (split; [vm_compute; reflexivity|]);
    vm_compute; reflexivity.
Qed.

(** C4.  In the dialog as it opens, with no valid element, [makeatoms]
    leaves no atoms; [apply] then reaches the call of [oops] and raises
    [NameError]: the viewer gets nothing, but no dialog is shown and
    [False] is not returned. *)
Theorem apply_without_atoms_stops_at_unbound_name (depth : nat) :
  let d := opened reject_element in
  let r := apply particle_natoms Cluster Wulff reject_element (S depth) d in
  fst (makeatoms particle_natoms Cluster Wulff reject_element (S depth) d)
  = Return (Some false)
  /\ fst r = Raise (NameError "oops")
  /\ atoms (snd r) = None
  /\ trace (snd r) = [].
Proof.
  cbv zeta. do 3 (split; [vm_compute; reflexivity|]).
  vm_compute. reflexivity.
Qed.


(** *** Worked instances *)

(** Swapping the first two default rows and deleting the first one, with a
    redraw that leaves the attributes alone. *)
Lemma row_moves_are_exact_witness :
  let d := opened accept_copper in
  let dt := direction_table d in
  (forall d' : dialog, direction_table (snd (redraw d')) = direction_table d')
  /\ (1 < length dt)%nat
  /\ direction_table (snd (row_swap_next redraw tt 0 d)) !! 0%nat
     = dt !! 1%nat
  /\ direction_table (snd (row_delete redraw 0 d)) = take 0 dt ++ drop 1 dt.
Proof.
  cbv zeta.
  assert (Hredraw : forall d' : dialog,
             direction_table (snd (redraw d')) = direction_table d')
    by reflexivity.
  assert (Hnext : (1 < length (direction_table (opened accept_copper)))%nat)
    by (vm_compute; lia).
  assert (Hthis : (0 < length (direction_table (opened accept_copper)))%nat)
    by (vm_compute; lia).
  destruct (row_moves_are_exact particle redraw unit tt Hredraw
                                (opened accept_copper) 0%nat)
    as [Hswap Hremove].
  destruct (Hswap Hnext) as (Hfirst & _).
  destruct (Hremove Hthis) as (Hremoved & _).
  split; [exact Hredraw|]. split; [exact Hnext|].
  split; [exact Hfirst | exact Hremoved].
Defined.



End NanoparticleFacts.

(** ** More on the nanotube dialog *)

Module NanotubeMore.

Import Nanotube.

Section Facts.

Context {F : Type} {ops : FloatOps F}.
Variable Atoms : Type.
Variable natoms : Atoms -> nat.
Variable cell : Atoms -> nat -> nat -> F.
Variable nanotube : Z -> Z -> Z -> F -> string -> outcome Atoms.
Variable element_symbol : string -> option string.

Local Abbreviation dialog := (SetupNanotube (F := F) Atoms).
Local Abbreviation make := (make natoms cell nanotube element_symbol).
Local Abbreviation ok := (ok natoms cell nanotube element_symbol).

(** X1.  [ok] closes the window exactly when atoms were built.  With a
    valid element it asks the library for the tube; if the library
    returns one, [ok] hands it to the viewer and closes the window, in
    this order; if the library raises, [ok] raises the same exception
    after the call, the viewer gets nothing and the window stays open.
    With an invalid element it shows the modal dialog and leaves the
    window open. *)
Theorem ok_closes_window_after_success (d : dialog) :
  match element_symbol (element d) with
  | Some symbol =>
      let called :=
        CallNanotube (sb_value (n d)) (sb_value (m d)) (sb_value (length d))
                     (sb_value (bondlength d)) symbol in
      match nanotube (sb_value (n d)) (sb_value (m d)) (sb_value (length d))
                     (sb_value (bondlength d)) symbol with
      | Return a =>
          fst (ok d) = Return tt
          /\ trace (snd (ok d)) = trace d ++ [called; NewAtoms a; WinClose]
      | Raise e =>
          fst (ok d) = Raise e
          /\ trace (snd (ok d)) = trace d ++ [called]
      end
  | None =>
      fst (ok d) = Return tt
      /\ trace (snd (ok d))
         = trace d
             ++ [Oops "No valid atoms."
                   "You have not (yet) specified a consistent set of parameters."]
  end.
Proof.
  unfold Nanotube.ok, Nanotube.apply, bind.
  destruct (element_symbol (element d)) as [symbol|] eqn:Hsymbol.
  - rewrite !(NanotubeFacts.make_valid Atoms natoms cell nanotube
                element_symbol d symbol Hsymbol).
    destruct (nanotube _ _ _ _ symbol) as [a|e].
    + cbn. rewrite <- !app_assoc. split; reflexivity.
    + cbn. split; reflexivity.
  - rewrite !(NanotubeFacts.make_invalid Atoms natoms cell nanotube
                element_symbol d Hsymbol).
    cbn. split; reflexivity.
Qed.

(** X2.  [make] reads the widgets and never writes them, so making again
    changes nothing: the element, the bond length, [n], [m] and the length
    are as they were, and the atoms, the script and the description after
    a second [make] are those after the first. *)
Theorem make_again_changes_nothing (d : dialog) :
  let d1 := snd (make d) in
  let d2 := snd (make d1) in
  (element d1 = element d
   /\ bondlength d1 = bondlength d
   /\ n d1 = n d
   /\ m d1 = m d
   /\ length d1 = length d)
  /\ (atoms d2 = atoms d1
      /\ python d2 = python d1
      /\ description d2 = description d1).
Proof.
  cbv zeta.
  destruct (element_symbol (element d)) as [symbol|] eqn:Hsymbol.
  - rewrite (NanotubeFacts.make_valid Atoms natoms cell nanotube
               element_symbol d symbol Hsymbol).
    destruct (nanotube (sb_value (n d)) (sb_value (m d))
                       (sb_value (length d)) (sb_value (bondlength d))
                       symbol) as [a|e] eqn:Hbuilt;
      cbn [snd];
      match goal with
      | |- context [make ?d1] =>
          rewrite (NanotubeFacts.make_valid Atoms natoms cell nanotube
                     element_symbol d1 symbol Hsymbol)
      end;
      cbn; rewrite Hbuilt; cbn; repeat split.
  - rewrite (NanotubeFacts.make_invalid Atoms natoms cell nanotube
               element_symbol d Hsymbol).
    cbn [snd].
    match goal with
    | |- context [make ?d1] =>
        rewrite (NanotubeFacts.make_invalid Atoms natoms cell nanotube
                   element_symbol d1 Hsymbol)
    end.
    cbn. repeat split.
Qed.

End Facts.

End NanotubeMore.

(** ** More on the nanoparticle dialog *)

Module NanoparticleMore.

Import Nanoparticle Laws.

(** *** Computations that keep a relation *)

Section Keeping.

Context {S : Type} (R : S -> S -> Prop).
Hypothesis R_refl : forall s : S, R s s.
Hypothesis R_trans : forall s1 s2 s3 : S, R s1 s2 -> R s2 s3 -> R s1 s3.

Lemma keeps_ret {A : Type} (a : A) : keeps R (ret a).
Proof. intros s. apply R_refl. Qed.

Lemma keeps_raise {A : Type} (e : exn) : keeps R (raise (A := A) e).
Proof. intros s. apply R_refl. Qed.

Lemma keeps_gets {A : Type} (f : S -> A) : keeps R (gets f).
Proof. intros s. apply R_refl. Qed.

Lemma keeps_lift {A : Type} (o : outcome A) : keeps R (lift o).
Proof. intros s. apply R_refl. Qed.

Lemma keeps_modify (f : S -> S) :
  (forall s : S, R s (f s)) -> keeps R (modify f).
Proof. intros Hf s. apply Hf. Qed.

Lemma keeps_bind {A B : Type} (c : M S A) (k : A -> M S B) :
  keeps R c -> (forall a : A, keeps R (k a)) -> keeps R (bind c k).
Proof.
  intros Hc Hk s. unfold bind. specialize (Hc s).
  destruct (c s) as [[a|e] s1]; cbn [snd] in Hc |- *.
  - apply (R_trans _ _ _ Hc). apply Hk.
  - exact Hc.
Qed.

(** What follows a read is run on the value read. *)
Lemma keeps_read {A B : Type} (f : S -> A) (k : A -> M S B) :
  (forall s : S, R s (snd (k (f s) s))) -> keeps R (bind (gets f) k).
Proof. intros Hk s. apply Hk. Qed.

Lemma keeps_weaker {A : Type} (R' : S -> S -> Prop) (c : M S A) :
  (forall s s' : S, R' s s' -> R s s') -> keeps R' c -> keeps R c.
Proof. intros Hweaker Hc s. apply Hweaker, Hc. Qed.

End Keeping.

Section Facts.

Context {F : Type} {ops : FloatOps F}.
Variable Atoms : Type.
Variable natoms : Atoms -> nat.
Variable cluster :
  factory -> elem -> list direction -> list Z -> latconst (F := F) -> Atoms.
Variable wulff_construction :
  elem -> list direction -> list F -> F -> factory -> string
  -> latconst (F := F) -> Atoms.
Variable update_element : M (SetupNanoparticle (F := F) Atoms) bool.
Variable update_direction_table : M (SetupNanoparticle (F := F) Atoms) unit.

(** The widget a caller hands to [row_swap_next]. *)
Variable W : Type.
Variable widget : W.

Local Abbreviation dialog := (SetupNanoparticle (F := F) Atoms).
Local Abbreviation makeatoms :=
  (makeatoms natoms cluster wulff_construction update_element).
Local Abbreviation update :=
  (update natoms cluster wulff_construction update_element).
Local Abbreviation apply :=
  (apply natoms cluster wulff_construction update_element).
Local Abbreviation row_add := (row_add update_direction_table).
Local Abbreviation row_delete := (row_delete update_direction_table).
Local Abbreviation row_swap_next :=
  (row_swap_next update_direction_table widget).
Local Abbreviation settings := (same_settings (F := F) (Atoms := Atoms)).
Local Abbreviation numbers := (same_numbers (F := F) (Atoms := Atoms)).
Local Abbreviation diameters := (same_diameter (F := F) (Atoms := Atoms)).
Local Abbreviation counts := (same_count (F := F) (Atoms := Atoms)).
Local Abbreviation sizes := (same_sizes (F := F) (Atoms := Atoms)).

(** *** Without a valid element, without automatic apply *)

(** X6.  Without a valid element [makeatoms] builds nothing: it returns
    [False], the atoms and the script are [None], both labels show a dash,
    the [Smaller] and [Larger] buttons are insensitive, and nothing is
    asked of the library or handed to the viewer. *)
Theorem makeatoms_without_valid_element
        (depth : nat) (d d1 : dialog) :
  update_element d = (Return false, d1) ->
  let r := makeatoms (S depth) d in
  fst r = Return (Some false)
  /\ atoms (snd r) = None
  /\ pybut_python (display (snd r)) = None
  /\ natoms_label (display (snd r)) = Dash
  /\ dia1_label (display (snd r)) = Dash
  /\ smaller_button (display (snd r)) = false
  /\ larger_button (display (snd r)) = false
  /\ trace (snd r) = trace d1
  /\ direction_table (snd r) = direction_table d1.
Proof.
  intros Hinvalid r.
  assert (Hrun : r = (Return (Some false),
                      snd (makeinfo natoms (snd (clearatoms d1))))).
  { subst r. cbn [Nanoparticle.makeatoms].
    unfold makeatoms_with, bind at 1. rewrite Hinvalid. cbn [negb].
    unfold clearatoms, makeinfo, show, bind, gets, modify, ret.
    cbn. reflexivity. }
  rewrite Hrun.
  unfold clearatoms, makeinfo, show, bind, gets, modify, ret. cbn.
  do 8 (split; [reflexivity|]). reflexivity.
Qed.

(** X7.  With automatic apply unticked, a refresh discards what was
    built: once the element is checked, whatever the outcome of the check,
    the atoms and the script become [None], both labels show a dash, the
    [Smaller] and [Larger] buttons become insensitive, and the viewer is
    not called. *)
Theorem refresh_without_automatic_apply_discards_atoms
        (depth : nat) (d d1 : dialog) (valid : bool) :
  no_update d = false ->
  update_element d = (Return valid, d1) ->
  auto (inputs d1) = false ->
  let r := update depth d in
  fst r = Return tt
  /\ atoms (snd r) = None
  /\ pybut_python (display (snd r)) = None
  /\ natoms_label (display (snd r)) = Dash
  /\ dia1_label (display (snd r)) = Dash
  /\ smaller_button (display (snd r)) = false
  /\ larger_button (display (snd r)) = false
  /\ trace (snd r) = trace d1.
Proof.
  intros Hon Hchecked Hmanual r.
  assert (Hrun : r = (Return tt,
                      snd (makeinfo natoms (snd (clearatoms d1))))).
  { subst r.
    unfold Nanoparticle.update, update_with, bind at 1, gets at 1.
    cbn beta iota. rewrite Hon.
    unfold bind at 1. rewrite Hchecked.
    unfold bind at 1, gets at 1. cbn beta iota. rewrite Hmanual.
    unfold clearatoms, makeinfo, show, bind, gets, modify, ret.
    cbn. reflexivity. }
  rewrite Hrun.
  unfold clearatoms, makeinfo, show, bind, gets, modify, ret. cbn.
  do 7 (split; [reflexivity|]). reflexivity.
Qed.

(** X8.  [makeinfo] repaints the number of atoms before it asks for the
    volume per atom: when [get_atomic_volume] raises, for a structure that
    is unknown or out of the list, [makeinfo] raises the same exception
    with the atom count repainted and the diameter label and the two
    buttons as they were. *)
Theorem makeinfo_stops_after_atom_count
        (d : dialog) (built : Atoms) (e : exn) :
  atoms d = Some built ->
  get_atomic_volume d = (Raise e, d) ->
  let r := makeinfo natoms d in
  fst r = Raise e
  /\ natoms_label (display (snd r)) = NatomsText (natoms built)
  /\ dia1_label (display (snd r)) = dia1_label (display d)
  /\ smaller_button (display (snd r)) = smaller_button (display d)
  /\ larger_button (display (snd r)) = larger_button (display d).
Proof.
  intros Hatoms Hvolume r.
  assert (Hrun :
    r = (Raise e,
         set_display (set_natoms_label (NatomsText (natoms built)) (display d))
                     d)).
  { subst r.
    unfold makeinfo, show, bind at 1, gets at 1. cbn beta iota.
    rewrite Hatoms.
    unfold bind at 1, modify at 1. cbn beta iota.
    unfold bind at 1.
    rewrite (NanoparticleFacts.get_atomic_volume_reads Atoms d)
      by reflexivity.
    rewrite Hvolume. reflexivity. }
  rewrite Hrun. cbn.
  do 4 (split; [reflexivity|]). reflexivity.
Qed.

(** *** Applying rows of adjustments *)

(** X9.  [apply] with the layer specification: with a valid element, a
    known structure and every row holding an adjustment for its layers,
    [apply] asks the factory of the structure for the cluster, hands
    exactly that cluster to the viewer, once and after the factory call,
    keeps it as the atoms of the dialog and returns [True]. *)
Theorem apply_hands_cluster_to_viewer
        (depth : nat) (d d1 : dialog) (s : string) (two : bool)
        (layers : list Z) :
  update_element d = (Return true, d1) ->
  legal_element d1 <> ElNone ->
  list_of_structures d1 !! cb_active (structure (inputs d1)) = Some s ->
  getitem needs_2lat s = Some two ->
  cb_active (method (inputs d1)) = 0%nat ->
  comprehension (fun x => value_of "int" (row_layers x)) (direction_table d1)
  = Return layers ->
  let lc := if two then LcDict (lattice_const_a (inputs d1))
                               (lattice_const_c (inputs d1))
            else Lc (lattice_const_a (inputs d1)) in
  let surfaces := map row_direction (direction_table d1) in
  let r := apply (S depth) d in
  exists f : factory,
    let built := cluster f (legal_element d1) surfaces layers lc in
    getitem factory_of s = Some f
    /\ fst r = Return true
    /\ atoms (snd r) = Some built
    /\ trace (snd r)
       = trace d1
           ++ [CallFactory f (legal_element d1) surfaces layers lc;
               NewAtoms built].
Proof.
  intros Hvalid Hlegal Hselected Hknown Hmethod Hlayers lc surfaces r.
  destruct (NanoparticleFacts.makeatoms_layers_of_adjustments
              Atoms natoms cluster wulff_construction update_element
              depth d d1 s two layers
              Hvalid Hlegal Hselected Hknown Hmethod Hlayers)
    as (f & Hfactory & Hret & Hatoms & Htrace).
  exists f. cbv zeta. split; [exact Hfactory|].
  subst r.
  rewrite (NanoparticleFacts.apply_cases Atoms natoms cluster
             wulff_construction update_element (S depth) d).
  destruct (makeatoms (S depth) d) as [made d2].
  cbn [fst snd] in Hret, Hatoms, Htrace. subst made.
  rewrite Hatoms. cbn. rewrite Htrace, <- app_assoc.
  split; [reflexivity|]. split; [exact Hatoms | reflexivity].
Qed.

(** X10.  [apply] with the Wulff construction and the size given as a
    number of atoms: with rows of adjustments, [apply] asks
    [wulff_construction] for the particle, with the rounding of the first
    active button among above, below and closest, hands exactly that
    particle to the viewer and returns [True]; with no rounding button
    active it raises [RuntimeError] and the viewer is not called. *)
Theorem apply_hands_wulff_particle_to_viewer
        (depth : nat) (d d1 : dialog) (s : string) (two : bool)
        (energies : list F) :
  update_element d = (Return true, d1) ->
  legal_element d1 <> ElNone ->
  list_of_structures d1 !! cb_active (structure (inputs d1)) = Some s ->
  getitem needs_2lat s = Some two ->
  cb_active (method (inputs d1)) = 1%nat ->
  comprehension (fun x => value_of "float" (row_energy x)) (direction_table d1)
  = Return energies ->
  size_dia_radio (inputs d1) = false ->
  let lc := if two then LcDict (lattice_const_a (inputs d1))
                               (lattice_const_c (inputs d1))
            else Lc (lattice_const_a (inputs d1)) in
  let surfaces := map row_direction (direction_table d1) in
  let choice :=
    if round_above (inputs d1) then Some "above"
    else if round_below (inputs d1) then Some "below"
    else if round_closest (inputs d1) then Some "closest"
    else None in
  let r := apply (S depth) d in
  exists f : factory,
    getitem factory_of s = Some f
    /\ match choice with
       | Some rounding =>
           let built :=
             wulff_construction (legal_element d1) surfaces energies
                                (size_n_adj d1) f rounding lc in
           fst r = Return true
           /\ atoms (snd r) = Some built
           /\ trace (snd r)
              = trace d1
                  ++ [CallWulff (legal_element d1) surfaces energies
                                (size_n_adj d1) f rounding lc;
                      NewAtoms built]
       | None =>
           fst r = Raise (RuntimeError "No rounding!")
           /\ atoms (snd r) = atoms d1
           /\ trace (snd r) = trace d1
       end.
Proof.
  intros Hvalid Hlegal Hselected Hknown Hmethod Henergies Hradio
         lc surfaces choice r.
  destruct (NanoparticleFacts.makeatoms_wulff_of_adjustments
              Atoms natoms cluster wulff_construction update_element
              depth d d1 s two energies
              Hvalid Hlegal Hselected Hknown Hmethod Henergies Hradio)
    as (f & Hfactory & Hmade).
  cbv zeta in Hmade. fold lc surfaces choice in Hmade.
  exists f. split; [exact Hfactory|].
  subst r.
  rewrite (NanoparticleFacts.apply_cases Atoms natoms cluster
             wulff_construction update_element (S depth) d).
  destruct (makeatoms (S depth) d) as [made d2].
  cbn [fst snd] in Hmade.
  destruct choice as [rounding|].
  - destruct Hmade as (Hret & Hatoms & Htrace). subst made. cbv zeta.
    rewrite Hatoms. cbn. rewrite Htrace, <- app_assoc.
    split; [reflexivity|]. split; [exact Hatoms | reflexivity].
  - destruct Hmade as (Hret & Hatoms & Htrace). subst made.
    cbn. split; [reflexivity|]. split; assumption.
Qed.

(** *** Rows out of range, rows counted from the end *)

Lemma index_out_of_range (len : nat) (i : Z) :
  i < - Z.of_nat len \/ Z.of_nat len <= i -> index len i = None.
Proof.
  intros Hout. unfold index.
  destruct (0 <=? i) eqn:Hlow, (i <? Z.of_nat len) eqn:Hhigh; cbn [andb];
    try apply Z.leb_le in Hlow; try apply Z.ltb_lt in Hhigh;
    try apply Z.leb_gt in Hlow; try apply Z.ltb_ge in Hhigh;
    try lia;
    destruct (- Z.of_nat len <=? i) eqn:Hneg, (i <? 0) eqn:Hzero; cbn [andb];
      try apply Z.leb_le in Hneg; try apply Z.ltb_lt in Hzero;
      try apply Z.leb_gt in Hneg; try apply Z.ltb_ge in Hzero;
      try lia; reflexivity.
Qed.

Lemma index_of_last (len : nat) :
  (1 <= len)%nat -> index len (-1) = Some (len - 1)%nat.
Proof.
  intros Hlen. unfold index.
  replace (0 <=? -1) with false by reflexivity. cbn [andb].
  replace (- Z.of_nat len <=? -1) with true
    by (symmetry; apply Z.leb_le; lia).
  replace (-1 <? 0) with true by reflexivity. cbn [andb].
  f_equal. lia.
Qed.

(** X11.  A row that is out of range changes nothing.  For a table of
    [n] rows, [row_swap_next] with a row below [-n] or from [n-1] on, the
    last row included, and [row_delete] with a row below [-n] or from [n]
    on, raise [IndexError] with every attribute as it was, and the table is
    not redrawn; on an empty table this is so for every row. *)
Theorem row_out_of_range_changes_nothing (d : dialog) (row_ : Z) :
  let n := Z.of_nat (length (direction_table d)) in
  (row_ < - n \/ n - 1 <= row_ ->
     row_swap_next row_ d = (Raise IndexError, d))
  /\ (row_ < - n \/ n <= row_ ->
        row_delete row_ d = (Raise IndexError, d)).
Proof.
  intros n. split; intros Hout.
  - unfold Nanoparticle.row_swap_next, bind, gets. cbn beta iota.
    destruct Hout as [Hbelow|Habove].
    + destruct (index (length (direction_table d)) (row_ + 1)); [|reflexivity].
      rewrite (index_out_of_range _ row_) by (fold n; lia).
      reflexivity.
    + rewrite (index_out_of_range _ (row_ + 1)) by (fold n; lia).
      reflexivity.
  - unfold Nanoparticle.row_delete, bind, gets. cbn beta iota.
    rewrite (index_out_of_range _ row_) by (fold n; lia).
    reflexivity.
Qed.

Section Redrawn.

(** Redrawing the table leaves the table and the arity alone. *)
Hypothesis redraw_keeps_table :
  forall d : dialog,
    direction_table (snd (update_direction_table d)) = direction_table d.
Hypothesis redraw_keeps_arity :
  forall d : dialog,
    fourindex (snd (update_direction_table d)) = fourindex d.

(** X12.  A negative row counts from the end, so [row_swap_next] with the
    row [-1], the row the [Up] button of the first row is bound to,
    exchanges the last entry of the table with the first and leaves the
    entries between them as they were. *)
Theorem row_swap_next_wraps_around (d : dialog) :
  let dt := direction_table d in
  let last_ := (length dt - 1)%nat in
  let swapped := direction_table (snd (row_swap_next (-1) d)) in
  (1 <= length dt)%nat ->
  swapped !! 0%nat = dt !! last_
  /\ swapped !! last_ = dt !! 0%nat
  /\ (forall j : nat, j <> 0%nat -> j <> last_ -> swapped !! j = dt !! j).
Proof.
  intros dt last_ swapped Hlen.
  destruct (lookup_lt_is_Some_2 dt 0%nat) as [first Hfirst]; [lia|].
  destruct (lookup_lt_is_Some_2 dt last_) as [final Hfinal];
    [subst last_; lia|].
  assert (Hswapped : swapped = <[0%nat := final]> (<[last_ := first]> dt)).
  { subst swapped. unfold Nanoparticle.row_swap_next, bind, gets, modify.
    cbn beta iota. change (-1 + 1) with (Z.of_nat 0).
    rewrite NanoparticleFacts.index_of_nat by (fold dt; lia).
    rewrite index_of_last by exact Hlen.
    fold dt last_. rewrite Hfirst, Hfinal.
    now rewrite redraw_keeps_table. }
  rewrite Hswapped. split; [|split].
  - rewrite list_lookup_insert_eq by (rewrite length_insert; lia).
    now rewrite Hfinal.
  - destruct (decide (last_ = 0%nat)) as [Hone|Hmore].
    + rewrite Hone in *. rewrite list_lookup_insert_eq
        by (rewrite length_insert; lia).
      congruence.
    + rewrite list_lookup_insert_ne by congruence.
      rewrite list_lookup_insert_eq by (subst last_; lia).
      now rewrite Hfirst.
  - intros j Hfirst' Hlast'.
    now rewrite !list_lookup_insert_ne by congruence.
Qed.

(** *** Directions that pass the checks *)

(** Within the bound the sum of the first three indices is the one the
    array computes. *)
Lemma sum_first_three_exact (idx : list Z) :
  Forall (fun i => Z.abs i <= index_bound) idx ->
  sum_first_three idx = foldr Z.add 0 (take 3 idx).
Proof.
  intros Hsmall. unfold sum_first_three, int64.
  assert (Hsum : - 2 ^ 63 <= foldr Z.add 0 (take 3 idx) < 2 ^ 63).
  { unfold index_bound in Hsmall.
    change (2 ^ 61) with 2305843009213693952 in Hsmall.
    change (2 ^ 63) with 9223372036854775808.
    destruct Hsmall as [|x idx Hx Hsmall]; [cbn; lia|].
    destruct Hsmall as [|y idx Hy Hsmall]; [cbn; lia|].
    destruct Hsmall as [|z idx Hz Hsmall]; [cbn; lia|].
    cbn [take foldr]. rewrite take_0. cbn [foldr]. lia. }
  revert Hsum. generalize (foldr Z.add 0 (take 3 idx)). intros total Hsum.
  change (2 ^ 63) with 9223372036854775808 in *.
  change (2 ^ 64) with 18446744073709551616.
  rewrite Z.mod_small by lia. lia.
Qed.

(** X13.  [row_add] keeps the directions of the table valid: if every
    direction of the table has the arity of the dialog, is not all zero
    and, with four indices, has its first three summing to zero, it is
    still so after [row_add], whether the new direction was rejected or
    appended.  The dialog is taken to have an index spin box for each
    index, holding a number within the bound under which the 64-bit sum
    of the second check does not wrap around, as the numbers from -100
    to 100 of the spin boxes are. *)
Theorem row_add_keeps_directions_valid (d : dialog) :
  ((if fourindex d then 4 else 3) <= length (newdir_index (inputs d)))%nat ->
  Forall (fun i => Z.abs i <= index_bound) (newdir_index (inputs d)) ->
  table_valid d ->
  table_valid (snd (row_add d)).
Proof.
  intros Hboxes Hsmall Hvalid.
  rewrite (NanoparticleFacts.row_add_cases Atoms update_direction_table d).
  cbv zeta.
  set (idx := take (if fourindex d then 4%nat else 3%nat)
                   (newdir_index (inputs d))).
  destruct (any_nonzero idx) eqn:Hnonzero; cbn [negb orb];
    [|exact Hvalid].
  destruct (fourindex d && negb (sum_first_three idx =? 0)) eqn:Hskew;
    [exact Hvalid|].
  unfold table_valid. rewrite redraw_keeps_table, redraw_keeps_arity.
  cbn. apply Forall_app. split; [exact Hvalid|].
  apply Forall_singleton. cbn. repeat split.
  - subst idx. now apply length_take_le.
  - exact Hnonzero.
  - intros Hfour. rewrite Hfour in Hskew. cbn in Hskew.
    apply negb_false_iff, Z.eqb_eq in Hskew.
    rewrite <- sum_first_three_exact; [exact Hskew|].
    subst idx. now apply Forall_take.
Qed.

(** X14.  [row_delete] and [row_swap_next] keep the directions of the
    table valid, for every row they are called with, in range or not. *)
Theorem row_moves_keep_directions_valid (d : dialog) (row_ : Z) :
  table_valid d ->
  table_valid (snd (row_delete row_ d))
  /\ table_valid (snd (row_swap_next row_ d)).
Proof.
  intros Hvalid. split.
  - unfold Nanoparticle.row_delete, bind, gets, modify. cbn beta iota.
    destruct (index (length (direction_table d)) row_) as [i|];
      [|exact Hvalid].
    unfold table_valid. rewrite redraw_keeps_table, redraw_keeps_arity.
    cbn. now apply Forall_delete.
  - unfold Nanoparticle.row_swap_next, bind, gets, modify. cbn beta iota.
    destruct (index (length (direction_table d)) (row_ + 1)) as [j|];
      [|exact Hvalid].
    destruct (index (length (direction_table d)) row_) as [i|];
      [|exact Hvalid].
    destruct (direction_table d !! j) as [next|] eqn:Hnext; [|exact Hvalid].
    destruct (direction_table d !! i) as [this|] eqn:Hthis; [|exact Hvalid].
    unfold table_valid. rewrite redraw_keeps_table, redraw_keeps_arity.
    cbn. apply Forall_insert; [apply Forall_insert|].
    + exact Hvalid.
    + exact (Forall_lookup_1 _ _ _ _ Hvalid Hnext).
    + exact (Forall_lookup_1 _ _ _ _ Hvalid Hthis).
Qed.

End Redrawn.

(** *** Rows of widgets in step with the table *)

Ltac compare_rows :=
  repeat match goal with
  | |- context [?a <? ?b] => destruct (Z.ltb_spec a b)
  end;
  cbn [orb]; try reflexivity; try lia.

(** Appending a row and its widgets as [add_direction] does keeps the
    widgets in step with the table. *)
Lemma in_step_after_append
      (table : list (row (F := F))) (rows : list (row_widgets (F := F)))
      (x : row) (spin_ : spin) :
  let n := length table in
  let added :=
    mkRowWidgets (row_direction x) spin_
      (mkButton RowSwapNext (Z.of_nat n - 1) (0 <? Z.of_nat n))
      (mkButton RowSwapNext (Z.of_nat n) false)
      (mkButton RowDelete (Z.of_nat n) (0 <? Z.of_nat n)) in
  let rows' :=
    if 0 <? Z.of_nat n then alter activate (n - 1)%nat (rows ++ [added])
    else rows ++ [added] in
  length rows = n ->
  (forall (i : nat) (y : row) (w : row_widgets),
      table !! i = Some y -> rows !! i = Some w -> row_in_step n i y w) ->
  forall (i : nat) (y : row) (w : row_widgets),
    (table ++ [x]) !! i = Some y -> rows' !! i = Some w ->
    row_in_step (S n) i y w.
Proof.
  intros n added rows' Hlength Hstep i y w Hy Hw.
  assert (Hi : (i < S n)%nat).
  { apply lookup_lt_Some in Hy. rewrite length_app in Hy. cbn in Hy.
    subst n. lia. }
  destruct (decide (i = n)) as [->|Hbefore].
  - (* the row just added *)
    assert (y = x) as ->.
    { subst n. rewrite list_lookup_middle in Hy by reflexivity. congruence. }
    assert (w = added) as ->.
    { subst rows'. destruct (Z.ltb_spec 0 (Z.of_nat n)).
      - rewrite list_lookup_alter_ne in Hw by lia.
        rewrite <- Hlength, list_lookup_middle in Hw by reflexivity.
        congruence.
      - rewrite <- Hlength, list_lookup_middle in Hw by reflexivity.
        congruence. }
    unfold row_in_step, added. cbn.
    repeat split; compare_rows.
  - (* a row that was there *)
    assert (Hlt : (i < n)%nat) by lia.
    rewrite lookup_app_l in Hy by (fold n; lia).
    assert (Hpos : (0 <? Z.of_nat n) = true) by (apply Z.ltb_lt; lia).
    subst rows'. rewrite Hpos in Hw.
    destruct (decide (i = (n - 1)%nat)) as [Hlast|Hinner].
    + (* the row that was last: its buttons are switched on *)
      subst i. rewrite list_lookup_alter_eq in Hw.
      rewrite lookup_app_l in Hw by lia.
      destruct (rows !! (n - 1)%nat) as [w0|] eqn:Hw0; [|discriminate].
      injection Hw as <-.
      destruct (Hstep _ _ _ Hy Hw0) as (Hl & Hu & Hd & Hx & Hua & _ & _).
      unfold row_in_step, activate. cbn.
      rewrite Hl, Hu, Hd, Hx, Hua.
      repeat split; compare_rows.
    + rewrite list_lookup_alter_ne in Hw by congruence.
      rewrite lookup_app_l in Hw by lia.
      destruct (Hstep _ _ _ Hy Hw) as (Hl & Hu & Hd & Hx & Hua & Hda & Hxa).
      unfold row_in_step. rewrite Hl, Hu, Hd, Hx, Hua, Hda, Hxa.
      repeat split; compare_rows.
Qed.

(** *** The arity after a change of structure *)

(** The default directions of a structure have its arity and pass the
    checks of [row_add]. *)
Lemma default_directions_valid
      (s : string) (four : bool) (defaults : list (direction * Z)) :
  getitem needs_4index s = Some four ->
  getitem default_layers s = Some defaults ->
  Forall (fun x : row (F := F) => valid_direction four (row_direction x))
         (default_rows defaults).
Proof.
  unfold needs_4index, default_layers. cbn -[String.eqb].
  repeat match goal with
  | |- context [String.eqb ?k s] =>
      destruct (String.eqb k s);
      [ intros Hfour Hdefaults;
        injection Hfour as <-; injection Hdefaults as <-;
        cbn; repeat constructor; cbn; try reflexivity; discriminate
      | ]
  end.
  discriminate.
Qed.

Section Quietly.

(** Checking the element returns a truth value and changes, at most,
    what a refresh repaints. *)
Hypothesis element_check :
  forall d : dialog,
    (exists valid : bool, fst (update_element d) = Return valid)
    /\ same_table d (snd (update_element d)).

(** What [update_structure] leaves behind when refreshes are quiet. *)
Lemma update_structure_quiet
      (depth : nat) (d : dialog) (four : bool)
      (defaults : list (direction * Z)) :
  no_update d = true \/ auto (inputs d) = false ->
  getitem needs_4index (cb_value (structure (inputs d))) = Some four ->
  getitem default_layers (cb_value (structure (inputs d))) = Some defaults ->
  let s := cb_value (structure (inputs d)) in
  let r := update_structure natoms cluster wulff_construction
                            update_element depth d in
  fst r = Return tt
  /\ old_structure (snd r) = s
  /\ fourindex (snd r)
     = (if String.eqb s (old_structure d) then fourindex d else four)
  /\ direction_table (snd r)
     = (if negb (String.eqb s (old_structure d))
           && negb (Bool.eqb four (fourindex d))
        then default_rows defaults
        else direction_table d).
Proof.
  intros Hquiet Hfour Hdefaults s r. subst r s.
  destruct (NanoparticleFacts.known_structure _ _ Hfour)
    as (two & _ & Htwo & _).
  unfold update_structure, bind, gets. cbn beta iota.
  destruct (String.eqb_spec (cb_value (structure (inputs d)))
                            (old_structure d)) as [Hsame|Hchanged].
  - cbn [negb andb]. unfold ret. cbn beta iota.
    destruct (NanoparticleFacts.update_quiet
                Atoms natoms cluster wulff_construction update_element
                element_check depth d Hquiet)
      as (Hret & _ & _ & Harity & Hold & Htable & _).
    rewrite Hold, Harity, Htable. split; [exact Hret|].
    split; [symmetry; exact Hsame|]. split; reflexivity.
  - cbn [negb andb]. unfold subscript. rewrite Hfour, Htwo.
    unfold show, modify, ret. cbn beta iota.
    destruct (Bool.eqb four (fourindex d)); cbn [negb].
    + cbn beta iota.
      match goal with
      | |- context [update depth ?s] =>
          destruct (NanoparticleFacts.update_quiet
                      Atoms natoms cluster wulff_construction update_element
                      element_check depth s Hquiet)
            as (Hret & _ & _ & Harity & Hold & Htable & _)
      end.
      rewrite Hold, Harity, Htable. split; [exact Hret|].
      split; [reflexivity|]. split; reflexivity.
    + match goal with
      | |- context [default_direction_table _ _ _ _ depth ?s] =>
          destruct (NanoparticleFacts.default_direction_table_quiet
                      Atoms natoms cluster wulff_construction update_element
                      element_check depth s defaults Hquiet Hdefaults)
            as (Hret & Htable & Hoff & Hinputs & Harity & _);
          destruct (default_direction_table _ _ _ _ depth s)
            as [filled d1]
      end.
      cbn [fst snd] in Hret, Htable, Hoff, Hinputs, Harity. subst filled.
      cbn beta iota.
      match goal with
      | |- context [update depth ?s] =>
          destruct (NanoparticleFacts.update_quiet
                      Atoms natoms cluster wulff_construction update_element
                      element_check depth s)
            as (Hret' & _ & _ & Harity' & Hold' & Htable' & _);
          [cbn; rewrite Hoff, Hinputs; exact Hquiet|]
      end.
      split; [exact Hret'|].
      rewrite Hold', Harity', Htable'. cbn. rewrite Harity.
      split; [reflexivity|]. split; [reflexivity | exact Htable].
Qed.

(** X15.  [update_structure] keeps the directions of the table valid:
    when it changes the arity of the dialog it replaces the table by the
    default directions of the new structure, which have the new arity and
    pass the checks of [row_add]; otherwise arity and table stay.
    Refreshes are taken to be quiet. *)
Theorem update_structure_keeps_directions_valid
        (depth : nat) (d : dialog) (four : bool) :
  no_update d = true \/ auto (inputs d) = false ->
  getitem needs_4index (cb_value (structure (inputs d))) = Some four ->
  table_valid d ->
  table_valid (snd (update_structure natoms cluster wulff_construction
                                     update_element depth d)).
Proof.
  intros Hquiet Hfour Hvalid.
  destruct (NanoparticleFacts.known_structure _ _ Hfour)
    as (_ & defaults & _ & Hdefaults).
  destruct (update_structure_quiet depth d four defaults
                                   Hquiet Hfour Hdefaults)
    as (_ & _ & Harity & Htable).
  unfold table_valid. rewrite Harity, Htable.
  destruct (String.eqb (cb_value (structure (inputs d))) (old_structure d));
    cbn [negb andb]; [exact Hvalid|].
  destruct (Bool.eqb four (fourindex d)) eqn:Hsame; cbn [negb].
  - apply Bool.eqb_prop in Hsame. rewrite Hsame. exact Hvalid.
  - exact (default_directions_valid _ _ _ Hfour Hdefaults).
Qed.

(** X16.  [update_structure] leaves the dialog with [old_structure] the
    selected structure and, when the structure changed, with [fourindex]
    its arity: afterwards [fourindex] is the arity of [old_structure],
    provided this was so before in case the structure did not change.
    Refreshes are taken to be quiet. *)
Theorem update_structure_records_arity
        (depth : nat) (d : dialog) (four : bool) :
  no_update d = true \/ auto (inputs d) = false ->
  getitem needs_4index (cb_value (structure (inputs d))) = Some four ->
  (cb_value (structure (inputs d)) = old_structure d -> fourindex d = four) ->
  let r := update_structure natoms cluster wulff_construction
                            update_element depth d in
  old_structure (snd r) = cb_value (structure (inputs d))
  /\ fourindex (snd r) = four
  /\ getitem needs_4index (old_structure (snd r)) = Some (fourindex (snd r)).
Proof.
  intros Hquiet Hfour Hrecorded r.
  destruct (NanoparticleFacts.known_structure _ _ Hfour)
    as (_ & defaults & _ & Hdefaults).
  destruct (update_structure_quiet depth d four defaults
                                   Hquiet Hfour Hdefaults)
    as (_ & Hold & Harity & _).
  fold r in Hold, Harity.
  assert (Hnow : fourindex (snd r) = four).
  { rewrite Harity.
    destruct (String.eqb_spec (cb_value (structure (inputs d)))
                              (old_structure d)) as [Hsame|_];
      [exact (Hrecorded Hsame) | reflexivity]. }
  split; [exact Hold|]. split; [exact Hnow|].
  now rewrite Hold, Hnow.
Qed.

(** *** The rows of widgets *)

(** What [add_direction] leaves in the table and in the rows of widgets
    when refreshes are quiet. *)
Lemma add_direction_rows
      (depth : nat) (d : dialog) (direction_ : direction) (layers : Z)
      (energy : F) :
  no_update d = true \/ auto (inputs d) = false ->
  length (direction_table_rows (display d)) = length (direction_table d) ->
  let n := length (direction_table d) in
  let added :=
    mkRowWidgets direction_
      (if String.eqb (cb_value (method (inputs d))) "wulff"
       then EnergySpin energy else LayerSpin layers)
      (mkButton RowSwapNext (Z.of_nat n - 1) (0 <? Z.of_nat n))
      (mkButton RowSwapNext (Z.of_nat n) false)
      (mkButton RowDelete (Z.of_nat n) (0 <? Z.of_nat n)) in
  let r := add_direction natoms cluster wulff_construction update_element
                         depth direction_ layers energy d in
  fst r = Return tt
  /\ direction_table (snd r)
     = direction_table d ++ [mkRow direction_ (Plain layers) (Plain energy)]
  /\ direction_table_rows (display (snd r))
     = (if 0 <? Z.of_nat n
        then alter activate (n - 1)%nat
                   (direction_table_rows (display d) ++ [added])
        else direction_table_rows (display d) ++ [added])
  /\ no_update (snd r) = no_update d
  /\ inputs (snd r) = inputs d.
Proof.
  intros Hquiet Hrows n added r. subst r added n.
  destruct d as [a nu le ei fi os ls dt sn sd inp dis tr].
  cbn in Hquiet, Hrows.
  unfold add_direction, show, bind, gets, modify, ret, raise.
  cbn -[Nanoparticle.update index Z.of_nat Z.ltb length].
  destruct (0 <? Z.of_nat (length dt)) eqn:Hpos.
  - apply Z.ltb_lt in Hpos.
    cbn -[Nanoparticle.update index Z.of_nat Z.ltb length].
    rewrite length_app, Hrows. cbn [length].
    rewrite NanoparticleFacts.index_of_last_but_one by lia.
    cbn -[Nanoparticle.update index Z.of_nat Z.ltb length].
    match goal with
    | |- context [update depth ?s] =>
        destruct (NanoparticleFacts.update_quiet
                    Atoms natoms cluster wulff_construction update_element
                    element_check depth s Hquiet)
          as (Hret & Hoff & Hinputs & _ & _ & Htable & Hdrawn);
        destruct (update depth s) as [refreshed d']
    end.
    cbn in Hret, Hoff, Hinputs, Htable, Hdrawn |- *.
    rewrite Htable, Hdrawn, Hinputs, Hoff.
    replace (length dt + 1 - 2)%nat with (length dt - 1)%nat by lia.
    split; [exact Hret|]. split; [reflexivity|].
    split; [reflexivity|]. split; reflexivity.
  - cbn -[Nanoparticle.update index Z.of_nat Z.ltb length].
    match goal with
    | |- context [update depth ?s] =>
        destruct (NanoparticleFacts.update_quiet
                    Atoms natoms cluster wulff_construction update_element
                    element_check depth s Hquiet)
          as (Hret & Hoff & Hinputs & _ & _ & Htable & Hdrawn);
        destruct (update depth s) as [refreshed d']
    end.
    cbn in Hret, Hoff, Hinputs, Htable, Hdrawn |- *.
    rewrite Htable, Hdrawn, Hinputs, Hoff.
    split; [exact Hret|]. split; [reflexivity|].
    split; [reflexivity|]. split; reflexivity.
Qed.

(** [activate] leaves the callbacks of a row as they are. *)
Lemma activate_wired (w : row_widgets (F := F)) :
  row_wired (rw_up w) (rw_down w) (rw_delete w) ->
  row_wired (rw_up (activate w)) (rw_down (activate w))
            (rw_delete (activate w)).
Proof. intros Hwired. exact Hwired. Qed.

Lemma add_direction_in_step
      (depth : nat) (d : dialog) (direction_ : direction) (layers : Z)
      (energy : F) :
  no_update d = true \/ auto (inputs d) = false ->
  rows_in_step d ->
  rows_wired d ->
  let r := add_direction natoms cluster wulff_construction update_element
                         depth direction_ layers energy d in
  fst r = Return tt
  /\ rows_in_step (snd r)
  /\ rows_wired (snd r)
  /\ no_update (snd r) = no_update d
  /\ inputs (snd r) = inputs d.
Proof.
  intros Hquiet [Hlength Hstep] Hwired r.
  destruct (add_direction_rows depth d direction_ layers energy
                               Hquiet Hlength)
    as (Hret & Htable & Hdrawn & Hoff & Hinputs).
  fold r in Hret, Htable, Hdrawn, Hoff, Hinputs.
  split; [exact Hret|]. split; [|split; [|split; assumption]].
  - unfold rows_in_step. rewrite Htable, Hdrawn. split.
    + destruct (0 <? Z.of_nat (length (direction_table d)));
        rewrite ?length_alter, !length_app, Hlength; reflexivity.
    + rewrite length_app. cbn [length].
      replace (length (direction_table d) + 1)%nat
        with (S (length (direction_table d))) by lia.
      exact (in_step_after_append
               (direction_table d) (direction_table_rows (display d))
               (mkRow direction_ (Plain layers) (Plain energy)) _
               Hlength Hstep).
  - unfold rows_wired. rewrite Hdrawn.
    assert (Hadded :
      Forall (fun w : row_widgets (F := F) =>
                row_wired (rw_up w) (rw_down w) (rw_delete w))
             (direction_table_rows (display d)
                ++ [mkRowWidgets direction_
                      (if String.eqb (cb_value (method (inputs d))) "wulff"
                       then EnergySpin energy else LayerSpin layers)
                      (mkButton RowSwapNext
                         (Z.of_nat (length (direction_table d)) - 1)
                         (0 <? Z.of_nat (length (direction_table d))))
                      (mkButton RowSwapNext
                         (Z.of_nat (length (direction_table d))) false)
                      (mkButton RowDelete
                         (Z.of_nat (length (direction_table d)))
                         (0 <? Z.of_nat (length (direction_table d))))])).
    { apply Forall_app. split; [exact Hwired|].
      apply Forall_singleton. repeat split. }
    destruct (0 <? Z.of_nat (length (direction_table d)));
      [|exact Hadded].
    apply Forall_alter; [exact Hadded|].
    intros w _ Hw. now apply activate_wired.
Qed.

Lemma fill_in_step (depth : nat) (defaults : list (direction * Z)) :
  forall d : dialog,
    no_update d = true \/ auto (inputs d) = false ->
    rows_in_step d ->
    rows_wired d ->
    let r :=
      for_each defaults
               (fun '(direction_, layers) =>
                  add_direction natoms cluster wulff_construction
                                update_element depth direction_ layers
                                (of_int 1))
               d in
    fst r = Return tt /\ rows_in_step (snd r) /\ rows_wired (snd r).
Proof.
  induction defaults as [|[direction_ layers] defaults IH];
    intros d Hquiet Hstep Hwired.
  - split; [reflexivity | split; assumption].
  - cbn [for_each]. unfold bind.
    destruct (add_direction_in_step depth d direction_ layers (of_int 1)
                                    Hquiet Hstep Hwired)
      as (Hret & Hstep1 & Hwired1 & Hoff & Hinputs).
    destruct (add_direction _ _ _ _ depth direction_ layers (of_int 1) d)
      as [added d1].
    cbn [fst snd] in Hret, Hstep1, Hwired1, Hoff, Hinputs. subst added.
    apply IH; [|exact Hstep1|exact Hwired1].
    rewrite Hoff, Hinputs. exact Hquiet.
Qed.

(** What [default_direction_table] leaves in the rows of widgets when
    refreshes are quiet. *)
Lemma default_table_rows
      (depth : nat) (d : dialog) (defaults : list (direction * Z)) :
  no_update d = true \/ auto (inputs d) = false ->
  getitem default_layers (cb_value (structure (inputs d))) = Some defaults ->
  let r := default_direction_table natoms cluster wulff_construction
                                   update_element depth d in
  fst r = Return tt /\ rows_in_step (snd r) /\ rows_wired (snd r).
Proof.
  intros Hquiet Hdefaults r. subst r.
  destruct d as [a nu le ei fi os ls dt sn sd inp dis tr].
  cbn in Hquiet, Hdefaults.
  unfold default_direction_table, show, bind, gets, modify, subscript.
  cbn -[for_each add_direction]. rewrite Hdefaults.
  unfold ret. cbn -[for_each add_direction].
  match goal with
  | |- context [for_each defaults ?body ?s] =>
      apply (fill_in_step depth defaults s Hquiet)
  end.
  - split; [reflexivity|]. intros i x w Hx. cbn in Hx. discriminate.
  - constructor.
Qed.

(** X17.  [default_direction_table] leaves the rows of widgets in step
    with the direction table: as many rows of widgets as directions, each
    labelled with its direction, its [Up] button bound to the row before,
    its [Down] and [Delete] buttons to its own row, [Up] active except on
    the first row, [Down] except on the last, [Delete] except on a first
    row that is alone.  Refreshes are taken to be quiet. *)
Theorem default_table_is_drawn_in_step
        (depth : nat) (d : dialog) (defaults : list (direction * Z)) :
  no_update d = true \/ auto (inputs d) = false ->
  getitem default_layers (cb_value (structure (inputs d))) = Some defaults ->
  let r := default_direction_table natoms cluster wulff_construction
                                   update_element depth d in
  fst r = Return tt /\ rows_in_step (snd r).
Proof.
  intros Hquiet Hdefaults r.
  destruct (default_table_rows depth d defaults Hquiet Hdefaults)
    as (Hret & Hstep & _).
  split; assumption.
Qed.

(** The callbacks of the rows [default_direction_table] draws. *)
Lemma default_table_is_wired
      (depth : nat) (d : dialog) (defaults : list (direction * Z)) :
  no_update d = true \/ auto (inputs d) = false ->
  getitem default_layers (cb_value (structure (inputs d))) = Some defaults ->
  rows_wired (snd (default_direction_table natoms cluster wulff_construction
                                           update_element depth d)).
Proof.
  intros Hquiet Hdefaults.
  exact (proj2 (proj2 (default_table_rows depth d defaults
                                          Hquiet Hdefaults))).
Qed.

(** X18.  Of the three buttons of a row, only [Delete] reaches its row.
    In a table drawn in step, whose buttons have the callbacks
    [add_direction] gave them, pressing the [Delete] button of row [i]
    calls [row_delete] with [i]: the entry of row [i] is removed and the
    table redrawn.  Pressing [Up] or [Down] calls [row_swap_next] with
    the row as its one argument, which the method takes for the widget:
    the row is missing, [TypeError] is raised and every attribute is as
    it was.  The rows the two buttons hold are the right ones: called
    with a widget and the row of an active [Up] button, [row_swap_next]
    exchanges the entry of row [i] with the one before, and with the row
    of an active [Down] button with the one after. *)
Theorem only_delete_button_reaches_its_row
        (d : dialog) (i : nat) (x : row) (w : row_widgets) :
  rows_in_step d ->
  rows_wired d ->
  direction_table d !! i = Some x ->
  direction_table_rows (display d) !! i = Some w ->
  let dt := direction_table d in
  let missing :=
    TypeError "missing 1 required positional argument: 'row'" in
  press update_direction_table (rw_delete w) d
  = update_direction_table (set_direction_table (delete i dt) d)
  /\ press update_direction_table (rw_up w) d = (Raise missing, d)
  /\ press update_direction_table (rw_down w) d = (Raise missing, d)
  /\ (bt_active (rw_up w) = true ->
      exists before : row,
        dt !! (i - 1)%nat = Some before
        /\ row_swap_next (bt_row (rw_up w)) d
           = update_direction_table
               (set_direction_table
                  (<[i := before]> (<[(i - 1)%nat := x]> dt)) d))
  /\ (bt_active (rw_down w) = true ->
      exists after : row,
        dt !! S i = Some after
        /\ row_swap_next (bt_row (rw_down w)) d
           = update_direction_table
               (set_direction_table (<[S i := x]> (<[i := after]> dt)) d)).
Proof.
  intros [Hlength Hstep] Hwired Hx Hw dt missing.
  assert (Hi : (i < length dt)%nat) by exact (lookup_lt_Some _ _ _ Hx).
  destruct (Hstep i x w Hx Hw) as (_ & Hu & Hd & Hr & Hua & Hda & _).
  destruct (Forall_lookup_1 _ _ _ _ Hwired Hw) as (Hcu & Hcd & Hcr).
  unfold press, call. rewrite Hcu, Hcd, Hcr, Hu, Hd, Hr, Hua, Hda.
  assert (Hswap : forall (j : nat) (this next : row),
             dt !! j = Some this -> dt !! S j = Some next ->
             row_swap_next (Z.of_nat j) d
             = update_direction_table
                 (set_direction_table (<[S j := this]> (<[j := next]> dt)) d)).
  { intros j this next Hthis Hnext.
    assert (Hj : (S j < length dt)%nat) by exact (lookup_lt_Some _ _ _ Hnext).
    unfold Nanoparticle.row_swap_next, bind, gets, modify. cbn beta iota.
    rewrite NanoparticleFacts.index_of_next by exact Hj.
    rewrite NanoparticleFacts.index_of_nat by (fold dt; lia).
    fold dt. rewrite Hthis, Hnext. reflexivity. }
  split; [|split; [|split; [|split]]].
  - unfold Nanoparticle.row_delete, bind, gets, modify.
    cbn beta iota. rewrite NanoparticleFacts.index_of_nat by exact Hi.
    reflexivity.
  - reflexivity.
  - reflexivity.
  - intros Hactive. apply Z.ltb_lt in Hactive.
    destruct (lookup_lt_is_Some_2 dt (i - 1)%nat) as [before Hbefore]; [lia|].
    exists before. split; [exact Hbefore|].
    replace (Z.of_nat i - 1) with (Z.of_nat (i - 1)) by lia.
    rewrite (Hswap (i - 1)%nat before x Hbefore)
      by (replace (S (i - 1)) with i by lia; exact Hx).
    replace (S (i - 1)) with i by lia. reflexivity.
  - intros Hactive. apply Z.ltb_lt in Hactive.
    destruct (lookup_lt_is_Some_2 dt (S i)) as [after Hafter];
      [fold dt in Hactive; lia|].
    exists after. split; [exact Hafter|].
    exact (Hswap i x after Hx Hafter).
Qed.

End Quietly.

(** *** When the diameter does not convert *)

(** X19.  With the Wulff construction selected and the size given as a
    diameter, [makeatoms] converts the diameter to a number of atoms
    before it builds.  When the division by the volume per atom or the
    rounding raises, as the division does for a lattice constant of zero,
    [makeatoms] and [apply] raise the same exception with the attributes
    as the check of the element left them: the number of atoms is not
    set, [wulff_construction] is not called, the atoms are not replaced
    and the labels are not repainted. *)
Theorem failed_conversion_stops_building
        (depth : nat) (d d1 : dialog) (s : string) (two : bool)
        (energies : list F) (at_vol : F) (e : exn) :
  update_element d = (Return true, d1) ->
  legal_element d1 <> ElNone ->
  list_of_structures d1 !! cb_active (structure (inputs d1)) = Some s ->
  getitem needs_2lat s = Some two ->
  cb_active (method (inputs d1)) = 1%nat ->
  comprehension (fun x => value_of "float" (row_energy x)) (direction_table d1)
  = Return energies ->
  size_dia_radio (inputs d1) = true ->
  get_atomic_volume d1 = (Return at_vol, d1) ->
  count_in_sphere (size_dia_adj d1) at_vol = Raise e ->
  makeatoms (S depth) d = (Raise e, d1)
  /\ apply (S depth) d = (Raise e, d1).
Proof.
  intros Hvalid Hlegal Hselected Hknown Hmethod Henergies Hradio
         Hvolume Hfailed.
  assert (Hmade : makeatoms (S depth) d = (Raise e, d1)).
  { cbn [Nanoparticle.makeatoms].
    unfold makeatoms_with, bind at 1. rewrite Hvalid. cbn [negb].
    unfold bind at 1, gets at 1.
    assert (Hbody : forall body : M dialog (option bool),
               match legal_element d1 with
               | ElNone => raise AssertionError
               | _ => body
               end = body)
      by (intros body; destruct (legal_element d1); congruence).
    rewrite Hbody. clear Hbody.
    assert (Hsized :
      update_size_dia_with (update_with natoms update_element (makeatoms depth))
                           d1
      = (Raise e, d1)).
    { unfold update_size_dia_with, bind at 1, gets at 1. cbn beta iota.
      rewrite Hradio. cbn [negb].
      unfold bind at 1. rewrite Hvolume.
      unfold bind at 1, gets at 1. cbn beta iota.
      unfold bind at 1, lift. rewrite Hfailed. reflexivity. }
    unfold active_structure, subscript, lift, bind, gets, ret, raise.
    cbn beta iota. rewrite Hselected. cbn beta iota. rewrite Hknown.
    cbn beta iota. rewrite Hmethod. cbn beta iota delta [Nat.eqb].
    rewrite Henergies. cbn beta iota.
    rewrite Hsized. reflexivity. }
  split; [exact Hmade|].
  rewrite (NanoparticleFacts.apply_cases Atoms natoms cluster
             wulff_construction update_element (S depth) d).
  rewrite Hmade. reflexivity.
Qed.

(** *** What building the atoms leaves alone *)

Lemma same_settings_refl (d : dialog) : same_settings d d.
Proof. unfold same_settings. repeat (split; [reflexivity|]). reflexivity. Qed.

Lemma same_settings_trans (d1 d2 d3 : dialog) :
  same_settings d1 d2 -> same_settings d2 d3 -> same_settings d1 d3.
Proof.
  unfold same_settings. intros (?&?&?&?&?&?) (?&?&?&?&?&?).
  repeat split; congruence.
Qed.

Ltac settings_kept_here :=
  unfold same_settings; repeat (split; [reflexivity|]); reflexivity.

Ltac settings_kept := intros ?; settings_kept_here.

Ltac frame :=
  repeat first
    [ assumption
    | apply (keeps_ret settings same_settings_refl)
    | apply (keeps_raise settings same_settings_refl)
    | apply (keeps_gets settings same_settings_refl)
    | apply (keeps_lift settings same_settings_refl)
    | apply keeps_modify; settings_kept
    | apply (keeps_bind settings same_settings_trans); [ | intros ? ]
    | match goal with
      | |- keeps _ (if ?b then _ else _) => destruct b
      | |- keeps _ (match ?x with _ => _ end) => destruct x
      end ].

Lemma get_atomic_volume_keeps :
  keeps settings get_atomic_volume.
Proof. unfold get_atomic_volume, active_structure. frame. Qed.

Lemma makeinfo_keeps : keeps settings (makeinfo natoms).
Proof.
  pose proof get_atomic_volume_keeps. unfold makeinfo, show. frame.
Qed.

Lemma clearatoms_keeps : keeps settings clearatoms.
Proof. unfold clearatoms, show. frame. Qed.

(** The relations on the sizes. *)
Lemma same_numbers_refl (d : dialog) : same_numbers d d.
Proof. repeat split. Qed.

Lemma same_numbers_trans (d1 d2 d3 : dialog) :
  same_numbers d1 d2 -> same_numbers d2 d3 -> same_numbers d1 d3.
Proof.
  unfold same_numbers. intros (?&?&?) (?&?&?). repeat split; congruence.
Qed.

Lemma same_diameter_refl (d : dialog) : same_diameter d d.
Proof. repeat split. Qed.

Lemma same_diameter_trans (d1 d2 d3 : dialog) :
  same_diameter d1 d2 -> same_diameter d2 d3 -> same_diameter d1 d3.
Proof.
  unfold same_diameter. intros (?&?) (?&?). split; congruence.
Qed.

Lemma same_count_refl (d : dialog) : same_count d d.
Proof. repeat split. Qed.

Lemma same_count_trans (d1 d2 d3 : dialog) :
  same_count d1 d2 -> same_count d2 d3 -> same_count d1 d3.
Proof.
  unfold same_count. intros (H1 & H2 & H3) (H4 & H5 & H6).
  split; [congruence|]. split; [congruence|].
  intros Hradio. rewrite H6 by (rewrite H1; exact Hradio). now apply H3.
Qed.

Lemma same_sizes_refl (d : dialog) : same_sizes d d.
Proof. repeat split. Qed.

Lemma same_sizes_trans (d1 d2 d3 : dialog) :
  same_sizes d1 d2 -> same_sizes d2 d3 -> same_sizes d1 d3.
Proof.
  unfold same_sizes. intros (H1 & H2 & H3) (H4 & H5 & H6).
  split; [congruence|]. split; [congruence|].
  intros Hcase. rewrite H6 by (rewrite H1; exact Hcase). now apply H3.
Qed.

Lemma same_numbers_sizes (d d' : dialog) :
  same_numbers d d' -> same_sizes d d'.
Proof.
  intros (Hinputs & Hdia & Hn).
  split; [exact Hinputs|]. split; [exact Hdia|]. intros _. exact Hn.
Qed.

Lemma same_numbers_count (d d' : dialog) :
  same_numbers d d' -> same_count d d'.
Proof.
  intros (Hinputs & Hdia & Hn).
  split; [exact Hinputs|]. split; [exact Hdia|]. intros _. exact Hn.
Qed.

Lemma same_numbers_diameter (d d' : dialog) :
  same_numbers d d' -> same_diameter d d'.
Proof. intros (?&?&?). split; assumption. Qed.

Lemma same_sizes_count (d d' : dialog) :
  same_sizes d d' -> same_count d d'.
Proof.
  intros (Hinputs & Hdia & Hn).
  split; [exact Hinputs|]. split; [exact Hdia|].
  intros Hoff. apply Hn. left. exact Hoff.
Qed.

Lemma same_sizes_diameter (d d' : dialog) :
  same_sizes d d' -> same_diameter d d'.
Proof. intros (?&?&?). split; assumption. Qed.

Ltac kept_here :=
  intros ?;
  first
    [ split;
      [ reflexivity
      | split; [reflexivity | first [reflexivity | intros _; reflexivity]] ]
    | split; reflexivity ].

Ltac frame_for R R_refl R_trans :=
  repeat first
    [ assumption
    | apply (keeps_ret R R_refl)
    | apply (keeps_raise R R_refl)
    | apply (keeps_gets R R_refl)
    | apply (keeps_lift R R_refl)
    | apply keeps_modify; kept_here
    | apply (keeps_bind R R_trans); [ | intros ? ]
    | match goal with
      | |- keeps _ (if ?b then _ else _) => destruct b
      | |- keeps _ (match ?x with _ => _ end) => destruct x
      end ].

Ltac frame_numbers :=
  frame_for (same_numbers (F := F) (Atoms := Atoms))
            same_numbers_refl same_numbers_trans.
Ltac frame_diameters :=
  frame_for (same_diameter (F := F) (Atoms := Atoms))
            same_diameter_refl same_diameter_trans.
Ltac frame_counts :=
  frame_for (same_count (F := F) (Atoms := Atoms))
            same_count_refl same_count_trans.
Ltac frame_sizes :=
  frame_for (same_sizes (F := F) (Atoms := Atoms))
            same_sizes_refl same_sizes_trans.

Lemma get_atomic_volume_keeps_numbers :
  keeps numbers (get_atomic_volume (Atoms := Atoms)).
Proof.
  unfold get_atomic_volume, active_structure.
  frame_numbers.
Qed.

Lemma makeinfo_keeps_numbers : keeps numbers (makeinfo natoms).
Proof.
  pose proof get_atomic_volume_keeps_numbers. unfold makeinfo, show.
  frame_numbers.
Qed.

Lemma clearatoms_keeps_numbers :
  keeps numbers (clearatoms (F := F) (Atoms := Atoms)).
Proof.
  unfold clearatoms, show. frame_numbers.
Qed.

Section Checked.

(** Checking the element leaves the settings alone. *)
Hypothesis element_check_keeps : keeps settings update_element.

Lemma update_with_keeps (building : M dialog (option bool)) :
  keeps settings building ->
  keeps settings (update_with natoms update_element building).
Proof.
  intros Hbuilding.
  pose proof makeinfo_keeps. pose proof clearatoms_keeps.
  unfold update_with, emit. frame.
Qed.

Lemma makeatoms_with_keeps (refresh : M dialog unit) :
  keeps settings refresh ->
  keeps settings
        (makeatoms_with natoms cluster wulff_construction update_element
                        refresh).
Proof.
  intros Hrefresh.
  pose proof makeinfo_keeps. pose proof clearatoms_keeps.
  pose proof get_atomic_volume_keeps.
  unfold makeatoms_with, update_size_dia_with, rounding_choice,
    active_structure, subscript, emit, show.
  frame.
Qed.

Lemma makeatoms_keeps (depth : nat) : keeps settings (makeatoms depth).
Proof.
  induction depth as [|depth IH]; cbn [Nanoparticle.makeatoms].
  - frame.
  - apply makeatoms_with_keeps, update_with_keeps, IH.
Qed.

(** X4.  [add_direction] always leaves the new direction as the last row
    of the table, with its layers and its energy as bare numbers, and the
    rows before it as they were, also when the refresh it ends with
    raises. *)
Theorem add_direction_appends_bare_numbers
        (depth : nat) (d : dialog) (direction_ : direction) (layers : Z)
        (energy : F) :
  direction_table
    (snd (add_direction natoms cluster wulff_construction update_element
                        depth direction_ layers energy d))
  = direction_table d ++ [mkRow direction_ (Plain layers) (Plain energy)].
Proof.
  unfold add_direction. unfold bind at 1, gets at 1. cbn beta iota.
  unfold bind at 1, modify at 1. cbn beta iota.
  match goal with
  | |- direction_table (snd (?rest ?appended)) = _ =>
      assert (Hrest : keeps settings rest)
  end.
  { pose proof (update_with_keeps _ (makeatoms_keeps depth)) as Hrefresh.
    fold (update depth) in Hrefresh.
    unfold show. frame. }
  match goal with
  | |- direction_table (snd (?rest ?appended)) = _ =>
      destruct (Hrest appended) as (_ & _ & _ & _ & _ & ->)
  end.
  reflexivity.
Qed.

Section Sized.

(** Checking the element leaves the widgets and the two sizes alone. *)
Hypothesis element_check_keeps_numbers : keeps numbers update_element.

Lemma update_with_keeps_sizes (building : M dialog (option bool)) :
  keeps sizes building ->
  keeps sizes (update_with natoms update_element building).
Proof.
  intros Hbuilding.
  pose proof (keeps_weaker sizes numbers _ same_numbers_sizes
                           makeinfo_keeps_numbers).
  pose proof (keeps_weaker sizes numbers _ same_numbers_sizes
                           clearatoms_keeps_numbers).
  pose proof (keeps_weaker sizes numbers _ same_numbers_sizes
                           element_check_keeps_numbers).
  unfold update_with, emit.
  frame_sizes.
Qed.

(** [update_size_dia] writes the number of atoms only when the size is
    given as a diameter. *)
Lemma update_size_dia_with_keeps_count (refresh : M dialog unit) :
  keeps sizes refresh ->
  keeps counts (update_size_dia_with refresh).
Proof.
  intros Hrefresh s.
  unfold update_size_dia_with, bind at 1, gets at 1. cbn beta iota.
  destruct (size_dia_radio (inputs s)) eqn:Hradio; cbn [negb];
    [|apply same_count_refl].
  match goal with
  | |- same_count s (snd (?rest s)) =>
      assert (Hrest : keeps diameters rest)
  end.
  { pose proof (keeps_weaker diameters numbers _
                             same_numbers_diameter
                             get_atomic_volume_keeps_numbers).
    pose proof (keeps_weaker diameters sizes _
                             same_sizes_diameter Hrefresh).
    frame_diameters. }
  destruct (Hrest s) as [Hinputs Hdia].
  split; [exact Hinputs|]. split; [exact Hdia|].
  intros Hoff. congruence.
Qed.

Lemma makeatoms_with_keeps_sizes (refresh : M dialog unit) :
  keeps sizes refresh ->
  keeps sizes
        (makeatoms_with natoms cluster wulff_construction update_element
                        refresh).
Proof.
  intros Hrefresh.
  pose proof makeinfo_keeps_numbers as Hinfo.
  pose proof clearatoms_keeps_numbers as Hclear.
  pose proof get_atomic_volume_keeps_numbers as Hvolume.
  pose proof (keeps_weaker sizes numbers _ same_numbers_sizes Hinfo)
    as Hinfo_sizes.
  pose proof (keeps_weaker sizes numbers _ same_numbers_sizes Hclear)
    as Hclear_sizes.
  pose proof (keeps_weaker sizes numbers _ same_numbers_sizes
                           element_check_keeps_numbers) as Hcheck_sizes.
  pose proof (keeps_weaker counts numbers _ same_numbers_count Hinfo)
    as Hinfo_count.
  pose proof (update_size_dia_with_keeps_count refresh Hrefresh) as Hsized.
  unfold makeatoms_with.
  apply (keeps_bind sizes same_sizes_trans); [exact Hcheck_sizes|].
  intros valid. destruct (negb valid); [frame_sizes|].
  apply (keeps_bind sizes same_sizes_trans);
    [apply (keeps_gets sizes same_sizes_refl)|].
  intros el.
  destruct el; try apply (keeps_raise sizes same_sizes_refl);
    (apply (keeps_bind sizes same_sizes_trans);
     [unfold active_structure; frame_sizes|]);
    intros struct;
    (apply (keeps_bind sizes same_sizes_trans);
     [unfold subscript; frame_sizes|]);
    intros two;
    (apply (keeps_bind sizes same_sizes_trans);
     [apply (keeps_gets sizes same_sizes_refl)|]);
    intros a;
    (apply (keeps_bind sizes same_sizes_trans);
     [apply (keeps_gets sizes same_sizes_refl)|]);
    intros c; cbv zeta;
    apply keeps_read; intros s; cbn beta;
    destruct (Nat.eqb (cb_active (method (inputs s))) 0) eqn:Hmethod;
    cbn beta iota.
  all: match goal with
       | Hlayers : Nat.eqb _ 0 = true |- same_sizes ?s (snd (?built ?s)) =>
           apply same_numbers_sizes;
           assert (Hbuilt : keeps numbers built)
             by (unfold subscript, emit, show; frame_numbers);
           apply Hbuilt
       | Hwulff : Nat.eqb _ 0 = false |- same_sizes ?s (snd (?built ?s)) =>
           assert (Hbuilt : keeps counts built)
             by (unfold rounding_choice, subscript, emit, show; frame_counts);
           destruct (Hbuilt s) as (Hinputs & Hdia & Hcount);
           split; [exact Hinputs|]; split; [exact Hdia|];
           intros [Hoff|Hlayers];
           [exact (Hcount Hoff) | rewrite Hlayers in Hwulff; discriminate]
       end.
Qed.

Lemma makeatoms_keeps_sizes (depth : nat) :
  keeps sizes (makeatoms depth).
Proof.
  induction depth as [|depth IH]; cbn [Nanoparticle.makeatoms].
  - apply (keeps_raise sizes same_sizes_refl).
  - apply makeatoms_with_keeps_sizes, update_with_keeps_sizes, IH.
Qed.

(** X3.  Building the atoms never changes what the user has set.
    Whatever the depth, and whether they return or raise, [makeatoms],
    [update] and [apply] leave the widgets, the list of structures, the
    direction table, [fourindex], [old_structure], [no_update] and the
    diameter as they were, and the number of atoms too unless the Wulff
    construction is selected with the size given as a diameter, the case
    in which [update_size_dia] writes it.  Checking the element is taken
    to leave all of these alone. *)
Theorem building_leaves_settings_alone (depth : nat) (d : dialog) :
  (same_settings d (snd (makeatoms depth d))
   /\ same_sizes d (snd (makeatoms depth d)))
  /\ (same_settings d (snd (update depth d))
      /\ same_sizes d (snd (update depth d)))
  /\ (same_settings d (snd (apply depth d))
      /\ same_sizes d (snd (apply depth d))).
Proof.
  pose proof (makeatoms_keeps depth) as Hbuilding.
  pose proof (makeatoms_keeps_sizes depth) as Hsizes.
  split; [split; [apply Hbuilding | apply Hsizes]|]. split.
  - split.
    + apply (update_with_keeps _ Hbuilding).
    + apply (update_with_keeps_sizes _ Hsizes).
  - split.
    + assert (Happly : keeps settings (apply depth))
        by (unfold Nanoparticle.apply, emit; frame).
      apply Happly.
    + assert (Happly : keeps sizes (apply depth))
        by (unfold Nanoparticle.apply, emit;
            frame_sizes).
      apply Happly.
Qed.

(** *** A refresh that never ends *)

Lemma rebuilds_from_diameter_settings (d d' : dialog) :
  same_settings d d' -> rebuilds_from_diameter d -> rebuilds_from_diameter d'.
Proof.
  unfold same_settings, rebuilds_from_diameter.
  intros (Hoff & Hinputs & _ & _ & Hstructures & Htable).
  rewrite Hoff, Hinputs, Hstructures, Htable. tauto.
Qed.

Lemma converts_diameter_settings (d d' : dialog) :
  same_settings d d' ->
  size_dia_adj d' = size_dia_adj d ->
  converts_diameter d -> converts_diameter d'.
Proof.
  intros (_ & Hinputs & _ & _ & Hstructures & _) Hdia Hconverts at_vol.
  rewrite (NanoparticleFacts.get_atomic_volume_reads Atoms d d'
             Hinputs Hstructures).
  cbn [fst]. rewrite Hdia. apply Hconverts.
Qed.

Section Accepted.

(** The element is valid at every check. *)
Hypothesis element_accepted :
  forall d : dialog,
    fst (update_element d) = Return true
    /\ legal_element (snd (update_element d)) <> ElNone.

Lemma makeatoms_never_returns (depth : nat) :
  forall d : dialog,
    rebuilds_from_diameter d ->
    converts_diameter d ->
    fst (makeatoms depth d) = Raise RecursionError.
Proof.
  induction depth as [|depth IH]; intros d Hd Hconverts; [reflexivity|].
  cbn [Nanoparticle.makeatoms].
  unfold makeatoms_with, bind at 1.
  destruct (element_accepted d) as [Hvalid Hlegal].
  pose proof (element_check_keeps d) as Hkept.
  pose proof (element_check_keeps_numbers d) as (_ & Hdia & _).
  destruct (update_element d) as [checked d1].
  cbn [fst snd] in Hvalid, Hlegal, Hkept, Hdia. subst checked. cbn [negb].
  apply (rebuilds_from_diameter_settings _ _ Hkept) in Hd.
  apply (converts_diameter_settings _ _ Hkept Hdia) in Hconverts.
  destruct Hd as (Hon & Hauto & Hradio & Hmethod
                  & (s & two & Hselected & Hknown) & (energies & Henergies)).
  unfold bind at 1, gets at 1.
  assert (Hbody : forall body : M dialog (option bool),
             match legal_element d1 with
             | ElNone => raise AssertionError
             | _ => body
             end = body)
    by (intros body; destruct (legal_element d1); congruence).
  rewrite Hbody. clear Hbody.
  assert (Hinner :
    fst (update_size_dia_with
           (update_with natoms update_element (makeatoms depth)) d1)
    = Raise RecursionError).
  { unfold update_size_dia_with, bind at 1, gets at 1. cbn beta iota.
    rewrite Hradio. cbn [negb].
    destruct (NanoparticleFacts.get_atomic_volume_known Atoms d1 s two
                Hselected Hknown) as [at_vol Hvolume].
    destruct (Hconverts at_vol) as [n Hn]; [rewrite Hvolume; reflexivity|].
    unfold bind at 1. rewrite Hvolume.
    unfold bind at 1, gets at 1. cbn beta iota.
    unfold bind at 1, lift. rewrite Hn.
    unfold bind at 1, modify at 1. cbn beta iota.
    set (d2 := set_size_n_adj n d1).
    assert (Hd2 : same_settings d1 d2) by (subst d2; settings_kept_here).
    unfold update_with, bind at 1, gets at 1. cbn beta iota.
    replace (no_update d2) with false by (symmetry; exact Hon).
    unfold bind at 1.
    destruct (element_accepted d2) as [Hvalid2 _].
    pose proof (element_check_keeps d2) as Hkept2.
    pose proof (element_check_keeps_numbers d2) as (_ & Hdia2 & _).
    destruct (update_element d2) as [checked d3].
    cbn [fst snd] in Hvalid2, Hkept2, Hdia2. subst checked.
    pose proof (same_settings_trans _ _ _ Hd2 Hkept2) as Hd3.
    unfold bind at 1, gets at 1. cbn beta iota.
    replace (auto (inputs d3)) with true
      by (destruct Hd3 as (_ & -> & _); symmetry; exact Hauto).
    unfold bind at 1, bind at 1.
    assert (Hnested : fst (makeatoms depth d3) = Raise RecursionError).
    { apply IH.
      - apply (rebuilds_from_diameter_settings d1 d3 Hd3).
        unfold rebuilds_from_diameter. eauto 10.
      - apply (converts_diameter_settings d1 d3 Hd3); [|exact Hconverts].
        rewrite Hdia2. reflexivity. }
    destruct (makeatoms depth d3) as [built d4].
    cbn [fst] in Hnested. subst built. reflexivity. }
  unfold active_structure, subscript, lift, bind, gets, ret, raise.
  cbn beta iota. rewrite Hselected. cbn beta iota. rewrite Hknown.
  cbn beta iota. rewrite Hmethod. cbn beta iota delta [Nat.eqb].
  rewrite Henergies. cbn beta iota.
  destruct (update_size_dia_with _ d1) as [sized d5].
  cbn [fst] in Hinner. subst sized. reflexivity.
Qed.

(** X5.  A refresh that builds a Wulff construction from a diameter
    never ends.  With updates on, automatic apply ticked, the Wulff
    construction selected, the size given as a diameter that converts to
    a number of atoms, a known structure, rows of adjustments and an
    element that is valid at every check, [makeatoms] calls
    [update_size_dia], which sets the number of atoms and refreshes,
    which calls [makeatoms] again: whatever depth of calls the
    interpreter allows, [makeatoms], [update] and [apply] raise
    [RecursionError]. *)
Theorem refresh_from_diameter_exhausts_stack (depth : nat) (d : dialog) :
  rebuilds_from_diameter d ->
  converts_diameter d ->
  fst (makeatoms depth d) = Raise RecursionError
  /\ fst (update depth d) = Raise RecursionError
  /\ fst (apply depth d) = Raise RecursionError.
Proof.
  intros Hd Hconverts.
  pose proof (makeatoms_never_returns depth d Hd Hconverts) as Hbuilding.
  split; [exact Hbuilding|]. split.
  - unfold Nanoparticle.update, update_with, bind at 1, gets at 1.
    cbn beta iota.
    destruct Hd as (Hon & Hauto & Hrest). rewrite Hon.
    unfold bind at 1.
    destruct (element_accepted d) as [Hvalid _].
    pose proof (element_check_keeps d) as Hkept.
    pose proof (element_check_keeps_numbers d) as (_ & Hdia & _).
    destruct (update_element d) as [checked d1].
    cbn [fst snd] in Hvalid, Hkept, Hdia. subst checked.
    unfold bind at 1, gets at 1. cbn beta iota.
    replace (auto (inputs d1)) with true
      by (destruct Hkept as (_ & -> & _); symmetry; exact Hauto).
    unfold bind at 1, bind at 1.
    assert (Hnested : fst (makeatoms depth d1) = Raise RecursionError).
    { apply makeatoms_never_returns.
      - apply (rebuilds_from_diameter_settings d d1 Hkept).
        unfold rebuilds_from_diameter. tauto.
      - exact (converts_diameter_settings d d1 Hkept Hdia Hconverts). }
    destruct (makeatoms depth d1) as [built d2].
    cbn [fst] in Hnested. subst built. reflexivity.
  - unfold Nanoparticle.apply, bind at 1.
    destruct (makeatoms depth d) as [built d1].
    cbn [fst] in Hbuilding. subst built. reflexivity.
Qed.

End Accepted.

End Sized.

End Checked.

End Facts.

(** *** Worked instances *)

Import Symbolic.

Lemma accept_copper_keeps_settings :
  forall d : dialog, same_settings d (snd (accept_copper d)).
Proof.
  intros d. unfold same_settings.
  repeat (split; [reflexivity|]). reflexivity.
Qed.

Lemma accept_copper_keeps_numbers :
  forall d : dialog, same_numbers d (snd (accept_copper d)).
Proof. intros d. repeat split. Qed.

Lemma accept_copper_checks :
  forall d : dialog,
    (exists valid : bool, fst (accept_copper d) = Return valid)
    /\ same_table d (snd (accept_copper d)).
Proof.
  intros d. split; [exists true; reflexivity|].
  unfold same_table. repeat (split; [reflexivity|]). reflexivity.
Qed.

Lemma accept_copper_accepts :
  forall d : dialog,
    fst (accept_copper d) = Return true
    /\ legal_element (snd (accept_copper d)) <> ElNone.
Proof. intros d. split; [reflexivity | discriminate]. Qed.

Lemma redraw_keeps :
  (forall d : dialog, direction_table (snd (redraw d)) = direction_table d)
  /\ (forall d : dialog, fourindex (snd (redraw d)) = fourindex d).
Proof. split; reflexivity. Qed.

Ltac valid_by_evaluation :=
  vm_compute; repeat first [constructor | intro; discriminate].

(** Building the cluster of the one row (1, 0, 0) of adjustments. *)
Lemma building_leaves_settings_alone_witness :
  let d := one_row in
  let r := makeatoms particle_natoms Cluster Wulff accept_copper
                     recursion_limit d in
  keeps same_settings accept_copper
  /\ keeps same_numbers accept_copper
  /\ fst r = Return None
  /\ atoms (snd r)
     = Some (Cluster FaceCenteredCubic (ElSymbol "Cu") [[1; 0; 0]] [5]
                     (Lc (Float "3.0")))
  /\ same_settings d (snd r)
  /\ same_sizes d (snd r).
Proof.
  cbv zeta. split; [exact accept_copper_keeps_settings|].
  split; [exact accept_copper_keeps_numbers|].
  split; [vm_compute; reflexivity|].
  split; [vm_compute; reflexivity|].
  exact (proj1 (building_leaves_settings_alone
                  particle particle_natoms Cluster Wulff accept_copper
                  accept_copper_keeps_settings accept_copper_keeps_numbers
                  recursion_limit one_row)).
Defined.

(** Adding the direction (1, 0, 1) to the dialog as it opens. *)
Lemma add_direction_appends_bare_numbers_witness :
  let d := opened accept_copper in
  keeps same_settings accept_copper
  /\ direction_table
       (snd (add_direction particle_natoms Cluster Wulff accept_copper
                           recursion_limit [1; 0; 1] 4 (Float "1.0") d))
     = direction_table d ++ [mkRow [1; 0; 1] (Plain 4) (Plain (Float "1.0"))].
Proof.
  cbv zeta. split; [exact accept_copper_keeps_settings|].
  exact (add_direction_appends_bare_numbers
           particle particle_natoms Cluster Wulff accept_copper
           accept_copper_keeps_settings recursion_limit
           (opened accept_copper) [1; 0; 1] 4 (Float "1.0")).
Defined.

(** One row of adjustments, the Wulff construction from a diameter,
    automatic apply. *)
Lemma refresh_from_diameter_exhausts_stack_witness :
  rebuilds_from_diameter wulff_by_diameter
  /\ converts_diameter wulff_by_diameter
  /\ fst (makeatoms particle_natoms Cluster Wulff accept_copper
                    recursion_limit wulff_by_diameter)
     = Raise RecursionError.
Proof.
  assert (Hsettings : rebuilds_from_diameter wulff_by_diameter).
  { unfold rebuilds_from_diameter.
    do 4 (split; [vm_compute; reflexivity|]). split.
    - exists "fcc", false. split; vm_compute; reflexivity.
    - exists [Float "1.0"]. vm_compute. reflexivity. }
  assert (Hconverts : converts_diameter wulff_by_diameter).
  { intros at_vol Hvolume. vm_compute in Hvolume. injection Hvolume as <-.
    eexists. vm_compute. reflexivity. }
  split; [exact Hsettings|]. split; [exact Hconverts|].
  exact (proj1 (refresh_from_diameter_exhausts_stack
                  particle particle_natoms Cluster Wulff accept_copper
                  accept_copper_keeps_settings accept_copper_keeps_numbers
                  accept_copper_accepts
                  recursion_limit wulff_by_diameter Hsettings Hconverts)).
Defined.

(** The same dialog with the lattice constant at zero: the volume per
    atom is zero and the division raises. *)
Lemma failed_conversion_stops_building_witness :
  let d1 := snd (accept_copper zero_lattice) in
  let at_vol := Div (Pow (Float "0.0") (Int 3)) (Int 4) in
  accept_copper zero_lattice = (Return true, d1)
  /\ legal_element d1 <> ElNone
  /\ list_of_structures d1 !! cb_active (structure (inputs d1)) = Some "fcc"
  /\ getitem needs_2lat "fcc" = Some false
  /\ cb_active (method (inputs d1)) = 1%nat
  /\ comprehension (fun x => value_of "float" (row_energy x))
                   (direction_table d1)
     = Return [Float "1.0"]
  /\ size_dia_radio (inputs d1) = true
  /\ get_atomic_volume d1 = (Return at_vol, d1)
  /\ count_in_sphere (size_dia_adj d1) at_vol = Raise ZeroDivisionError
  /\ makeatoms particle_natoms Cluster Wulff accept_copper
               recursion_limit zero_lattice
     = (Raise ZeroDivisionError, d1).
Proof.
  cbv zeta.
  assert (H1 : accept_copper zero_lattice
               = (Return true, snd (accept_copper zero_lattice)))
    by reflexivity.
  assert (H2 : legal_element (snd (accept_copper zero_lattice)) <> ElNone)
    by discriminate.
  assert (H3 : list_of_structures (snd (accept_copper zero_lattice))
                 !! cb_active
                      (structure (inputs (snd (accept_copper zero_lattice))))
               = Some "fcc") by (vm_compute; reflexivity).
  assert (H4 : getitem needs_2lat "fcc" = Some false)
    by (vm_compute; reflexivity).
  assert (H5 : cb_active (method (inputs (snd (accept_copper zero_lattice))))
               = 1%nat) by (vm_compute; reflexivity).
  assert (H6 : comprehension
                 (fun x => value_of "float" (row_energy x))
                 (direction_table (snd (accept_copper zero_lattice)))
               = Return [Float "1.0"]) by (vm_compute; reflexivity).
  assert (H7 : size_dia_radio (inputs (snd (accept_copper zero_lattice)))
               = true) by (vm_compute; reflexivity).
  assert (H8 : get_atomic_volume (snd (accept_copper zero_lattice))
               = (Return (Div (Pow (Float "0.0") (Int 3)) (Int 4)),
                  snd (accept_copper zero_lattice)))
    by (vm_compute; reflexivity).
  assert (H9 : count_in_sphere
                 (size_dia_adj (snd (accept_copper zero_lattice)))
                 (Div (Pow (Float "0.0") (Int 3)) (Int 4))
               = Raise ZeroDivisionError) by (vm_compute; reflexivity).
  do 9 (split; [assumption|]).
  exact (proj1 (failed_conversion_stops_building
                  particle particle_natoms Cluster Wulff accept_copper
                  999 zero_lattice _ "fcc" false [Float "1.0"] _
                  ZeroDivisionError H1 H2 H3 H4 H5 H6 H7 H8 H9)).
Defined.

(** The dialog as it opens, with no valid element. *)
Lemma makeatoms_without_valid_element_witness :
  let d := opened reject_element in
  reject_element d = (Return false, snd (reject_element d))
  /\ fst (makeatoms particle_natoms Cluster Wulff reject_element
                    recursion_limit d)
     = Return (Some false).
Proof.
  cbv zeta.
  assert (Hinvalid :
    reject_element (opened reject_element)
    = (Return false, snd (reject_element (opened reject_element))))
    by reflexivity.
  split; [exact Hinvalid|].
  exact (proj1 (makeatoms_without_valid_element
                  particle particle_natoms Cluster Wulff reject_element
                  999 (opened reject_element) _ Hinvalid)).
Defined.

(** A refresh of the dialog as it opens. *)
Lemma refresh_without_automatic_apply_discards_atoms_witness :
  let d := opened accept_copper in
  no_update d = false
  /\ accept_copper d = (Return true, snd (accept_copper d))
  /\ auto (inputs (snd (accept_copper d))) = false
  /\ atoms (snd (update particle_natoms Cluster Wulff accept_copper
                         recursion_limit d))
     = None.
Proof.
  cbv zeta.
  assert (Hon : no_update (opened accept_copper) = false)
    by (vm_compute; reflexivity).
  assert (Hchecked :
    accept_copper (opened accept_copper)
    = (Return true, snd (accept_copper (opened accept_copper))))
    by reflexivity.
  assert (Hmanual :
    auto (inputs (snd (accept_copper (opened accept_copper)))) = false)
    by (vm_compute; reflexivity).
  split; [exact Hon|]. split; [exact Hchecked|]. split; [exact Hmanual|].
  exact (proj1 (proj2 (refresh_without_automatic_apply_discards_atoms
                         particle particle_natoms Cluster Wulff accept_copper
                         recursion_limit (opened accept_copper) _ true
                         Hon Hchecked Hmanual))).
Defined.

(** Atoms in a dialog whose structure box points past the list. *)
Lemma makeinfo_stops_after_atom_count_witness :
  let built := Cluster FaceCenteredCubic (ElSymbol "Cu") [[1; 0; 0]] [6]
                       (Lc (Float "3.0")) in
  atoms past_the_list = Some built
  /\ get_atomic_volume past_the_list = (Raise IndexError, past_the_list)
  /\ fst (makeinfo particle_natoms past_the_list) = Raise IndexError.
Proof.
  cbv zeta.
  assert (Hatoms :
    atoms past_the_list
    = Some (Cluster FaceCenteredCubic (ElSymbol "Cu") [[1; 0; 0]] [6]
                    (Lc (Float "3.0"))))
    by (vm_compute; reflexivity).
  assert (Hvolume :
    get_atomic_volume past_the_list = (Raise IndexError, past_the_list))
    by (vm_compute; reflexivity).
  split; [exact Hatoms|]. split; [exact Hvolume|].
  exact (proj1 (makeinfo_stops_after_atom_count
                  particle particle_natoms past_the_list _ IndexError
                  Hatoms Hvolume)).
Defined.

(** Applying the one row (1, 0, 0) of adjustments, by layers. *)
Lemma apply_hands_cluster_to_viewer_witness :
  let d1 := snd (accept_copper one_row) in
  let built := Cluster FaceCenteredCubic (ElSymbol "Cu") [[1; 0; 0]] [5]
                       (Lc (Float "3.0")) in
  accept_copper one_row = (Return true, d1)
  /\ legal_element d1 <> ElNone
  /\ list_of_structures d1 !! cb_active (structure (inputs d1)) = Some "fcc"
  /\ getitem needs_2lat "fcc" = Some false
  /\ cb_active (method (inputs d1)) = 0%nat
  /\ comprehension (fun x => value_of "int" (row_layers x))
                   (direction_table d1)
     = Return [5]
  /\ exists f : factory,
       getitem factory_of "fcc" = Some f
       /\ fst (apply particle_natoms Cluster Wulff accept_copper
                     recursion_limit one_row)
          = Return true.
Proof.
  cbv zeta.
  assert (H1 : accept_copper one_row
               = (Return true, snd (accept_copper one_row))) by reflexivity.
  assert (H2 : legal_element (snd (accept_copper one_row)) <> ElNone)
    by discriminate.
  assert (H3 : list_of_structures (snd (accept_copper one_row))
                 !! cb_active (structure (inputs (snd (accept_copper one_row))))
               = Some "fcc") by (vm_compute; reflexivity).
  assert (H4 : getitem needs_2lat "fcc" = Some false)
    by (vm_compute; reflexivity).
  assert (H5 : cb_active (method (inputs (snd (accept_copper one_row))))
               = 0%nat) by (vm_compute; reflexivity).
  assert (H6 : comprehension (fun x => value_of "int" (row_layers x))
                             (direction_table (snd (accept_copper one_row)))
               = Return [5]) by (vm_compute; reflexivity).
  do 6 (split; [assumption|]).
  destruct (apply_hands_cluster_to_viewer
              particle particle_natoms Cluster Wulff accept_copper
              999 one_row _ "fcc" false [5] H1 H2 H3 H4 H5 H6)
    as (f & Hfactory & Hret & _).
  exists f. split; [exact Hfactory | exact Hret].
Defined.

(** Applying the same row by the Wulff construction. *)
Lemma apply_hands_wulff_particle_to_viewer_witness :
  let d1 := snd (accept_copper one_row_wulff) in
  accept_copper one_row_wulff = (Return true, d1)
  /\ legal_element d1 <> ElNone
  /\ list_of_structures d1 !! cb_active (structure (inputs d1)) = Some "fcc"
  /\ getitem needs_2lat "fcc" = Some false
  /\ cb_active (method (inputs d1)) = 1%nat
  /\ comprehension (fun x => value_of "float" (row_energy x))
                   (direction_table d1)
     = Return [Float "1.0"]
  /\ size_dia_radio (inputs d1) = false
  /\ exists f : factory,
       getitem factory_of "fcc" = Some f
       /\ fst (apply particle_natoms Cluster Wulff accept_copper
                     recursion_limit one_row_wulff)
          = Return true.
Proof.
  cbv zeta.
  assert (H1 : accept_copper one_row_wulff
               = (Return true, snd (accept_copper one_row_wulff)))
    by reflexivity.
  assert (H2 : legal_element (snd (accept_copper one_row_wulff)) <> ElNone)
    by discriminate.
  assert (H3 : list_of_structures (snd (accept_copper one_row_wulff))
                 !! cb_active
                      (structure (inputs (snd (accept_copper one_row_wulff))))
               = Some "fcc") by (vm_compute; reflexivity).
  assert (H4 : getitem needs_2lat "fcc" = Some false)
    by (vm_compute; reflexivity).
  assert (H5 : cb_active
                 (method (inputs (snd (accept_copper one_row_wulff))))
               = 1%nat) by (vm_compute; reflexivity).
  assert (H6 : comprehension
                 (fun x => value_of "float" (row_energy x))
                 (direction_table (snd (accept_copper one_row_wulff)))
               = Return [Float "1.0"]) by (vm_compute; reflexivity).
  assert (H7 : size_dia_radio (inputs (snd (accept_copper one_row_wulff)))
               = false) by (vm_compute; reflexivity).
  do 7 (split; [assumption|]).
  destruct (apply_hands_wulff_particle_to_viewer
              particle particle_natoms Cluster Wulff accept_copper
              999 one_row_wulff _ "fcc" false [Float "1.0"]
              H1 H2 H3 H4 H5 H6 H7)
    as (f & Hfactory & Hmade).
  exists f. split; [exact Hfactory|].
  cbv zeta in Hmade.
  assert (Hclosest :
    (if round_above (inputs (snd (accept_copper one_row_wulff)))
     then Some "above"
     else if round_below (inputs (snd (accept_copper one_row_wulff)))
          then Some "below"
          else if round_closest (inputs (snd (accept_copper one_row_wulff)))
               then Some "closest"
               else None)
    = Some "closest") by (vm_compute; reflexivity).
  rewrite Hclosest in Hmade. exact (proj1 Hmade).
Defined.

(** [Down] on the last of the three default rows, and deleting a fourth
    row. *)
Lemma row_out_of_range_changes_nothing_witness :
  let d := opened accept_copper in
  Z.of_nat (length (direction_table d)) - 1 <= 2
  /\ row_swap_next redraw tt 2 d = (Raise IndexError, d)
  /\ row_delete redraw 3 d = (Raise IndexError, d).
Proof.
  cbv zeta.
  assert (Hlast : Z.of_nat (length (direction_table (opened accept_copper))) - 1
                  <= 2) by (vm_compute; discriminate).
  assert (Hpast : Z.of_nat (length (direction_table (opened accept_copper)))
                  <= 3) by (vm_compute; discriminate).
  split; [exact Hlast|]. split.
  - exact (proj1 (row_out_of_range_changes_nothing
                    particle redraw unit tt (opened accept_copper) 2)
                 (or_intror Hlast)).
  - exact (proj2 (row_out_of_range_changes_nothing
                    particle redraw unit tt (opened accept_copper) 3)
                 (or_intror Hpast)).
Defined.

(** [Up] on the first of the three default rows. *)
Lemma row_swap_next_wraps_around_witness :
  let d := opened accept_copper in
  let dt := direction_table d in
  (forall d' : dialog, direction_table (snd (redraw d')) = direction_table d')
  /\ (1 <= length dt)%nat
  /\ direction_table (snd (row_swap_next redraw tt (-1) d)) !! 0%nat
     = dt !! (length dt - 1)%nat.
Proof.
  cbv zeta.
  assert (Hlen : (1 <= length (direction_table (opened accept_copper)))%nat)
    by (vm_compute; lia).
  split; [exact (proj1 redraw_keeps)|]. split; [exact Hlen|].
  exact (proj1 (row_swap_next_wraps_around
                  particle redraw unit tt (proj1 redraw_keeps)
                  (opened accept_copper) Hlen)).
Defined.

(** Adding (1, 0, 0) to an empty table. *)
Lemma row_add_keeps_directions_valid_witness :
  ((if fourindex typed_100 then 4 else 3)
   <= length (newdir_index (inputs typed_100)))%nat
  /\ Forall (fun i => Z.abs i <= index_bound) (newdir_index (inputs typed_100))
  /\ table_valid typed_100
  /\ direction_table (snd (row_add redraw typed_100))
     = [mkRow [1; 0; 0] (Adjustment 5) (Adjustment (Float "1.0"))]
  /\ table_valid (snd (row_add redraw typed_100)).
Proof.
  assert (Hboxes : ((if fourindex typed_100 then 4 else 3)
                    <= length (newdir_index (inputs typed_100)))%nat)
    by (vm_compute; lia).
  assert (Hsmall : Forall (fun i => Z.abs i <= index_bound)
                          (newdir_index (inputs typed_100)))
    by (cbn; do 4 (constructor; [vm_compute; discriminate|]); constructor).
  assert (Hvalid : table_valid typed_100) by valid_by_evaluation.
  split; [exact Hboxes|]. split; [exact Hsmall|]. split; [exact Hvalid|].
  split; [vm_compute; reflexivity|].
  exact (row_add_keeps_directions_valid
           particle redraw (proj1 redraw_keeps) (proj2 redraw_keeps)
           typed_100 Hboxes Hsmall Hvalid).
Defined.

(** Beyond the bound the second check of [row_add] can be passed by a
    direction whose first three indices do not sum to zero: the sum of
    (-2^63, -2^63, 0) wraps around to zero, and the direction is
    appended. *)
Lemma row_add_appends_wrapping_direction :
  let idx := [- 2 ^ 63; - 2 ^ 63; 0; 1] in
  fourindex typed_wrapping = true
  /\ newdir_index (inputs typed_wrapping) = idx
  /\ foldr Z.add 0 (take 3 idx) = - 2 ^ 64
  /\ sum_first_three idx = 0
  /\ direction_table (snd (row_add redraw typed_wrapping))
     = hexagonal_rows
         ++ [mkRow idx (Adjustment 5) (Adjustment (Float "1.0"))].
Proof. cbv zeta. do 4 (split; [vm_compute; reflexivity|]). vm_compute. reflexivity. Qed.

(** Deleting the second default row. *)
Lemma row_moves_keep_directions_valid_witness :
  let d := opened accept_copper in
  table_valid d /\ table_valid (snd (row_delete redraw 1 d)).
Proof.
  cbv zeta.
  assert (Hvalid : table_valid (opened accept_copper))
    by valid_by_evaluation.
  split; [exact Hvalid|].
  exact (proj1 (row_moves_keep_directions_valid
                  particle redraw unit tt
                  (proj1 redraw_keeps) (proj2 redraw_keeps)
                  (opened accept_copper) 1 Hvalid)).
Defined.

(** Selecting hcp in the dialog opened on fcc. *)
Lemma update_structure_keeps_directions_valid_witness :
  let d := hcp_selected accept_copper in
  (no_update d = true \/ auto (inputs d) = false)
  /\ getitem needs_4index (cb_value (structure (inputs d))) = Some true
  /\ table_valid d
  /\ table_valid (snd (update_structure particle_natoms Cluster Wulff
                                        accept_copper recursion_limit d)).
Proof.
  cbv zeta.
  assert (Hquiet : no_update (hcp_selected accept_copper) = true
                   \/ auto (inputs (hcp_selected accept_copper)) = false)
    by (right; vm_compute; reflexivity).
  assert (Hfour : getitem needs_4index
                    (cb_value (structure (inputs (hcp_selected accept_copper))))
                  = Some true) by (vm_compute; reflexivity).
  assert (Hvalid : table_valid (hcp_selected accept_copper))
    by valid_by_evaluation.
  split; [exact Hquiet|]. split; [exact Hfour|]. split; [exact Hvalid|].
  exact (update_structure_keeps_directions_valid
           particle particle_natoms Cluster Wulff accept_copper
           accept_copper_checks recursion_limit
           (hcp_selected accept_copper) true Hquiet Hfour Hvalid).
Defined.

Lemma update_structure_records_arity_witness :
  let d := hcp_selected accept_copper in
  let r := update_structure particle_natoms Cluster Wulff accept_copper
                            recursion_limit d in
  (no_update d = true \/ auto (inputs d) = false)
  /\ getitem needs_4index (cb_value (structure (inputs d))) = Some true
  /\ (cb_value (structure (inputs d)) = old_structure d -> fourindex d = true)
  /\ getitem needs_4index (old_structure (snd r)) = Some (fourindex (snd r)).
Proof.
  cbv zeta.
  assert (Hquiet : no_update (hcp_selected accept_copper) = true
                   \/ auto (inputs (hcp_selected accept_copper)) = false)
    by (right; vm_compute; reflexivity).
  assert (Hfour : getitem needs_4index
                    (cb_value (structure (inputs (hcp_selected accept_copper))))
                  = Some true) by (vm_compute; reflexivity).
  assert (Hrecorded :
    cb_value (structure (inputs (hcp_selected accept_copper)))
    = old_structure (hcp_selected accept_copper) ->
    fourindex (hcp_selected accept_copper) = true)
    by (vm_compute; discriminate).
  split; [exact Hquiet|]. split; [exact Hfour|]. split; [exact Hrecorded|].
  exact (proj2 (proj2 (update_structure_records_arity
                         particle particle_natoms Cluster Wulff accept_copper
                         accept_copper_checks recursion_limit
                         (hcp_selected accept_copper) true
                         Hquiet Hfour Hrecorded))).
Defined.

(** Filling the table of the blank dialog, as [__init__] does. *)
Lemma default_table_is_drawn_in_step_witness :
  (no_update blank = true \/ auto (inputs blank) = false)
  /\ getitem default_layers (cb_value (structure (inputs blank)))
     = Some [([1; 0; 0], 6); ([1; 1; 0], 9); ([1; 1; 1], 5)]
  /\ rows_in_step
       (snd (default_direction_table particle_natoms Cluster Wulff
                                     accept_copper recursion_limit blank)).
Proof.
  assert (Hquiet : no_update blank = true \/ auto (inputs blank) = false)
    by (left; reflexivity).
  assert (Hdefaults :
    getitem default_layers (cb_value (structure (inputs blank)))
    = Some [([1; 0; 0], 6); ([1; 1; 0], 9); ([1; 1; 1], 5)])
    by (vm_compute; reflexivity).
  split; [exact Hquiet|]. split; [exact Hdefaults|].
  exact (proj2 (default_table_is_drawn_in_step
                  particle particle_natoms Cluster Wulff accept_copper
                  accept_copper_checks recursion_limit blank _
                  Hquiet Hdefaults)).
Defined.

(** The buttons of the second of the three default rows. *)
Lemma only_delete_button_reaches_its_row_witness :
  let d := opened accept_copper in
  let x := mkRow [1; 1; 0] (Plain 9) (Plain (Int 1)) in
  let w := mkRowWidgets [1; 1; 0] (LayerSpin 9)
                        (mkButton RowSwapNext 0 true)
                        (mkButton RowSwapNext 1 true)
                        (mkButton RowDelete 1 true) in
  rows_in_step d
  /\ rows_wired d
  /\ direction_table d !! 1%nat = Some x
  /\ direction_table_rows (display d) !! 1%nat = Some w
  /\ press redraw (rw_delete w) d
     = redraw (set_direction_table (delete 1%nat (direction_table d)) d)
  /\ press redraw (rw_up w) d
     = (Raise (TypeError "missing 1 required positional argument: 'row'"), d).
Proof.
  cbv zeta.
  assert (Hstep : rows_in_step (opened accept_copper)).
  { split; [vm_compute; reflexivity|].
    intros i x w Hx Hw.
    destruct i as [|[|[|i]]]; vm_compute in Hx, Hw; try discriminate;
      injection Hx as <-; injection Hw as <-; vm_compute;
      do 6 (split; [reflexivity|]); reflexivity. }
  assert (Hwired : rows_wired (opened accept_copper))
    by (vm_compute; repeat constructor).
  assert (Hx : direction_table (opened accept_copper) !! 1%nat
               = Some (mkRow [1; 1; 0] (Plain 9) (Plain (Int 1))))
    by (vm_compute; reflexivity).
  assert (Hw : direction_table_rows (display (opened accept_copper)) !! 1%nat
               = Some (mkRowWidgets [1; 1; 0] (LayerSpin 9)
                                    (mkButton RowSwapNext 0 true)
                                    (mkButton RowSwapNext 1 true)
                                    (mkButton RowDelete 1 true)))
    by (vm_compute; reflexivity).
  split; [exact Hstep|]. split; [exact Hwired|].
  split; [exact Hx|]. split; [exact Hw|].
  destruct (only_delete_button_reaches_its_row
              particle redraw unit tt (opened accept_copper)
              1%nat _ _ Hstep Hwired Hx Hw)
    as (Hdelete & Hup & _).
  split; [exact Hdelete | exact Hup].
Defined.

End NanoparticleMore.
